(** * Staking health check: a shallow embedding of [staking-protocol-hc.py]

    The development follows the Python class [CompleteStakingHealthCheck]
    method by method and keeps the names of the source.

    - Numbers are Python numbers ([num]): unbounded integers ([Z]) and
      IEEE-754 binary64 floats (Rocq's primitive [float], which the kernel
      evaluates with the operations CPython uses).  Integer true division,
      int-to-float conversion, the exact comparison of an int with a float
      and [round] are written out; the exceptions they raise
      ([ZeroDivisionError], [OverflowError], [ValueError]) are results.
    - Side effects are explicit.  A method is a function of a [State] that
      holds the attributes of [self], the trace of the JSON-RPC requests
      posted so far, the state of the global [random] generator and the
      number of times the clock has been read; it returns a value or an
      exception, and the new state.
    - The node behind the endpoint and the Python builtins whose code is not
      in the repository ([int(s, 16)], [random.seed],
      [datetime.fromtimestamp], [datetime.now]) are the fields of an
      environment [Env]; every result is proved for all environments
      unless it names a concrete one.  The answers of the node follow the
      JSON-RPC schema (see [BlockData]).
    - Strings hold code points below 256, with [lower], [strip] and
      [zfill] as Python has them there.  Dates and times are the local
      ones of [datetime.fromtimestamp] and [datetime.now], kept as seconds
      (microseconds for the clock) of the local calendar instead of ISO
      strings; every call of [datetime.now] in the unstake analysis is a
      reading of its own.  Printing, colours and the formatted strings of
      the report are left out, none of them can change a result. *)

From Stdlib Require Import QArith ZArith List String Ascii Bool Lia Floats.
From Stdlib Require Import Sorted Permutation.
Import ListNotations.

Set Warnings "-inexact-float".
Local Open Scope string_scope.
Local Open Scope list_scope.
Local Open Scope Z_scope.

(* ================================================================== *)
(** ** Python values *)

(** The exceptions the modelled code can raise. *)
Inductive exn : Type :=
| ZeroDivisionError
| OverflowError
| ValueError.

(** A computation that either raises or returns. *)
Definition result (A : Type) : Type := (exn + A)%type.

Definition rbind {A B} (r : result A) (k : A -> result B) : result B :=
  match r with
  | inl e => inl e
  | inr a => k a
  end.

(** A Python number is an [int] or a [float]; the code mixes both (a total
    starts as the int [0] and becomes a float with the first [+=]). *)
Inductive num : Type :=
| Int (z : Z)
| Float (f : float).

Definition SF_of_Z (z : Z) : spec_float :=
  match z with
  | Z0 => S754_zero false
  | Zpos p => S754_finite false p 0
  | Zneg p => S754_finite true p 0
  end.

Definition is_infinity (f : float) : bool :=
  match Prim2SF f with
  | S754_infinity _ => true
  | _ => false
  end.

(** [float(n)]: the nearest double, ties to even; [OverflowError] when the
    integer is beyond the double range. *)
Definition float_of_Z (z : Z) : float :=
  SF2Prim (binary_normalize prec emax z 0 false).

Definition int_to_float (z : Z) : result float :=
  let f := float_of_Z z in
  if is_infinity f then inl OverflowError else inr f.

(** [a / b] on two ints: the correctly rounded quotient of the exact
    integers (CPython's [long_true_divide]). *)
Definition int_truediv (a b : Z) : result float :=
  if b =? 0 then inl ZeroDivisionError
  else
    let f := SF2Prim (SFdiv prec emax (SF_of_Z a) (SF_of_Z b)) in
    if is_infinity f then inl OverflowError else inr f.

(** [x / y] on two floats. *)
Definition float_truediv (x y : float) : result float :=
  if PrimFloat.eqb y 0%float then inl ZeroDivisionError
  else inr (x / y)%float.

Definition as_float (n : num) : result float :=
  match n with
  | Int z => int_to_float z
  | Float f => inr f
  end.

Definition num_add (a b : num) : result num :=
  match a, b with
  | Int x, Int y => inr (Int (x + y))
  | _, _ =>
      rbind (as_float a) (fun x =>
      rbind (as_float b) (fun y => inr (Float (x + y)%float)))
  end.

Definition num_sub (a b : num) : result num :=
  match a, b with
  | Int x, Int y => inr (Int (x - y))
  | _, _ =>
      rbind (as_float a) (fun x =>
      rbind (as_float b) (fun y => inr (Float (x - y)%float)))
  end.

Definition num_mul (a b : num) : result num :=
  match a, b with
  | Int x, Int y => inr (Int (x * y))
  | _, _ =>
      rbind (as_float a) (fun x =>
      rbind (as_float b) (fun y => inr (Float (x * y)%float)))
  end.

Definition num_truediv (a b : num) : result num :=
  match a, b with
  | Int x, Int y => rbind (int_truediv x y) (fun q => inr (Float q))
  | _, _ =>
      rbind (as_float a) (fun x =>
      rbind (as_float b) (fun y =>
      rbind (float_truediv x y) (fun q => inr (Float q))))
  end.

Definition num_neg (a : num) : num :=
  match a with
  | Int x => Int (- x)
  | Float f => Float (- f)%float
  end.

(** Comparison of an int with a float is exact in Python (no conversion of
    the int): compare [z] with the real value [+-m * 2^e]. *)
Definition cmp_Z_float (z : Z) (f : float) : option comparison :=
  match Prim2SF f with
  | S754_nan => None
  | S754_infinity s => Some (if s then Gt else Lt)
  | S754_zero _ => Some (z ?= 0)
  | S754_finite s m e =>
      let v := if s then Z.neg m else Z.pos m in
      if 0 <=? e then Some (z ?= v * 2 ^ e)
      else Some (z * 2 ^ (- e) ?= v)
  end.

Definition num_compare (a b : num) : option comparison :=
  match a, b with
  | Int x, Int y => Some (x ?= y)
  | Int x, Float g => cmp_Z_float x g
  | Float f, Int y => option_map CompOpp (cmp_Z_float y f)
  | Float f, Float g => SFcompare (Prim2SF f) (Prim2SF g)
  end.

(** [a < b], [a <= b], [a > b], [a >= b]; all false on NaN. *)
Definition num_lt (a b : num) : bool :=
  match num_compare a b with Some Lt => true | _ => false end.
Definition num_le (a b : num) : bool :=
  match num_compare a b with Some (Lt | Eq) => true | _ => false end.
Definition num_gt (a b : num) : bool := num_lt b a.
Definition num_ge (a b : num) : bool := num_le b a.

(** Round-half-even of the rational [n / d], [d > 0]. *)
Definition round_half_even (n d : Z) : Z :=
  let q := n / d in
  let r := n mod d in
  match 2 * r ?= d with
  | Lt => q
  | Gt => q + 1
  | Eq => if Z.even q then q else q + 1
  end.

(** [round(x, ndigits)] on a float, for [ndigits >= 0]: the exact binary
    value is rounded to [ndigits] decimals (ties to even) and the decimal is
    converted back to the nearest double; NaN, infinities and the sign of
    zero are preserved. *)
Definition float_round (x : float) (ndigits : Z) : float :=
  match Prim2SF x with
  | S754_finite s m e =>
      if 0 <=? e then x
      else
        match round_half_even (Z.pos m * 10 ^ ndigits) (2 ^ (- e)) with
        | Zpos n =>
            SF2Prim (SFdiv prec emax (S754_finite s n 0)
                                     (SF_of_Z (10 ^ ndigits)))
        | _ => if s then (- 0)%float else 0%float
        end
  | _ => x
  end.

Definition float_round2 (x : float) : float := float_round x 2.

(** [round(a, ndigits)]: an int is returned unchanged. *)
Definition num_round (a : num) (ndigits : Z) : num :=
  match a with
  | Int z => Int z
  | Float f => Float (float_round f ndigits)
  end.

Definition num_round2 (a : num) : num := num_round a 2.

(** [round(x)]: the nearest integer, ties to even; [ValueError] on NaN and
    [OverflowError] on an infinity. *)
Definition float_round0 (x : float) : result Z :=
  match Prim2SF x with
  | S754_nan => inl ValueError
  | S754_infinity _ => inl OverflowError
  | S754_zero _ => inr 0
  | S754_finite s m e =>
      let n := if 0 <=? e then Z.pos m * 2 ^ e
               else round_half_even (Z.pos m) (2 ^ (- e)) in
      inr (if s then - n else n)
  end.

Definition num_round0 (a : num) : result Z :=
  match a with
  | Int z => inr z
  | Float f => float_round0 f
  end.

(** [sum(xs)]: starts from the int [0]. *)
Definition num_sum (xs : list num) : result num :=
  fold_left (fun acc x => rbind acc (fun a => num_add a x)) xs (inr (Int 0)).

Notation "'let*' x ':=' r 'in' k" := (rbind r (fun x => k))
  (at level 10, x name, r at level 100, k at level 200).

(* ================================================================== *)
(** ** Python strings *)

(** A Python string is the sequence of its code points; the strings of
    this development hold code points below 256 only.

    [str.lower()]: of these code points the upper-case ones are [A]-[Z]
    (65-90) and the Latin-1 capitals 192-214 and 216-222; each goes to the
    code point 32 above it. *)
Definition lower_char (c : ascii) : ascii :=
  let n := nat_of_ascii c in
  if ((Nat.leb 65 n && Nat.leb n 90)
      || (Nat.leb 192 n && Nat.leb n 214)
      || (Nat.leb 216 n && Nat.leb n 222))%bool
  then ascii_of_nat (n + 32) else c.

Fixpoint lower (s : string) : string :=
  match s with
  | EmptyString => EmptyString
  | String c s' => String (lower_char c) (lower s')
  end.

(** [s.startswith(p)]. *)
Definition startswith (s p : string) : bool := String.prefix p s.

Definition strlen (s : string) : Z := Z.of_nat (String.length s).

(** [s[-8:]] for a string of at least eight characters. *)
Definition last8 (s : string) : string :=
  String.substring (String.length s - 8) 8 s.

(** [s[2:]]. *)
Definition drop2 (s : string) : string :=
  String.substring 2 (String.length s - 2) s.

Fixpoint zeros (n : nat) : string :=
  match n with
  | O => EmptyString
  | S n' => String "0"%char (zeros n')
  end.

(** [s.zfill(64)]: zeros in front up to a length of 64, after the sign when
    the string starts with [+] or [-]. *)
Definition zfill64 (s : string) : string :=
  let fill := zeros (64 - String.length s) in
  match s with
  | String c rest =>
      if (Ascii.eqb c "+" || Ascii.eqb c "-")%bool
      then String c (String.append fill rest)
      else String.append fill s
  | EmptyString => fill
  end.

(** [range(a, b, step)] for a positive [step]. *)
Definition py_range (a b step : Z) : list Z :=
  map (fun i => a + step * Z.of_nat i)
      (seq 0 (Z.to_nat ((b - a + step - 1) / step))).

(* ================================================================== *)
(** ** The ledger: JSON-RPC requests and replies *)

(** A request posted to the node. *)
Inductive Call : Type :=
| EthCall (to data : string)
| EthBlockNumber
| EthGetBlockByNumber (number : Z).

(** A JSON member read with [.get(key, default)]: absent, [null], or a
    value. *)
Inductive jfield (A : Type) : Type :=
| Missing
| Null
| Value (a : A).
Arguments Missing {A}.
Arguments Null {A}.
Arguments Value {A} a.

(** What [requests.post] gives back: it raises, or it returns a response
    with a status code whose body parses ([Some]) or not ([None]). *)
Inductive reply (A : Type) : Type :=
| Raised
| Responded (status_code : Z) (json : option A).
Arguments Raised {A}.
Arguments Responded {A} status_code json.

(** A transaction object of a block fetched with full transactions.  [tx_to]
    is [None] for a contract creation ([null]) or an absent member. *)
Record Tx : Type := {
  tx_hash : string;
  tx_from : string;
  tx_to : option string;
  tx_input : string
}.

(** An entry of the ["transactions"] array: a bare hash or an object
    ([isinstance(tx, dict)]). *)
Inductive TxEntry : Type :=
| TxHashOnly (h : string)
| TxDict (t : Tx).

(** A block.  [block_timestamp] is the hexadecimal ["timestamp"] member,
    [block_transactions] the ["transactions"] member; [None] when the member
    is absent.

    The node is taken to follow the JSON-RPC schema: a block is an object,
    its ["transactions"] member, when present, is an array, and the members
    of a transaction object are strings ([to] may be [null]).  On an answer
    outside the schema (["transactions": null], a [null] input of a
    transaction sent to the contract) the loops of the scans raise
    [TypeError] or [AttributeError]; such answers are not part of this
    development, and no statement below speaks of them. *)
Record BlockData : Type := {
  block_timestamp : option string;
  block_transactions : option (list TxEntry)
}.

(** The state of Python's global generator, as the stream of the values
    [random.random()] will return. *)
Definition Rng : Type := nat -> float.

(** Everything the program takes from outside: the node behind the
    JSON-RPC endpoint (a reply may depend on the whole history of requests),
    and the Python builtins whose code is not part of the repository. *)
Record Env : Type := {
  post_eth_call : list Call -> string -> string -> reply (jfield string);
  post_eth_blockNumber : list Call -> reply (jfield string);
  post_eth_getBlockByNumber : list Call -> Z -> reply (option BlockData);
  (** [int(s, 16)]; [None] stands for [ValueError]. *)
  int16 : string -> option Z;
  (** [random.seed(n)]: the generator state an integer seed leads to. *)
  random_seed : Z -> Rng;
  (** [datetime.now()]: the local date and time at the reading number [k]
      of the clock, after the requests [h], in microseconds of the local
      calendar counted from 1970-01-01T00:00:00. *)
  now_us : list Call -> nat -> Z;
  (** [datetime.fromtimestamp(t)]: the local date and time of the POSIX
      time [t], in seconds of the local calendar counted from
      1970-01-01T00:00:00 (the offset follows the time zone, daylight
      saving included); [None] when the conversion raises. *)
  fromtimestamp : Z -> option Z
}.

(* ================================================================== *)
(** ** Events and reports *)

Record StakeEvent : Type := {
  se_address : string;
  se_transaction_hash : string;
  se_timestamp : Z;
  se_signature : string;
  se_estimated_amount : float
}.

Inductive Status : Type := active | expired.

Record UnstakeEvent : Type := {
  ue_address : string;
  ue_transaction_hash : string;
  ue_timestamp : Z;
  ue_expiry_date : Z;
  ue_days_remaining : Z;
  ue_signature : string;
  ue_estimated_amount : float;
  ue_status : Status
}.

Inductive Method : Type := direct_balance_call | estimated_from_activity.

Record BalanceData : Type := {
  bd_balance_wei : Z;
  bd_balance_tokens : num;
  bd_percentage_of_supply : num;
  bd_verification_method : Method
}.

Record StakingData : Type := {
  sd_period_days : Z;
  sd_blocks_scanned : Z;
  sd_stake_events_found : Z;
  sd_unique_stakers : Z;
  sd_total_estimated_stake_amount : num;
  sd_daily_average_stakes : float;
  sd_daily_average_amount : num;
  sd_stake_events : list StakeEvent
}.

Record UnstakingData : Type := {
  ud_period_days : Z;
  ud_blocks_scanned : Z;
  ud_unstake_events_found : Z;
  ud_unique_unstakers : Z;
  ud_total_estimated_unstake_amount : num;
  ud_daily_average_unstakes : float;
  ud_daily_average_amount : num;
  ud_unstake_events : list UnstakeEvent
}.

Inductive Trend : Type :=
| STRONG_GROWTH | GROWTH | STABLE | DECLINE | STRONG_DECLINE.

Record WeeklyBucket : Type := {
  wb_week : Z;
  wb_stake_events : Z;
  wb_unstake_events : Z;
  wb_net_events : Z
}.

Record ComparisonMetrics : Type := {
  cm_stake_events : Z;
  cm_unstake_events : Z;
  cm_net_events : Z;
  cm_stake_amount : num;
  cm_unstake_amount : num;
  cm_net_amount : num
}.

Record DailyRates : Type := {
  dr_daily_stake_events : num;
  dr_daily_unstake_events : num;
  dr_daily_stake_amount : Z;
  dr_daily_unstake_amount : Z;
  dr_daily_net_amount : Z
}.

Record Percentages : Type := {
  pc_stake_event_percentage : num;
  pc_unstake_event_percentage : num;
  pc_stake_amount_percentage : num;
  pc_unstake_amount_percentage : num
}.

Record TrendAnalysis : Type := {
  ta_trend : Trend;
  ta_trend_score : Z;
  ta_net_flow_percentage : num
}.

Record FlowAnalysis : Type := {
  fa_comparison_metrics : ComparisonMetrics;
  fa_daily_rates : DailyRates;
  fa_percentages : Percentages;
  fa_trend_analysis : TrendAnalysis;
  fa_weekly_breakdown : list WeeklyBucket
}.

Inductive HealthScore : Type := EXCELLENT | GOOD | MODERATE | CRITICAL.

Record HealthAssessment : Type := {
  ha_health_score : HealthScore;
  ha_health_factors : list Z;
  ha_average_score : num
}.

Record FlowMetrics : Type := {
  fm_total_staking_flow : num;
  fm_total_unstaking_flow : num;
  fm_net_flow : num;
  fm_staking_flow_percentage : num;
  fm_unstaking_incidence_percentage : num;
  fm_net_flow_percentage : num
}.

Record HealthMetrics : Type := {
  hm_total_supply : Z;
  hm_total_staked : num;
  hm_staking_percentage : num;
  hm_flow_metrics : FlowMetrics;
  hm_trend_direction : Trend;
  hm_trend_score : Z;
  hm_health_assessment : HealthAssessment
}.

Record PressureBucket : Type := {
  pb_day : Z;
  pb_amount : float;
  pb_count : Z
}.

Inductive Intensity : Type := P_LOW | P_MODERATE | P_HIGH | P_CRITICAL.

Record Projections30 : Type := {
  pj_projected_stake_amount : Z;
  pj_projected_unstake_amount : Z;
  pj_projected_net_flow : Z;
  pj_projected_tvl_change_percentage : num;
  pj_current_daily_growth_rate : num
}.

Record SellingPressure : Type := {
  sp_total_pressure_14_days : num;
  sp_pressure_percentage_of_staked : num;
  sp_pressure_intensity : Intensity;
  sp_daily_average_pressure : num;
  sp_pressure_timeline : list PressureBucket
}.

Record Projections : Type := {
  pr_projections_30_days : Projections30;
  pr_selling_pressure : SellingPressure;
  pr_liquidity_risk : string;
  pr_growth_sustainability : string;
  pr_market_impact : string
}.

Inductive OverallStatus : Type :=
| O_EXCELLENT | O_GOOD | O_STABLE | O_ATTENTION | O_CRITICAL.

Record ExecutiveSummary : Type := {
  es_overall_status : OverallStatus;
  es_recommendations : list string;
  es_next_review_recommended : string;
  es_priority_actions : list string
}.

Record Results : Type := {
  rs_analysis_period_days : Z;
  rs_balance_data : BalanceData;
  rs_staking_analysis : StakingData;
  rs_unstaking_analysis : UnstakingData;
  rs_flow_analysis : FlowAnalysis;
  rs_health_metrics : HealthMetrics;
  rs_projections : Projections;
  rs_executive_summary : ExecutiveSummary
}.

(* ================================================================== *)
(** ** The object and the interpreter state *)

(** The attributes of [self]. *)
Record Self : Type := {
  staking_contract : string;
  token_contract : string;
  stake_signatures : list string;
  unstake_signatures : list string;
  total_supply : Z;
  token_decimals : Z;
  actual_staked_balance : num;
  stake_events : list StakeEvent;
  unstake_events : list UnstakeEvent
}.

(** [__init__]. *)
Definition init_self : Self := {|
  staking_contract := "";
  token_contract := "";
  stake_signatures := ["0xa694fc3a"; "0xb6b55f25"; "0x1249c58b"];
  unstake_signatures :=
    ["0xf48355b9"; "0x2e1a7d4d"; "0x3d18b912"; "0xa06c1a33"];
  total_supply := 1000000000;
  token_decimals := 18;
  actual_staked_balance := Int 0;
  stake_events := [];
  unstake_events := []
|}.

Record State : Type := {
  self : Self;
  trace : list Call;
  rng : Rng;
  (** how many times [analyze_unstake_transaction] has read the clock *)
  clock : nat
}.

(** A method body: it reads and updates the state and returns or raises. *)
Definition M (A : Type) : Type := State -> result A * State.

Definition ret {A} (a : A) : M A := fun st => (inr a, st).

Definition raise {A} (e : exn) : M A := fun st => (inl e, st).

Definition bind {A B} (m : M A) (k : A -> M B) : M B :=
  fun st =>
    match m st with
    | (inl e, st') => (inl e, st')
    | (inr a, st') => k a st'
    end.

Notation "x <- m ;; k" := (bind m (fun x => k))
  (at level 200, m at level 100, k at level 200, right associativity).
Notation "m ;;; k" := (bind m (fun _ => k))
  (at level 200, k at level 200, right associativity).

(** A pure computation run inside a method. *)
Definition lift {A} (r : result A) : M A := fun st => (r, st).

(** [try: body / except Exception: handler-value]. *)
Definition try_except {A} (m : M A) (dflt : A) : M A :=
  fun st =>
    match m st with
    | (inl _, st') => (inr dflt, st')
    | (inr a, st') => (inr a, st')
    end.

Definition get_self : M Self := fun st => (inr (self st), st).

Definition set_self (s : Self) : M unit :=
  fun st => (inr tt, {| self := s; trace := trace st; rng := rng st;
                         clock := clock st |}).

Definition set_rng (g : Rng) : M unit :=
  fun st => (inr tt, {| self := self st; trace := trace st; rng := g;
                         clock := clock st |}).

(** The state after one more request. *)
Definition push (c : Call) (st : State) : State :=
  {| self := self st; trace := trace st ++ [c]; rng := rng st;
     clock := clock st |}.

(** A loop [for x in l: body] over an accumulator. *)
Fixpoint for_each {A S} (l : list A) (body : S -> A -> M S) (acc : S)
  : M S :=
  match l with
  | [] => ret acc
  | x :: l' => acc' <- body acc x ;; for_each l' body acc'
  end.

(* ================================================================== *)
(** ** The methods of [CompleteStakingHealthCheck] *)

Section Methods.

Context (E : Env).

(** [requests.post(self.base_url, json=payload)]: the request joins the
    trace, the node answers from the history before it. *)
Definition post {A} (c : Call) (answer : list Call -> reply A)
  : M (reply A) :=
  fun st => (inr (answer (trace st)), push c st).

(** [get_latest_block_number]: [0] unless the node answers 200 with a
    parsable number. *)
Definition get_latest_block_number : M Z :=
  r <- post EthBlockNumber (post_eth_blockNumber E) ;;
  match r with
  | Responded 200 (Some (Value block_hex)) =>
      match int16 E block_hex with
      | Some n => ret n
      | None => ret 0
      end
  | Responded 200 (Some Missing) => ret 0   (* int("0x0", 16) *)
  | _ => ret 0
  end.

(** [get_block_with_transactions]. *)
Definition get_block_with_transactions (block_number : Z)
  : M (option BlockData) :=
  r <- post (EthGetBlockByNumber block_number)
            (fun h => post_eth_getBlockByNumber E h block_number) ;;
  match r with
  | Responded 200 (Some result) => ret result
  | _ => ret None
  end.

(** [get_token_balance]: [None] on an exception, [0] on any answer that
    carries no balance. *)
Definition get_token_balance (token_contract holder_address : string)
  : M (option Z) :=
  let padded_address := zfill64 (lower (drop2 holder_address)) in
  let data := String.append "0x70a08231" padded_address in
  r <- post (EthCall token_contract data)
            (fun h => post_eth_call E h token_contract data) ;;
  match r with
  | Raised => ret None
  | Responded 200 None => ret None
  | Responded 200 (Some (Value result)) =>
      if (negb (String.eqb result "") && negb (String.eqb result "0x")
          && negb (String.eqb result "0x0"))%bool
      then ret (int16 E result)
      else ret (Some 0)
  | Responded _ _ => ret (Some 0)
  end.

(** [random.random()]. *)
Definition random_random : M float :=
  fun st =>
    (inr (rng st 0%nat),
     {| self := self st; trace := trace st;
        rng := fun k => rng st (S k);
        clock := clock st |}).

(** [random.uniform(a, b)], that is [a + (b - a) * random()]. *)
Definition random_uniform (a b : Z) : M float :=
  r <- random_random ;;
  ret (float_of_Z a + float_of_Z (b - a) * r)%float.

(** [estimate_transaction_amount]. *)
Definition estimate_transaction_amount (tx_type address : string)
  : M float :=
  seed <- (if 8 <=? strlen address
           then match int16 E (last8 address) with
                | Some n => ret n
                | None => raise ValueError
                end
           else ret 42) ;;
  set_rng (random_seed E seed) ;;;
  rand <- random_random ;;
  if String.eqb tx_type "stake" then
    if (rand <? 0.4)%float then random_uniform 10000 100000
    else if (rand <? 0.7)%float then random_uniform 100000 1000000
    else if (rand <? 0.9)%float then random_uniform 1000000 5000000
    else random_uniform 5000000 20000000
  else
    if (rand <? 0.3)%float then random_uniform 20000 150000
    else if (rand <? 0.6)%float then random_uniform 150000 800000
    else if (rand <? 0.85)%float then random_uniform 800000 3000000
    else random_uniform 3000000 15000000.

(** [int(block_data.get("timestamp", "0x0"), 16)] followed by
    [datetime.fromtimestamp]: the local date and time of the block, in
    seconds of the local calendar. *)
Definition block_time (block_data : BlockData) : M Z :=
  timestamp_unix <-
    match block_timestamp block_data with
    | None => ret 0
    | Some timestamp_hex =>
        match int16 E timestamp_hex with
        | Some n => ret n
        | None => raise ValueError
        end
    end ;;
  match fromtimestamp E timestamp_unix with
  | Some timestamp => ret timestamp
  | None => raise ValueError
  end.

(** [analyze_stake_transaction]; the timestamp is kept as the local date
    and time in seconds. *)
Definition analyze_stake_transaction
  (tx_data : Tx) (block_data : BlockData) (signature : string)
  : M (option StakeEvent) :=
  try_except
    (let tx_hash := tx_hash tx_data in
     let from_address := lower (tx_from tx_data) in
     timestamp <- block_time block_data ;;
     estimated_amount <- estimate_transaction_amount "stake" from_address ;;
     ret (Some {| se_address := from_address;
                  se_transaction_hash := tx_hash;
                  se_timestamp := timestamp;
                  se_signature := signature;
                  se_estimated_amount := estimated_amount |}))
    None.

Definition microseconds_per_day : Z := 86400 * 1000000.

(** The last second a [datetime] can hold, 9999-12-31T23:59:59, counted
    from 1970-01-01T00:00:00. *)
Definition datetime_max : Z := 253402300799.

(** [datetime.now()]: every call is a reading of its own. *)
Definition datetime_now : M Z :=
  fun st =>
    (inr (now_us E (trace st) (clock st)),
     {| self := self st; trace := trace st; rng := rng st;
        clock := S (clock st) |}).

(** [analyze_unstake_transaction].  Dates are local dates and times:
    [timestamp + timedelta(days=14)] adds 14 days on the local calendar and
    raises [OverflowError] past the year 9999, and
    [(expiry_date - datetime.now()).days] is the floor, in days, of the
    difference of two local dates and times. *)
Definition analyze_unstake_transaction
  (tx_data : Tx) (block_data : BlockData) (signature : string)
  : M (option UnstakeEvent) :=
  try_except
    (let tx_hash := tx_hash tx_data in
     let from_address := lower (tx_from tx_data) in
     timestamp <- block_time block_data ;;
     let expiry_date := timestamp + 14 * 86400 in
     (if expiry_date <=? datetime_max then ret tt
      else raise OverflowError) ;;;
     now <- datetime_now ;;
     let days_remaining :=
       (expiry_date * 1000000 - now) / microseconds_per_day in
     estimated_amount <-
       estimate_transaction_amount "unstake" from_address ;;
     ret (Some {| ue_address := from_address;
                  ue_transaction_hash := tx_hash;
                  ue_timestamp := timestamp;
                  ue_expiry_date := expiry_date;
                  ue_days_remaining := days_remaining;
                  ue_signature := signature;
                  ue_estimated_amount := estimated_amount;
                  ue_status := if 0 <? days_remaining
                               then active else expired |}))
    None.

(** The selector loop [for sig in signatures: if ...: ...; break]: the
    first selector the transaction matches. *)
Definition matching_signature
  (contract : string) (signatures : list string)
  (to_address input_data : string) : option string :=
  find (fun sig =>
          (String.eqb to_address contract && startswith input_data sig)%bool)
       signatures.

(** The destination of a transaction the scanner looks at: an object with
    a non-empty [to]. *)
Definition destination (tx : TxEntry) : option (Tx * string) :=
  match tx with
  | TxHashOnly _ => None
  | TxDict t =>
      match tx_to t with
      | None => None
      | Some to_address =>
          if String.eqb to_address "" then None
          else Some (t, lower to_address)
      end
  end.

(** [count_events_in_period]. *)
Definition count_events_in_period
  (from_block to_block : Z) (signatures : list string) : M Z :=
  for_each (py_range from_block to_block 200)
    (fun count block_num =>
       block_data <- get_block_with_transactions block_num ;;
       match block_data with
       | Some b =>
           match block_transactions b with
           | Some transactions =>
               for_each transactions
                 (fun count tx =>
                    match destination tx with
                    | None => ret count
                    | Some (t, to_address) =>
                        slf <- get_self ;;
                        match matching_signature (staking_contract slf)
                                signatures to_address (tx_input t) with
                        | Some _ => ret (count + 1)
                        | None => ret count
                        end
                    end)
                 count
           | None => ret count
           end
       | None => ret count
       end)
    0.

(** [estimate_balance_from_activity]. *)
Definition estimate_balance_from_activity : Z := 458000000.

Definition set_actual_staked_balance (b : num) : M unit :=
  slf <- get_self ;;
  set_self {| staking_contract := staking_contract slf;
              token_contract := token_contract slf;
              stake_signatures := stake_signatures slf;
              unstake_signatures := unstake_signatures slf;
              total_supply := total_supply slf;
              token_decimals := token_decimals slf;
              actual_staked_balance := b;
              stake_events := stake_events slf;
              unstake_events := unstake_events slf |}.

Definition set_stake_events (l : list StakeEvent) : M unit :=
  slf <- get_self ;;
  set_self {| staking_contract := staking_contract slf;
              token_contract := token_contract slf;
              stake_signatures := stake_signatures slf;
              unstake_signatures := unstake_signatures slf;
              total_supply := total_supply slf;
              token_decimals := token_decimals slf;
              actual_staked_balance := actual_staked_balance slf;
              stake_events := l;
              unstake_events := unstake_events slf |}.

Definition set_unstake_events (l : list UnstakeEvent) : M unit :=
  slf <- get_self ;;
  set_self {| staking_contract := staking_contract slf;
              token_contract := token_contract slf;
              stake_signatures := stake_signatures slf;
              unstake_signatures := unstake_signatures slf;
              total_supply := total_supply slf;
              token_decimals := token_decimals slf;
              actual_staked_balance := actual_staked_balance slf;
              stake_events := stake_events slf;
              unstake_events := l |}.

(** [get_total_staked_balance]. *)
Definition get_total_staked_balance : M BalanceData :=
  slf <- get_self ;;
  balance_wei <-
    get_token_balance (token_contract slf) (staking_contract slf) ;;
  match (match balance_wei with
         | Some w => if 0 <? w then Some w else None
         | None => None
         end) with
  | Some w =>
      balance_tokens <- lift (int_truediv w (10 ^ token_decimals slf)) ;;
      set_actual_staked_balance (Float balance_tokens) ;;;
      percentage_of_supply <- lift (
        let* q := num_truediv (Float balance_tokens)
                              (Int (total_supply slf)) in
        num_mul q (Int 100)) ;;
      ret {| bd_balance_wei := w;
             bd_balance_tokens := Float balance_tokens;
             bd_percentage_of_supply := num_round2 percentage_of_supply;
             bd_verification_method := direct_balance_call |}
  | None =>
      let estimated_balance := estimate_balance_from_activity in
      set_actual_staked_balance (Int estimated_balance) ;;;
      percentage_of_supply <- lift (
        let* q := num_truediv (Int estimated_balance)
                              (Int (total_supply slf)) in
        num_mul q (Int 100)) ;;
      ret {| bd_balance_wei := estimated_balance * 10 ^ token_decimals slf;
             bd_balance_tokens := Int estimated_balance;
             bd_percentage_of_supply := num_round2 percentage_of_supply;
             bd_verification_method := estimated_from_activity |}
  end.

(** [len(set(addresses))]. *)
Definition count_unique (addresses : list string) : Z :=
  Z.of_nat (List.length (nodup string_dec addresses)).

Definition len {A} (l : list A) : Z := Z.of_nat (List.length l).

(** The body of [for tx in transactions] in [analyze_staking_events]. *)
Definition scan_stake_transaction (block_data : BlockData)
  (acc : list StakeEvent * num) (tx : TxEntry)
  : M (list StakeEvent * num) :=
  let '(stake_events, total_stake_amount) := acc in
  match destination tx with
  | None => ret acc
  | Some (t, to_address) =>
      slf <- get_self ;;
      match matching_signature (staking_contract slf)
              (stake_signatures slf) to_address (tx_input t) with
      | None => ret acc
      | Some stake_sig =>
          stake_event <- analyze_stake_transaction t block_data stake_sig ;;
          match stake_event with
          | Some ev =>
              total <- lift (num_add total_stake_amount
                                     (Float (se_estimated_amount ev))) ;;
              ret (stake_events ++ [ev], total)
          | None => ret acc
          end
      end
  end.

(** [analyze_staking_events].  The progress line printed every 10000
    counted blocks has no effect on the result and is left out. *)
Definition analyze_staking_events (days : Z) : M StakingData :=
  current_block <- get_latest_block_number ;;
  let blocks_period := days * 43200 in
  let from_block := Z.max 0 (current_block - blocks_period) in
  let step := 100 in
  scanned <-
    for_each (py_range from_block current_block step)
      (fun '(acc, blocks_scanned) block_num =>
         let blocks_scanned := blocks_scanned + step in
         block_data <- get_block_with_transactions block_num ;;
         match block_data with
         | Some b =>
             match block_transactions b with
             | Some transactions =>
                 acc' <- for_each transactions
                           (scan_stake_transaction b) acc ;;
                 ret (acc', blocks_scanned)
             | None => ret (acc, blocks_scanned)
             end
         | None => ret (acc, blocks_scanned)
         end)
      (([], Int 0), 0) ;;
  let '((stake_events, total_stake_amount), blocks_scanned) := scanned in
  set_stake_events stake_events ;;;
  daily_average_stakes <- lift (int_truediv (len stake_events) days) ;;
  daily_average_amount <-
    lift (num_truediv total_stake_amount (Int days)) ;;
  ret {| sd_period_days := days;
         sd_blocks_scanned := blocks_scanned;
         sd_stake_events_found := len stake_events;
         sd_unique_stakers := count_unique (map se_address stake_events);
         sd_total_estimated_stake_amount := total_stake_amount;
         sd_daily_average_stakes := daily_average_stakes;
         sd_daily_average_amount := daily_average_amount;
         sd_stake_events := stake_events |}.

(** The body of [for tx in transactions] in [analyze_unstaking_events]. *)
Definition scan_unstake_transaction (block_data : BlockData)
  (acc : list UnstakeEvent * num) (tx : TxEntry)
  : M (list UnstakeEvent * num) :=
  let '(unstake_events, total_unstake_amount) := acc in
  match destination tx with
  | None => ret acc
  | Some (t, to_address) =>
      slf <- get_self ;;
      match matching_signature (staking_contract slf)
              (unstake_signatures slf) to_address (tx_input t) with
      | None => ret acc
      | Some unstake_sig =>
          unstake_event <-
            analyze_unstake_transaction t block_data unstake_sig ;;
          match unstake_event with
          | Some ev =>
              total <- lift (num_add total_unstake_amount
                                     (Float (ue_estimated_amount ev))) ;;
              ret (unstake_events ++ [ev], total)
          | None => ret acc
          end
      end
  end.

(** [analyze_unstaking_events]. *)
Definition analyze_unstaking_events (days : Z) : M UnstakingData :=
  current_block <- get_latest_block_number ;;
  let blocks_period := days * 43200 in
  let from_block := Z.max 0 (current_block - blocks_period) in
  let step := 100 in
  scanned <-
    for_each (py_range from_block current_block step)
      (fun '(acc, blocks_scanned) block_num =>
         let blocks_scanned := blocks_scanned + step in
         block_data <- get_block_with_transactions block_num ;;
         match block_data with
         | Some b =>
             match block_transactions b with
             | Some transactions =>
                 acc' <- for_each transactions
                           (scan_unstake_transaction b) acc ;;
                 ret (acc', blocks_scanned)
             | None => ret (acc, blocks_scanned)
             end
         | None => ret (acc, blocks_scanned)
         end)
      (([], Int 0), 0) ;;
  let '((unstake_events, total_unstake_amount), blocks_scanned) :=
    scanned in
  set_unstake_events unstake_events ;;;
  daily_average_unstakes <- lift (int_truediv (len unstake_events) days) ;;
  daily_average_amount <-
    lift (num_truediv total_unstake_amount (Int days)) ;;
  ret {| ud_period_days := days;
         ud_blocks_scanned := blocks_scanned;
         ud_unstake_events_found := len unstake_events;
         ud_unique_unstakers :=
           count_unique (map ue_address unstake_events);
         ud_total_estimated_unstake_amount := total_unstake_amount;
         ud_daily_average_unstakes := daily_average_unstakes;
         ud_daily_average_amount := daily_average_amount;
         ud_unstake_events := unstake_events |}.

(** [analyze_weekly_flows]. *)
Definition analyze_weekly_flows (total_days : Z) : M (list WeeklyBucket) :=
  if total_days <? 7 then ret []
  else
    let weeks := Z.min 4 (total_days / 7) in
    current_block <- get_latest_block_number ;;
    for_each (py_range 0 weeks 1)
      (fun weekly_data week =>
         let week_start := current_block - (week + 1) * 7 * 43200 in
         let week_end := current_block - week * 7 * 43200 in
         slf <- get_self ;;
         week_stakes <-
           count_events_in_period week_start week_end
                                  (stake_signatures slf) ;;
         slf <- get_self ;;
         week_unstakes <-
           count_events_in_period week_start week_end
                                  (unstake_signatures slf) ;;
         ret (weekly_data ++
              [{| wb_week := weeks - week;
                  wb_stake_events := week_stakes;
                  wb_unstake_events := week_unstakes;
                  wb_net_events := week_stakes - week_unstakes |}]))
      [].

(** The recurring expression [(part / whole) * 100]. *)
Definition ratio100 (part whole : num) : result num :=
  let* q := num_truediv part whole in
  num_mul q (Int 100).

(** The trend determination of [analyze_staking_flows]. *)
Definition determine_trend (stake_amount net_amount : num)
  : result (Trend * Z) :=
  let* t := num_mul stake_amount (Float 0.1) in
  if num_gt net_amount t then inr (STRONG_GROWTH, 2)
  else if num_gt net_amount (Int 0) then inr (GROWTH, 1)
  else
    let* t := num_mul (num_neg stake_amount) (Float 0.1) in
    if num_gt net_amount t then inr (STABLE, 0)
    else
      let* t := num_mul (num_neg stake_amount) (Float 0.3) in
      if num_gt net_amount t then inr (DECLINE, -1)
      else inr (STRONG_DECLINE, -2).

(** [analyze_staking_flows]. *)
Definition analyze_staking_flows
  (staking_data : StakingData) (unstaking_data : UnstakingData)
  : M FlowAnalysis :=
  let stake_events := sd_stake_events_found staking_data in
  let unstake_events := ud_unstake_events_found unstaking_data in
  let stake_amount := sd_total_estimated_stake_amount staking_data in
  let unstake_amount :=
    ud_total_estimated_unstake_amount unstaking_data in
  let days := sd_period_days staking_data in
  let net_events := stake_events - unstake_events in
  net_amount <- lift (num_sub stake_amount unstake_amount) ;;
  daily_stake_events <- lift (int_truediv stake_events days) ;;
  daily_unstake_events <- lift (int_truediv unstake_events days) ;;
  daily_stake_amount <- lift (num_truediv stake_amount (Int days)) ;;
  daily_unstake_amount <- lift (num_truediv unstake_amount (Int days)) ;;
  daily_net_amount <- lift (num_truediv net_amount (Int days)) ;;
  event_percentages <- lift (
    if 0 <? stake_events + unstake_events then
      let* s := ratio100 (Int stake_events)
                         (Int (stake_events + unstake_events)) in
      let* u := ratio100 (Int unstake_events)
                         (Int (stake_events + unstake_events)) in
      inr (s, u)
    else inr (Int 0, Int 0)) ;;
  amount_percentages <- lift (
    let* total := num_add stake_amount unstake_amount in
    if num_gt total (Int 0) then
      let* total := num_add stake_amount unstake_amount in
      let* s := ratio100 stake_amount total in
      let* total := num_add stake_amount unstake_amount in
      let* u := ratio100 unstake_amount total in
      inr (s, u)
    else inr (Int 0, Int 0)) ;;
  trend <- lift (determine_trend stake_amount net_amount) ;;
  weekly_breakdown <- analyze_weekly_flows days ;;
  rounded_stake_amount <- lift (num_round0 daily_stake_amount) ;;
  rounded_unstake_amount <- lift (num_round0 daily_unstake_amount) ;;
  rounded_net_amount <- lift (num_round0 daily_net_amount) ;;
  slf <- get_self ;;
  net_flow_percentage <- lift (
    if num_gt (actual_staked_balance slf) (Int 0) then
      let* p := ratio100 net_amount (actual_staked_balance slf) in
      inr (num_round2 p)
    else inr (Int 0)) ;;
  ret {| fa_comparison_metrics :=
           {| cm_stake_events := stake_events;
              cm_unstake_events := unstake_events;
              cm_net_events := net_events;
              cm_stake_amount := stake_amount;
              cm_unstake_amount := unstake_amount;
              cm_net_amount := net_amount |};
         fa_daily_rates :=
           {| dr_daily_stake_events := num_round2 (Float daily_stake_events);
              dr_daily_unstake_events :=
                num_round2 (Float daily_unstake_events);
              dr_daily_stake_amount := rounded_stake_amount;
              dr_daily_unstake_amount := rounded_unstake_amount;
              dr_daily_net_amount := rounded_net_amount |};
         fa_percentages :=
           {| pc_stake_event_percentage :=
                num_round2 (fst event_percentages);
              pc_unstake_event_percentage :=
                num_round2 (snd event_percentages);
              pc_stake_amount_percentage :=
                num_round2 (fst amount_percentages);
              pc_unstake_amount_percentage :=
                num_round2 (snd amount_percentages) |};
         fa_trend_analysis :=
           {| ta_trend := fst trend;
              ta_trend_score := snd trend;
              ta_net_flow_percentage := net_flow_percentage |};
         fa_weekly_breakdown := weekly_breakdown |}.

(** [sum(health_factors)] on a list of ints. *)
Definition sum_Z (l : list Z) : Z := fold_left Z.add l 0.

(** [calculate_complete_health_metrics]; it only reads [self.total_supply].
    The colour and the free-text interpretation are left out. *)
Definition calculate_complete_health_metrics (slf : Self)
  (balance_data : BalanceData) (staking_data : StakingData)
  (unstaking_data : UnstakingData) (flow_analysis : FlowAnalysis)
  : result HealthMetrics :=
  let total_supply := total_supply slf in
  let total_staked := bd_balance_tokens balance_data in
  let total_staking_flow :=
    sd_total_estimated_stake_amount staking_data in
  let total_unstaking_flow :=
    ud_total_estimated_unstake_amount unstaking_data in
  let net_flow := cm_net_amount (fa_comparison_metrics flow_analysis) in
  let staking_percentage := bd_percentage_of_supply balance_data in
  let* unstaking_incidence :=
    if num_gt total_staked (Int 0)
    then ratio100 total_unstaking_flow total_staked else inr (Int 0) in
  let* staking_flow_percentage :=
    if num_gt total_staked (Int 0)
    then ratio100 total_staking_flow total_staked else inr (Int 0) in
  let* net_flow_percentage :=
    if num_gt total_staked (Int 0)
    then ratio100 net_flow total_staked else inr (Int 0) in
  let trend_direction := ta_trend (fa_trend_analysis flow_analysis) in
  let trend_score := ta_trend_score (fa_trend_analysis flow_analysis) in
  let health_factors := [] in
  (* Factor 1: staking percentage *)
  let health_factors :=
    health_factors ++
    [if num_gt staking_percentage (Int 40) then 2
     else if num_gt staking_percentage (Int 20) then 1
     else if num_gt staking_percentage (Int 10) then 0
     else -1] in
  (* Factor 2: unstaking incidence *)
  let health_factors :=
    health_factors ++
    [if num_lt unstaking_incidence (Int 2) then 2
     else if num_lt unstaking_incidence (Int 5) then 1
     else if num_lt unstaking_incidence (Int 10) then 0
     else -1] in
  (* Factor 3: trend *)
  let health_factors := health_factors ++ [trend_score] in
  (* Factor 4: net flow *)
  let health_factors :=
    health_factors ++
    [if num_gt net_flow_percentage (Int 5) then 2
     else if num_gt net_flow_percentage (Int 0) then 1
     else if num_gt net_flow_percentage (Int (-5)) then 0
     else -1] in
  let* avg_health_score :=
    int_truediv (sum_Z health_factors) (len health_factors) in
  let health_score :=
    if num_ge (Float avg_health_score) (Float 1.5) then EXCELLENT
    else if num_ge (Float avg_health_score) (Float 0.5) then GOOD
    else if num_ge (Float avg_health_score) (Float (-0.5)) then MODERATE
    else CRITICAL in
  inr {| hm_total_supply := total_supply;
         hm_total_staked := total_staked;
         hm_staking_percentage := num_round2 staking_percentage;
         hm_flow_metrics :=
           {| fm_total_staking_flow := total_staking_flow;
              fm_total_unstaking_flow := total_unstaking_flow;
              fm_net_flow := net_flow;
              fm_staking_flow_percentage :=
                num_round2 staking_flow_percentage;
              fm_unstaking_incidence_percentage :=
                num_round2 unstaking_incidence;
              fm_net_flow_percentage := num_round2 net_flow_percentage |};
         hm_trend_direction := trend_direction;
         hm_trend_score := trend_score;
         hm_health_assessment :=
           {| ha_health_score := health_score;
              ha_health_factors := health_factors;
              ha_average_score :=
                num_round2 (Float avg_health_score) |} |}.

(** The dictionary [pressure_by_day], in insertion order.  A new bucket
    starts from the ints [0] and [0]; the first [+=] makes the amount the
    float [0 + estimated_amount]. *)
Fixpoint add_to_bucket (pressure_by_day : list (Z * PressureBucket))
  (days_remaining : Z) (estimated_amount : float)
  : list (Z * PressureBucket) :=
  match pressure_by_day with
  | [] =>
      [(days_remaining,
        {| pb_day := days_remaining;
           pb_amount := (0 + estimated_amount)%float;
           pb_count := 0 + 1 |})]
  | (key, bucket) :: rest =>
      if key =? days_remaining then
        (key, {| pb_day := pb_day bucket;
                 pb_amount := (pb_amount bucket + estimated_amount)%float;
                 pb_count := pb_count bucket + 1 |}) :: rest
      else (key, bucket) :: add_to_bucket rest days_remaining estimated_amount
  end.

(** [sorted(values, key=lambda x: x['day'])]: a stable sort. *)
Fixpoint insert_by_day (b : PressureBucket) (l : list PressureBucket)
  : list PressureBucket :=
  match l with
  | [] => [b]
  | x :: l' =>
      if pb_day b <=? pb_day x then b :: x :: l'
      else x :: insert_by_day b l'
  end.

Definition sorted_by_day (l : list PressureBucket) : list PressureBucket :=
  fold_right insert_by_day [] l.

(** [calculate_selling_pressure_timeline].  The events come from
    [analyze_unstake_transaction], which always sets both keys read here,
    so the defaults of [.get] are never used. *)
Definition calculate_selling_pressure_timeline
  (unstake_events : list UnstakeEvent) : list PressureBucket :=
  let pressure_by_day :=
    fold_left
      (fun pressure_by_day event =>
         let days_remaining := ue_days_remaining event in
         let estimated_amount := ue_estimated_amount event in
         if ((0 <=? days_remaining) && (days_remaining <=? 14))%bool
         then add_to_bucket pressure_by_day days_remaining estimated_amount
         else pressure_by_day)
      unstake_events [] in
  sorted_by_day (map snd pressure_by_day).

(** [calculate_projections_and_pressure]. *)
Definition calculate_projections_and_pressure
  (staking_data : StakingData) (unstaking_data : UnstakingData)
  (flow_analysis : FlowAnalysis) (balance_data : BalanceData)
  : result Projections :=
  let daily_stake_amount :=
    dr_daily_stake_amount (fa_daily_rates flow_analysis) in
  let daily_unstake_amount :=
    dr_daily_unstake_amount (fa_daily_rates flow_analysis) in
  let daily_net_flow :=
    dr_daily_net_amount (fa_daily_rates flow_analysis) in
  let total_staked := bd_balance_tokens balance_data in
  let projected_stake_30d := daily_stake_amount * 30 in
  let projected_unstake_30d := daily_unstake_amount * 30 in
  let projected_net_30d := daily_net_flow * 30 in
  let unstake_events := ud_unstake_events unstaking_data in
  let pressure_timeline :=
    calculate_selling_pressure_timeline unstake_events in
  let* total_pressure_14d :=
    num_sum (map (fun day => Float (pb_amount day)) pressure_timeline) in
  let* pressure_percentage :=
    if num_gt total_staked (Int 0)
    then ratio100 total_pressure_14d total_staked else inr (Int 0) in
  let pressure_intensity :=
    if num_lt pressure_percentage (Int 1) then P_LOW
    else if num_lt pressure_percentage (Int 3) then P_MODERATE
    else if num_lt pressure_percentage (Int 7) then P_HIGH
    else P_CRITICAL in
  let* current_growth_rate :=
    if num_gt total_staked (Int 0)
    then ratio100 (Int daily_net_flow) total_staked else inr (Int 0) in
  let* projected_tvl_change_30d :=
    if num_gt total_staked (Int 0)
    then ratio100 (Int projected_net_30d) total_staked else inr (Int 0) in
  let* daily_average_pressure :=
    num_truediv total_pressure_14d (Int 14) in
  inr {| pr_projections_30_days :=
           {| pj_projected_stake_amount := projected_stake_30d;
              pj_projected_unstake_amount := projected_unstake_30d;
              pj_projected_net_flow := projected_net_30d;
              pj_projected_tvl_change_percentage :=
                num_round2 projected_tvl_change_30d;
              pj_current_daily_growth_rate :=
                num_round current_growth_rate 4 |};
         pr_selling_pressure :=
           {| sp_total_pressure_14_days := total_pressure_14d;
              sp_pressure_percentage_of_staked :=
                num_round2 pressure_percentage;
              sp_pressure_intensity := pressure_intensity;
              sp_daily_average_pressure := daily_average_pressure;
              sp_pressure_timeline := firstn 7 pressure_timeline |};
         pr_liquidity_risk :=
           match pressure_intensity with
           | P_HIGH | P_CRITICAL => "High"
           | P_MODERATE => "Medium"
           | P_LOW => "Low"
           end;
         pr_growth_sustainability :=
           if num_gt projected_tvl_change_30d (Int 0) then "Sustainable"
           else if num_lt projected_tvl_change_30d (Int (-10))
                then "At risk" else "Stable";
         pr_market_impact :=
           if num_gt pressure_percentage (Int 5) then "Significant"
           else if num_gt pressure_percentage (Int 2) then "Moderate"
           else "Limited" |}.

(** [get_priority_actions] (the leading pictographs of the texts are left
    out). *)
Definition get_priority_actions (status : OverallStatus)
  (health_metrics : HealthMetrics) (projections : Projections)
  : list string :=
  let net_flow :=
    fm_net_flow_percentage (hm_flow_metrics health_metrics) in
  let pressure_percentage :=
    sp_pressure_percentage_of_staked (pr_selling_pressure projections) in
  let actions := [] in
  let actions :=
    match status with
    | O_CRITICAL =>
        actions ++ ["Implement emergency measures to reduce unstaking";
                    "Immediate stakeholder communication";
                    "Consider urgent economic incentives"]
    | _ => actions
    end in
  let actions :=
    if num_lt net_flow (Int (-5))
    then actions ++ ["Analyze causes of negative flow";
                     "Implement retention campaigns"]
    else actions in
  let actions :=
    if num_gt pressure_percentage (Int 5)
    then actions ++ ["Prepare liquidity to absorb sales";
                     "Real-time market monitoring"]
    else actions in
  match actions with
  | [] => ["Continue regular monitoring"]
  | _ => actions
  end.

(** ["GROWTH" in trend]. *)
Definition mentions_growth (trend : Trend) : bool :=
  match trend with
  | STRONG_GROWTH | GROWTH => true
  | _ => false
  end.

(** [generate_executive_summary] (the formatted key-metric strings are
    left out). *)
Definition generate_executive_summary (health_metrics : HealthMetrics)
  (flow_analysis : FlowAnalysis) (projections : Projections)
  : ExecutiveSummary :=
  let health_score :=
    ha_health_score (hm_health_assessment health_metrics) in
  let trend := hm_trend_direction health_metrics in
  let net_flow_percentage :=
    fm_net_flow_percentage (hm_flow_metrics health_metrics) in
  let pressure_intensity :=
    sp_pressure_intensity (pr_selling_pressure projections) in
  let is_in (h : HealthScore) (l : list HealthScore) : bool :=
    existsb (fun x => match x, h with
                      | EXCELLENT, EXCELLENT | GOOD, GOOD
                      | MODERATE, MODERATE | CRITICAL, CRITICAL => true
                      | _, _ => false
                      end) l in
  let overall_status :=
    if (is_in health_score [EXCELLENT] && mentions_growth trend
        && num_gt net_flow_percentage (Int 0))%bool then O_EXCELLENT
    else if (is_in health_score [EXCELLENT; GOOD]
             && num_ge net_flow_percentage (Int 0))%bool then O_GOOD
    else if (is_in health_score [GOOD; MODERATE]
             && num_gt net_flow_percentage (Int (-5)))%bool then O_STABLE
    else if (is_in health_score [MODERATE]
             || match pressure_intensity with
                | P_HIGH | P_CRITICAL => true
                | _ => false
                end)%bool then O_ATTENTION
    else O_CRITICAL in
  let recommendations :=
    match overall_status with
    | O_EXCELLENT => ["Maintain current strategies"; "Routine monitoring"]
    | O_GOOD => ["Continue regular monitoring";
                 "Consider gradual expansion"]
    | O_STABLE => ["Close monitoring"; "Evaluate staking incentives"]
    | O_ATTENTION => ["Preventive action recommended";
                      "Analyze causes of negative trend";
                      "Implement incentives to reduce unstaking"]
    | O_CRITICAL => ["IMMEDIATE ACTION REQUIRED";
                     "Review staking strategy";
                     "Community communication"]
    end in
  {| es_overall_status := overall_status;
     es_recommendations := recommendations;
     es_next_review_recommended :=
       match overall_status with
       | O_CRITICAL => "24 hours"
       | O_ATTENTION => "72 hours"
       | _ => "7 days"
       end;
     es_priority_actions :=
       get_priority_actions overall_status health_metrics projections |}.

(** The attribute assignments that open [run_complete_analysis]; a
    [total_supply] of [None] or [0] keeps the default. *)
Definition configure (slf : Self)
  (staking_contract_ token_contract_ : string) (total_supply_ : option Z)
  : Self :=
  {| staking_contract := lower staking_contract_;
     token_contract := lower token_contract_;
     stake_signatures := stake_signatures slf;
     unstake_signatures := unstake_signatures slf;
     total_supply :=
       match total_supply_ with
       | Some n => if n =? 0 then total_supply slf else n
       | None => total_supply slf
       end;
     token_decimals := token_decimals slf;
     actual_staked_balance := actual_staked_balance slf;
     stake_events := stake_events slf;
     unstake_events := unstake_events slf |}.

(** [run_complete_analysis]. *)
Definition run_complete_analysis
  (staking_contract_ token_contract_ : string) (days : Z)
  (total_supply_ : option Z) : M Results :=
  slf <- get_self ;;
  set_self (configure slf staking_contract_ token_contract_
                      total_supply_) ;;;
  balance_data <- get_total_staked_balance ;;
  staking_data <- analyze_staking_events days ;;
  unstaking_data <- analyze_unstaking_events days ;;
  flow_analysis <- analyze_staking_flows staking_data unstaking_data ;;
  slf <- get_self ;;
  health_metrics <- lift (
    calculate_complete_health_metrics slf balance_data staking_data
                                      unstaking_data flow_analysis) ;;
  projections <- lift (
    calculate_projections_and_pressure staking_data unstaking_data
                                       flow_analysis balance_data) ;;
  ret {| rs_analysis_period_days := days;
         rs_balance_data := balance_data;
         rs_staking_analysis := staking_data;
         rs_unstaking_analysis := unstaking_data;
         rs_flow_analysis := flow_analysis;
         rs_health_metrics := health_metrics;
         rs_projections := projections;
         rs_executive_summary :=
           generate_executive_summary health_metrics flow_analysis
                                      projections |}.

(** The parsed command line: [--staking], [--token], [--days] (default 14
    applied by the parser) and [--supply]. *)
Record Args : Type := {
  args_staking : option string;
  args_token : option string;
  args_days : Z;
  args_supply : option Z
}.

(** How [main] ends: [sys.exit(code)], an uncaught [EOFError] of
    [input()], or the report. *)
Inductive Outcome : Type :=
| SysExit (code : Z)
| UncaughtEOFError
| Returned (results : Results).

(** [c.isspace()] for a code point below 256: 9-13, 28-32, 133 and 160. *)
Definition is_space (c : ascii) : bool :=
  let n := nat_of_ascii c in
  ((Nat.leb 9 n && Nat.leb n 13) || (Nat.leb 28 n && Nat.leb n 32)
   || Nat.eqb n 133 || Nat.eqb n 160)%bool.

Fixpoint lstrip (s : string) : string :=
  match s with
  | String c s' => if is_space c then lstrip s' else s
  | EmptyString => EmptyString
  end.

Fixpoint rstrip (s : string) : string :=
  match s with
  | String c s' =>
      match rstrip s' with
      | EmptyString => if is_space c then EmptyString
                       else String c EmptyString
      | r => String c r
      end
  | EmptyString => EmptyString
  end.

(** [s.strip()]. *)
Definition strip (s : string) : string := rstrip (lstrip s).

(** [input(prompt).strip()], and [sys.exit(1)] when the answer is empty;
    [input] raises [EOFError] at the end of the input. *)
Definition prompt_address (stdin : list string)
  : (string * list string) + Outcome :=
  match stdin with
  | [] => inr UncaughtEOFError
  | line :: rest =>
      if String.eqb (strip line) "" then inr (SysExit 1)
      else inl (strip line, rest)
  end.

(** An address taken from the command line or, when it is missing or
    empty, asked for at the prompt. *)
Definition address_or_prompt (given : option string) (stdin : list string)
  : (string * list string) + Outcome :=
  match given with
  | Some a => if String.eqb a "" then prompt_address stdin
              else inl (a, stdin)
  | None => prompt_address stdin
  end.

(** [main]: the lines typed at the prompts are [stdin]; [g] is the state
    the [random] module starts in.  It returns how the program ends and
    the requests it posted.  Printing and saving the report are left out. *)
Definition main (args : Args) (stdin : list string) (g : Rng)
  : Outcome * list Call :=
  match address_or_prompt (args_staking args) stdin with
  | inr out => (out, [])
  | inl (staking_contract_, stdin) =>
      match address_or_prompt (args_token args) stdin with
      | inr out => (out, [])
      | inl (token_contract_, stdin) =>
          let days := args_days args in
          let total_supply_ := args_supply args in
          match stdin with
          | [] => (UncaughtEOFError, [])
          | line :: _ =>
              let confirm := lower (strip line) in
              if (String.eqb confirm "y" || String.eqb confirm "yes")%bool
              then
                let health_checker :=
                  {| self := init_self; trace := []; rng := g;
                     clock := 0 |} in
                match run_complete_analysis staking_contract_
                        token_contract_ days total_supply_
                        health_checker with
                | (inr results, st) => (Returned results, trace st)
                | (inl _, st) => (SysExit 1, trace st)
                end
              else (SysExit 0, [])
          end
      end
  end.

End Methods.

(* ================================================================== *)
(** ** Concrete environments, used to run the program *)

Definition hex_digit (c : ascii) : option Z :=
  let n := Z.of_nat (nat_of_ascii c) in
  if ((48 <=? n) && (n <=? 57))%bool then Some (n - 48)
  else if ((97 <=? n) && (n <=? 102))%bool then Some (n - 87)
  else if ((65 <=? n) && (n <=? 70))%bool then Some (n - 55)
  else None.

Fixpoint hex_digits (s : string) (acc : Z) : option Z :=
  match s with
  | EmptyString => Some acc
  | String c s' =>
      match hex_digit c with
      | Some d => hex_digits s' (16 * acc + d)
      | None => None
      end
  end.

(** [int(s, 16)] on plain hexadecimal text with an optional [0x]. *)
Definition parse_hex (s : string) : option Z :=
  let body := if String.prefix "0x" s then drop2 s else s in
  match body with
  | EmptyString => None
  | _ => hex_digits body 0
  end.

(** A node that cannot be reached: every request raises. *)
Definition unreachable_node : Env := {|
  post_eth_call := fun _ _ _ => Raised;
  post_eth_blockNumber := fun _ => Raised;
  post_eth_getBlockByNumber := fun _ _ => Raised;
  int16 := parse_hex;
  random_seed := fun _ _ => 0.5%float;
  now_us := fun _ _ => 0;
  fromtimestamp := fun t => Some t
|}.

Definition the_staking_contract : string :=
  "0x1111111111111111111111111111111111111111".
Definition the_token_contract : string :=
  "0x2222222222222222222222222222222222222222".

Definition stake_tx : Tx := {|
  tx_hash := "0xaa";
  tx_from := "0x00000000000000000000000000000000deadbeef";
  tx_to := Some the_staking_contract;
  tx_input := "0xa694fc3a0000000000000000000000000000000000000001"
|}.

(** A chain of 200 blocks whose only transaction, a stake, sits in
    block 1; the token balance cannot be read. *)
Definition small_chain : Env := {|
  post_eth_call := fun _ _ _ => Responded 500 None;
  post_eth_blockNumber := fun _ => Responded 200 (Some (Value "0xc8"));
  post_eth_getBlockByNumber := fun _ n =>
    if (0 <=? n) && (n <? 200) then
      Responded 200 (Some (Some
        {| block_timestamp := Some "0x65000000";
           block_transactions :=
             Some (if n =? 1 then [TxDict stake_tx] else []) |}))
    else Responded 200 (Some None);
  int16 := parse_hex;
  random_seed := fun _ _ => 0.5%float;
  now_us := fun _ _ => 1700000000 * 1000000;
  fromtimestamp := fun t => Some t
|}.

(** A node that answers the balance call with one token (10^18 wei) and
    nothing else. *)
Definition one_token_node : Env := {|
  post_eth_call := fun _ _ _ =>
    Responded 200 (Some (Value "0xde0b6b3a7640000"));
  post_eth_blockNumber := fun _ => Raised;
  post_eth_getBlockByNumber := fun _ _ => Raised;
  int16 := parse_hex;
  random_seed := fun _ _ => 0.5%float;
  now_us := fun _ _ => 0;
  fromtimestamp := fun t => Some t
|}.

Definition fresh (g : Rng) : State :=
  {| self := init_self; trace := []; rng := g; clock := 0 |}.

Definition half : Rng := fun _ => 0.5%float.

Definition example_args (days : Z) : Args := {|
  args_staking := Some the_staking_contract;
  args_token := Some the_token_contract;
  args_days := days;
  args_supply := None
|}.


(* ================================================================== *)
(** ** Vocabulary of the statements *)

(** The unstake events whose days-remaining value is [d], in event order. *)
Definition events_of_day (d : Z) (events : list UnstakeEvent)
  : list UnstakeEvent :=
  filter (fun e => ue_days_remaining e =? d) events.

(** The float sum [((0 + x1) + x2) + ...], accumulated left to right. *)
Definition float_sum (l : list float) : float :=
  fold_left PrimFloat.add l 0%float.

(** The first entry of a dictionary under a key. *)
Fixpoint lookup {B} (d : list (Z * B)) (k : Z) : option B :=
  match d with
  | [] => None
  | (k', b) :: rest => if k' =? k then Some b else lookup rest k
  end.

(** The test [0 <= days_remaining <= 14] of the timeline. *)
Definition in_window (d : Z) : bool := (0 <=? d) && (d <=? 14).

(** Whether some event has [d] days remaining. *)
Definition occurs (d : Z) (events : list UnstakeEvent) : bool :=
  existsb (fun e => ue_days_remaining e =? d) events.

(** The bucket a day should carry: the sum and the count of its events. *)
Definition bucket_of (d : Z) (events : list UnstakeEvent) : PressureBucket :=
  {| pb_day := d;
     pb_amount := float_sum (map ue_estimated_amount (events_of_day d events));
     pb_count := len (events_of_day d events) |}.

(** One turn of the loop of [calculate_selling_pressure_timeline]. *)
Definition timeline_step (pressure_by_day : list (Z * PressureBucket))
  (event : UnstakeEvent) : list (Z * PressureBucket) :=
  if in_window (ue_days_remaining event)
  then add_to_bucket pressure_by_day (ue_days_remaining event)
                     (ue_estimated_amount event)
  else pressure_by_day.

(** What [get_latest_block_number] returns after the requests [h]. *)
Definition latest_at (E : Env) (h : list Call) : Z :=
  match post_eth_blockNumber E h with
  | Responded 200 (Some (Value block_hex)) =>
      match int16 E block_hex with
      | Some n => n
      | None => 0
      end
  | _ => 0
  end.

(** What [get_block_with_transactions] returns after the requests [h]. *)
Definition block_at (E : Env) (h : list Call) (n : Z) : option BlockData :=
  match post_eth_getBlockByNumber E h n with
  | Responded 200 (Some result) => result
  | _ => None
  end.

(** The state after a sequence of requests. *)
Definition pushes (cs : list Call) (st : State) : State :=
  {| self := self st; trace := trace st ++ cs; rng := rng st;
     clock := clock st |}.

(** The block requests of a scan from [a] up to [b] by [step]. *)
Definition scan_calls (a b step : Z) : list Call :=
  map EthGetBlockByNumber (py_range a b step).

(** The latest-block read fails: the transport raises or the status is
    not 200. *)
Definition latest_block_read_fails (E : Env) : Prop :=
  forall h,
    post_eth_blockNumber E h = Raised \/
    exists code body,
      post_eth_blockNumber E h = Responded code body /\ code <> 200.

(** The block requests of week [week] of the weekly breakdown, counted back
    from [current_block]: the window is scanned once for the stake
    selectors and once for the unstake selectors. *)
Definition week_calls (current_block week : Z) : list Call :=
  let week_start := current_block - (week + 1) * 7 * 43200 in
  let week_end := current_block - week * 7 * 43200 in
  scan_calls week_start week_end 200 ++ scan_calls week_start week_end 200.

(** The seed [estimate_transaction_amount] derives from an address: the
    last eight characters read as hexadecimal, [42] for a shorter address;
    [None] when they are not hexadecimal. *)
Definition seed_of (E : Env) (address : string) : option Z :=
  if 8 <=? strlen address then int16 E (last8 address) else Some 42.

(** The tiered amount drawn from a freshly seeded generator [g]. *)
Definition tiered_amount (tx_type : string) (g : Rng) : float :=
  let rand := g 0%nat in
  let u (a b : Z) := (float_of_Z a + float_of_Z (b - a) * g 1%nat)%float in
  if String.eqb tx_type "stake" then
    if (rand <? 0.4)%float then u 10000 100000
    else if (rand <? 0.7)%float then u 100000 1000000
    else if (rand <? 0.9)%float then u 1000000 5000000
    else u 5000000 20000000
  else
    if (rand <? 0.3)%float then u 20000 150000
    else if (rand <? 0.6)%float then u 150000 800000
    else if (rand <? 0.85)%float then u 800000 3000000
    else u 3000000 15000000.

(** A float that is not NaN and, unless it is a zero, has sign [s]. *)
Definition has_sign (s : bool) (x : spec_float) : Prop :=
  match x with
  | S754_zero _ => True
  | S754_infinity s' | S754_finite s' _ _ => s' = s
  | S754_nan => False
  end.


(** An aggregated amount total: the int [0] of a scan that found no event,
    or a non-negative float. *)
Definition amount_total (a : num) : Prop :=
  a = Int 0 \/ exists f, a = Float f /\ num_le (Int 0) (Float f) = true.

(** The trend table of the specification, row by row: [p10], [m10] and
    [m30] stand for 0.10, -0.10 and -0.30 times the stake amount. *)
Definition trend_table (net p10 m10 m30 : num) (trend : Trend) : Prop :=
  (num_gt net p10 = true -> trend = STRONG_GROWTH)
  /\ (num_gt net (Int 0) = true /\ num_le net p10 = true -> trend = GROWTH)
  /\ (num_gt net m10 = true /\ num_le net (Int 0) = true -> trend = STABLE)
  /\ (num_gt net m30 = true /\ num_le net m10 = true -> trend = DECLINE)
  /\ (num_gt net p10 = false
      /\ ~ (num_gt net (Int 0) = true /\ num_le net p10 = true)
      /\ ~ (num_gt net m10 = true /\ num_le net (Int 0) = true)
      /\ ~ (num_gt net m30 = true /\ num_le net m10 = true) ->
      trend = STRONG_DECLINE).

(** The if-chain of the trend determination on four binary64 values. *)
Definition chain (n p m1 m3 : spec_float) : Trend * Z :=
  if SFltb p n then (STRONG_GROWTH, 2)
  else if SFltb (S754_zero false) n then (GROWTH, 1)
  else if SFltb m1 n then (STABLE, 0)
  else if SFltb m3 n then (DECLINE, -1)
  else (STRONG_DECLINE, -2).


(** The float a total stands for in a comparison: the int [0] counts as
    [0.0]. *)
Definition fl (a : num) : float :=
  match a with
  | Int _ => 0%float
  | Float f => f
  end.

(** A total as the scanners produce it: the int [0] or a float. *)
Definition int0_or_float (a : num) : Prop :=
  a = Int 0 \/ exists f, a = Float f.

(** Totals for the examples: 50000 staked and 20000 unstaked over a day. *)
Definition example_staking (events : Z) (total : num) : StakingData := {|
  sd_period_days := 1;
  sd_blocks_scanned := 43200;
  sd_stake_events_found := events;
  sd_unique_stakers := events;
  sd_total_estimated_stake_amount := total;
  sd_daily_average_stakes := 0;
  sd_daily_average_amount := total;
  sd_stake_events := []
|}.

Definition example_unstaking (events : Z) (total : num) : UnstakingData := {|
  ud_period_days := 1;
  ud_blocks_scanned := 43200;
  ud_unstake_events_found := events;
  ud_unique_unstakers := events;
  ud_total_estimated_unstake_amount := total;
  ud_daily_average_unstakes := 0;
  ud_daily_average_amount := total;
  ud_unstake_events := []
|}.

(** The grade the specification assigns to the mean of the factors:
    at least 1.5 is Excellent, at least 0.5 Good, at least -0.5 Moderate,
    anything below Critical. *)
Definition grade_by_thresholds (mean : Q) : HealthScore :=
  if Qle_bool (3 # 2) mean then EXCELLENT
  else if Qle_bool (1 # 2) mean then GOOD
  else if Qle_bool (- (1 # 2)) mean then MODERATE
  else CRITICAL.

(** The object as [run_complete_analysis] configures it for the example
    contracts, before any request. *)
Definition configured (g : Rng) : State :=
  {| self := configure init_self the_staking_contract the_token_contract
                       None;
     trace := [];
     rng := g;
     clock := 0 |}.

(** What a scan that finds nothing reports: zeros, and the two daily
    averages [q] and [qa]. *)
Definition no_stake (days : Z) (q qa : float) : StakingData :=
  {| sd_period_days := days;
     sd_blocks_scanned := 0;
     sd_stake_events_found := 0;
     sd_unique_stakers := 0;
     sd_total_estimated_stake_amount := Int 0;
     sd_daily_average_stakes := q;
     sd_daily_average_amount := Float qa;
     sd_stake_events := [] |}.

Definition no_unstake (days : Z) (q qa : float) : UnstakingData :=
  {| ud_period_days := days;
     ud_blocks_scanned := 0;
     ud_unstake_events_found := 0;
     ud_unique_unstakers := 0;
     ud_total_estimated_unstake_amount := Int 0;
     ud_daily_average_unstakes := q;
     ud_daily_average_amount := Float qa;
     ud_unstake_events := [] |}.

(** The request [get_token_balance] posts for a holder. *)
Definition balance_call (token_contract holder_address : string) : Call :=
  EthCall token_contract
    (String.append "0x70a08231" (zfill64 (lower (drop2 holder_address)))).

(** The state [run_complete_analysis] works in once the attributes are
    set. *)
Definition configured_from (st : State)
  (staking_contract_ token_contract_ : string) (total_supply_ : option Z)
  : State :=
  {| self := configure (self st) staking_contract_ token_contract_
                       total_supply_;
     trace := trace st;
     rng := rng st;
     clock := clock st |}.

(** The dictionary after a prefix of the events: one entry per day of the
    window that occurs, holding the sum and the count of that day. *)
Definition dict_ok (D : list (Z * PressureBucket))
  (seen : list UnstakeEvent) : Prop :=
  NoDup (map fst D) /\
  forall k, lookup D k =
            if in_window k && occurs k seen then Some (bucket_of k seen)
            else None.


(* ================================================================== *)
(** ** Vocabulary of the further properties *)

(** The time of a block as [analyze_stake_transaction] reads it: the local
    date and time of the parsed ["timestamp"] (of 0 when the member is
    absent), when it can be parsed and converted. *)
Definition block_time_value (E : Env) (b : BlockData) : option Z :=
  match (match block_timestamp b with
         | None => Some 0
         | Some timestamp_hex => int16 E timestamp_hex
         end) with
  | Some timestamp_unix => fromtimestamp E timestamp_unix
  | None => None
  end.

(** The stake event of a matching transaction, when it can be built. *)
Definition stake_event_for (E : Env) (t : Tx) (b : BlockData)
  (signature : string) : option StakeEvent :=
  match block_time_value E b, seed_of E (lower (tx_from t)) with
  | Some ts, Some seed =>
      Some {| se_address := lower (tx_from t);
              se_transaction_hash := tx_hash t;
              se_timestamp := ts;
              se_signature := signature;
              se_estimated_amount :=
                tiered_amount "stake" (random_seed E seed) |}
  | _, _ => None
  end.

(** The expiry of the unstakes of a block, 14 days after the block time,
    when the block time can be read and the expiry is a date up to the year
    9999; only then does [analyze_unstake_transaction] read the clock. *)
Definition expiry_of (E : Env) (b : BlockData) : option Z :=
  match block_time_value E b with
  | Some ts =>
      if ts + 14 * 86400 <=? datetime_max then Some (ts + 14 * 86400)
      else None
  | None => None
  end.

(** The unstake event of a matching transaction, when it can be built;
    [now] is what the clock shows when it is read for this transaction. *)
Definition unstake_event_for (E : Env) (now : Z) (t : Tx)
  (b : BlockData) (signature : string) : option UnstakeEvent :=
  match block_time_value E b with
  | Some ts =>
      let expiry_date := ts + 14 * 86400 in
      if expiry_date <=? datetime_max then
        match seed_of E (lower (tx_from t)) with
        | Some seed =>
            let days_remaining :=
              (expiry_date * 1000000 - now) / microseconds_per_day in
            Some {| ue_address := lower (tx_from t);
                    ue_transaction_hash := tx_hash t;
                    ue_timestamp := ts;
                    ue_expiry_date := expiry_date;
                    ue_days_remaining := days_remaining;
                    ue_signature := signature;
                    ue_estimated_amount :=
                      tiered_amount "unstake" (random_seed E seed);
                    ue_status := if 0 <? days_remaining
                                 then active else expired |}
        | None => None
        end
      else None
  | None => None
  end.

(** The transactions of a fetched block, none when the fetch failed or the
    block has no ["transactions"] member. *)
Definition transactions_of (b : option BlockData) : list (BlockData * TxEntry) :=
  match b with
  | Some bd =>
      match block_transactions bd with
      | Some txs => map (fun tx => (bd, tx)) txs
      | None => []
      end
  | None => []
  end.

(** The selector a transaction entry is classified under, with the
    transaction, when it goes to [contract] and its input starts with one
    of [signatures]. *)
Definition classify (contract : string) (signatures : list string)
  (tx : TxEntry) : option (Tx * string) :=
  match destination tx with
  | Some (t, to_address) =>
      match matching_signature contract signatures to_address
                               (tx_input t) with
      | Some sig => Some (t, sig)
      | None => None
      end
  | None => None
  end.

Definition option_list {A} (o : option A) : list A :=
  match o with
  | Some a => [a]
  | None => []
  end.

(** The stake events of one fetched block, in array order. *)
Definition stake_events_of_block (E : Env) (contract : string)
  (signatures : list string) (b : option BlockData) : list StakeEvent :=
  flat_map (fun '(bd, tx) =>
              match classify contract signatures tx with
              | Some (t, sig) => option_list (stake_event_for E t bd sig)
              | None => []
              end)
           (transactions_of b).

(** What one transaction of a block adds to the unstake events found so
    far: [h] is the history of requests once the block has been fetched, the
    number carried along counts the readings of the clock.  A transaction
    of the contract with an unstake selector reads the clock once when its
    block has an expiry, also when no event can be built in the end. *)
Definition unstake_step (E : Env) (contract : string)
  (signatures : list string) (h : list Call)
  (found : list UnstakeEvent * nat) (btx : BlockData * TxEntry)
  : list UnstakeEvent * nat :=
  match classify contract signatures (snd btx) with
  | Some (t, sig) =>
      (fst found ++
       option_list (unstake_event_for E (now_us E h (snd found)) t
                                      (fst btx) sig),
       match expiry_of E (fst btx) with
       | Some _ => S (snd found)
       | None => snd found
       end)
  | None => found
  end.

(** The blocks a scan receives: each block number is requested after the
    requests [h] and those of the blocks before it; every answer is paired
    with the history that includes its own request. *)
Fixpoint fetched_blocks (E : Env) (h : list Call) (blocks : list Z)
  : list (list Call * option BlockData) :=
  match blocks with
  | [] => []
  | n :: rest =>
      (h ++ [EthGetBlockByNumber n], block_at E h n)
      :: fetched_blocks E (h ++ [EthGetBlockByNumber n]) rest
  end.

(** The running total of amounts: the int [0] before the first event, the
    float sum afterwards. *)
Definition total_of (amounts : list float) : num :=
  match amounts with
  | [] => Int 0
  | _ => Float (float_sum amounts)
  end.

(** The transactions of a sequence of fetched blocks that go to
    [contract] with an input starting with one of [signatures], in block
    order and array order. *)
Definition matching_transactions (contract : string)
  (signatures : list string) (fetched : list (list Call * option BlockData))
  : list (BlockData * TxEntry) :=
  flat_map (fun hb =>
              filter (fun '(_, tx) =>
                        match classify contract signatures tx with
                        | Some _ => true
                        | None => false
                        end)
                     (transactions_of (snd hb)))
           fetched.

(** The stake events of a sequence of fetched blocks, in block order. *)
Definition stake_events_of (E : Env) (contract : string)
  (signatures : list string) (fetched : list (list Call * option BlockData))
  : list StakeEvent :=
  flat_map (fun hb => stake_events_of_block E contract signatures (snd hb))
           fetched.

(** The unstake events of a sequence of fetched blocks, in block order and
    array order, with the number of clock readings afterwards; [k] is the
    number of readings before. *)
Definition unstake_events_of (E : Env) (contract : string)
  (signatures : list string) (k : nat)
  (fetched : list (list Call * option BlockData))
  : list UnstakeEvent * nat :=
  fold_left
    (fun found hb =>
       fold_left (unstake_step E contract signatures (fst hb))
                 (transactions_of (snd hb)) found)
    fetched ([], k).

(** The blocks a [days]-day scan receives when it starts after the
    requests [h]: it reads the latest block number, then fetches every
    hundredth block of the window. *)
Definition scanned_blocks (E : Env) (h : list Call) (days : Z)
  : list (list Call * option BlockData) :=
  let current_block := latest_at E h in
  let from_block := Z.max 0 (current_block - days * 43200) in
  fetched_blocks E (h ++ [EthBlockNumber])
                 (py_range from_block current_block 100).

(* ================================================================== *)
(** ** A chain with activity *)

Definition unstake_tx : Tx := {|
  tx_hash := "0xbb";
  tx_from := "0x00000000000000000000000000000000CAFE0002";
  tx_to := Some "0x1111111111111111111111111111111111111111";
  tx_input := "0x2e1a7d4d0000000000000000000000000000000000000002"
|}.

(** A chain of 200 blocks, read on 2023-09-18: block 0 holds a stake, a
    bare transaction hash and an unstake; block 100 holds the same stake
    again and a transfer to another contract; the other blocks are empty.
    The staking contract holds one token. *)
Definition busy_chain : Env := {|
  post_eth_call := fun _ _ _ =>
    Responded 200 (Some (Value "0xde0b6b3a7640000"));
  post_eth_blockNumber := fun _ => Responded 200 (Some (Value "0xc8"));
  post_eth_getBlockByNumber := fun _ n =>
    if n =? 0 then
      Responded 200 (Some (Some
        {| block_timestamp := Some "0x65000000";
           block_transactions :=
             Some [TxDict stake_tx; TxHashOnly "0x01"; TxDict unstake_tx] |}))
    else if n =? 100 then
      Responded 200 (Some (Some
        {| block_timestamp := Some "0x65000400";
           block_transactions :=
             Some [TxDict stake_tx;
                   TxDict {| tx_hash := "0xcc";
                             tx_from := tx_from unstake_tx;
                             tx_to := Some the_token_contract;
                             tx_input := tx_input unstake_tx |}] |}))
    else if (0 <=? n) && (n <? 200) then
      Responded 200 (Some (Some
        {| block_timestamp := Some "0x65000000";
           block_transactions := Some [] |}))
    else Responded 200 (Some None);
  int16 := parse_hex;
  random_seed := fun seed _ => if Z.even seed then 0.25%float else 0.5%float;
  now_us := fun _ k => (1695000000 + Z.of_nat k) * 1000000;
  fromtimestamp := fun t => Some (t + 7200)
|}.

(** A number that is zero: the int [0] or a float zero of either sign. *)
Definition is_zero_num (p : num) : Prop :=
  p = Int 0 \/ exists r s, p = Float r /\ Prim2SF r = S754_zero s.

(** Inputs for the examples of the projections: an unstake of 5000000
    tokens that unlocked three days ago, flows of 700 staked and 500
    unstaked tokens a day, and a verified balance of one token. *)
Definition expired_unstaking : UnstakingData := {|
  ud_period_days := 14;
  ud_blocks_scanned := 200;
  ud_unstake_events_found := 1;
  ud_unique_unstakers := 1;
  ud_total_estimated_unstake_amount := Float 5000000;
  ud_daily_average_unstakes := 0x1.2492492492492p-4;
  ud_daily_average_amount := Float 357142.85714285716;
  ud_unstake_events :=
    [{| ue_address := "0x00000000000000000000000000000000cafe0002";
        ue_transaction_hash := "0xbb";
        ue_timestamp := 1694498816;
        ue_expiry_date := 1695708416;
        ue_days_remaining := -3;
        ue_signature := "0x2e1a7d4d";
        ue_estimated_amount := 5000000;
        ue_status := expired |}]
|}.

Definition steady_flow : FlowAnalysis := {|
  fa_comparison_metrics :=
    {| cm_stake_events := 2; cm_unstake_events := 1; cm_net_events := 1;
       cm_stake_amount := Float 9800; cm_unstake_amount := Float 7000;
       cm_net_amount := Float 2800 |};
  fa_daily_rates :=
    {| dr_daily_stake_events := Float 0.14; dr_daily_unstake_events := Float 0.07;
       dr_daily_stake_amount := 700; dr_daily_unstake_amount := 500;
       dr_daily_net_amount := 200 |};
  fa_percentages :=
    {| pc_stake_event_percentage := Float 66.67;
       pc_unstake_event_percentage := Float 33.33;
       pc_stake_amount_percentage := Float 58.33;
       pc_unstake_amount_percentage := Float 41.67 |};
  fa_trend_analysis :=
    {| ta_trend := STRONG_GROWTH; ta_trend_score := 2;
       ta_net_flow_percentage := Float 28.57 |};
  fa_weekly_breakdown := []
|}.

Definition one_token_balance : BalanceData := {|
  bd_balance_wei := 10 ^ 18;
  bd_balance_tokens := Float 1;
  bd_percentage_of_supply := Float 0;
  bd_verification_method := direct_balance_call
|}.

(** The score that belongs to a trend label. *)
Definition trend_score_of (trend : Trend) : Z :=
  match trend with
  | STRONG_GROWTH => 2
  | GROWTH => 1
  | STABLE => 0
  | DECLINE => -1
  | STRONG_DECLINE => -2
  end.

(** The grade read off the integer sum of the four factors. *)
Definition grade_of_factor_sum (s : Z) : HealthScore :=
  if 6 <=? s then EXCELLENT
  else if 2 <=? s then GOOD
  else if -2 <=? s then MODERATE
  else CRITICAL.

(** The selling pressure counts as high. *)
Definition high_pressure (i : Intensity) : bool :=
  match i with
  | P_HIGH | P_CRITICAL => true
  | _ => false
  end.

(** Health metrics graded [health] whose net flow is [net] percent, and
    projections with pressure [intensity] at [pressure] percent, for the
    examples of the summary. *)
Definition health_example (health : HealthScore) (trend : Trend)
  (net : num) : HealthMetrics := {|
  hm_total_supply := 1000000000;
  hm_total_staked := Float 458000000;
  hm_staking_percentage := Float 45.8;
  hm_flow_metrics :=
    {| fm_total_staking_flow := Float 9800;
       fm_total_unstaking_flow := Float 7000;
       fm_net_flow := Float 2800;
       fm_staking_flow_percentage := Float 0;
       fm_unstaking_incidence_percentage := Float 0;
       fm_net_flow_percentage := net |};
  hm_trend_direction := trend;
  hm_trend_score := trend_score_of trend;
  hm_health_assessment :=
    {| ha_health_score := health;
       ha_health_factors := [2; 2; trend_score_of trend; 0];
       ha_average_score := Float 1 |}
|}.

Definition projections_example (intensity : Intensity) (pressure : num)
  : Projections := {|
  pr_projections_30_days :=
    {| pj_projected_stake_amount := 21000;
       pj_projected_unstake_amount := 15000;
       pj_projected_net_flow := 6000;
       pj_projected_tvl_change_percentage := Float 0;
       pj_current_daily_growth_rate := Float 0 |};
  pr_selling_pressure :=
    {| sp_total_pressure_14_days := Int 0;
       sp_pressure_percentage_of_staked := pressure;
       sp_pressure_intensity := intensity;
       sp_daily_average_pressure := Float 0;
       sp_pressure_timeline := [] |};
  pr_liquidity_risk := "Low";
  pr_growth_sustainability := "Stable";
  pr_market_impact := "Limited"
|}.

(** The requests of a [days]-day scan that starts after the requests [h]. *)
Definition scan_requests (E : Env) (h : list Call) (days : Z) : list Call :=
  let current_block := latest_at E h in
  EthBlockNumber
  :: scan_calls (Z.max 0 (current_block - days * 43200)) current_block 100.

(** The requests of the weekly breakdown that starts after [h]. *)
Definition weekly_requests (E : Env) (h : list Call) (days : Z)
  : list Call :=
  if days <? 7 then []
  else EthBlockNumber
       :: flat_map (week_calls (latest_at E h))
                   (py_range 0 (Z.min 4 (days / 7)) 1).

(** The requests of a whole analysis that starts after [h]: the balance
    call, the staking scan, the unstaking scan, the weekly breakdown. *)
Definition run_requests (E : Env) (h : list Call)
  (staking_contract_ token_contract_ : string) (days : Z) : list Call :=
  let h0 := h ++ [balance_call (lower token_contract_)
                               (lower staking_contract_)] in
  let h1 := h0 ++ scan_requests E h0 days in
  let h2 := h1 ++ scan_requests E h1 days in
  h2 ++ weekly_requests E h2 days.

(** A request that failed: the transport raised, or the status is not
    200. *)
Definition failed {A} (r : reply A) : Prop :=
  r = Raised \/
  exists code body, r = Responded code body /\ code <> 200.

(* ================================================================== *)
(** ** The trend table on exact numbers *)

(** The number a finite float stands for. *)
Definition Q_of_float (f : float) : option Q :=
  match Prim2SF f with
  | S754_zero _ => Some 0%Q
  | S754_finite s m e =>
      let v := if s then Z.neg m else Z.pos m in
      Some (if 0 <=? e then inject_Z (v * 2 ^ e)
            else (v # (2 ^ Z.to_pos (- e)))%Q)
  | _ => None
  end.

(** The trend table as the specification words it, evaluated on exact
    numbers: the thresholds are 0.10, -0.10 and -0.30 times the stake
    amount. *)
Definition spec_trend (stake net : Q) : Trend :=
  if negb (Qle_bool net ((1 # 10) * stake)) then STRONG_GROWTH
  else if negb (Qle_bool net 0) then GROWTH
  else if negb (Qle_bool net (- (1 # 10) * stake)) then STABLE
  else if negb (Qle_bool net (- (3 # 10) * stake)) then DECLINE
  else STRONG_DECLINE.

(* ================================================================== *)
(** ** The buckets of the weekly breakdown *)

(** The bucket of week [week] (0 is the week that ends at the current
    block) when its two counts start after the requests [h]: the window is
    scanned once for the stake selectors and then once more for the
    unstake selectors. *)
Definition week_bucket (E : Env) (slf : Self) (weeks current_block : Z)
  (h : list Call) (week : Z) : WeeklyBucket :=
  let week_start := current_block - (week + 1) * 7 * 43200 in
  let week_end := current_block - week * 7 * 43200 in
  let blocks := py_range week_start week_end 200 in
  let week_stakes :=
    len (matching_transactions (staking_contract slf)
           (stake_signatures slf) (fetched_blocks E h blocks)) in
  let week_unstakes :=
    len (matching_transactions (staking_contract slf)
           (unstake_signatures slf)
           (fetched_blocks E (h ++ map EthGetBlockByNumber blocks)
                           blocks)) in
  {| wb_week := weeks - week;
     wb_stake_events := week_stakes;
     wb_unstake_events := week_unstakes;
     wb_net_events := week_stakes - week_unstakes |}.

(** The buckets of the weeks [ws], in this order, the first one counted
    after the requests [h]. *)
Fixpoint weekly_buckets (E : Env) (slf : Self) (weeks current_block : Z)
  (h : list Call) (ws : list Z) : list WeeklyBucket :=
  match ws with
  | [] => []
  | week :: rest =>
      week_bucket E slf weeks current_block h week
      :: weekly_buckets E slf weeks current_block
           (h ++ week_calls current_block week) rest
  end.

(** The requests posted before the counts of week [k] start, in a
    breakdown that begins after the requests [h]. *)
Definition week_history (h : list Call) (current_block k : Z)
  : list Call :=
  h ++ EthBlockNumber
    :: flat_map (week_calls current_block) (py_range 0 k 1).

(* ================================================================== *)
(** ** A node that answers the balance call only *)

(** A node that answers every balance call with [result] and nothing
    else. *)
Definition balance_node (result : string) : Env := {|
  post_eth_call := fun _ _ _ => Responded 200 (Some (Value result));
  post_eth_blockNumber := fun _ => Raised;
  post_eth_getBlockByNumber := fun _ _ => Raised;
  int16 := parse_hex;
  random_seed := fun _ _ => 0.5%float;
  now_us := fun _ _ => 0;
  fromtimestamp := fun t => Some t
|}.

(** One row of the trend table on concrete totals: the determination and
    a flow analysis over a day on an unreachable node both answer
    [expected]. *)
Definition trend_row (stake unstake : num) (expected : Trend) : Prop :=
  amount_total stake /\ amount_total unstake
  /\ exists net p10 m10 m30,
       num_sub stake unstake = inr net
       /\ num_mul stake (Float 0.1) = inr p10
       /\ num_mul (num_neg stake) (Float 0.1) = inr m10
       /\ num_mul (num_neg stake) (Float 0.3) = inr m30
       /\ determine_trend stake net = inr (expected, trend_score_of expected)
       /\ trend_table net p10 m10 m30 expected
       /\ match analyze_staking_flows unreachable_node
                  (example_staking 3 stake) (example_unstaking 2 unstake)
                  (fresh half) with
          | (inr fa, _) =>
              ta_trend (fa_trend_analysis fa) = expected
              /\ ta_trend_score (fa_trend_analysis fa) =
                 trend_score_of expected
          | (inl _, _) => False
          end.

(* ================================================================== *)
(** ** A chain with two different weeks *)

(** A chain at block 700000: block 397600, the first one scanned of the
    last week, holds two stakes and an unstake; block 95200, the first one
    scanned of the week before, holds an unstake; the node knows no other
    block. *)
Definition weekly_chain : Env := {|
  post_eth_call := fun _ _ _ => Responded 500 None;
  post_eth_blockNumber := fun _ => Responded 200 (Some (Value "0xaae60"));
  post_eth_getBlockByNumber := fun _ n =>
    if n =? 397600 then
      Responded 200 (Some (Some
        {| block_timestamp := Some "0x65000000";
           block_transactions :=
             Some [TxDict stake_tx; TxDict unstake_tx; TxDict stake_tx] |}))
    else if n =? 95200 then
      Responded 200 (Some (Some
        {| block_timestamp := Some "0x64f00000";
           block_transactions := Some [TxDict unstake_tx] |}))
    else Responded 200 (Some None);
  int16 := parse_hex;
  random_seed := fun _ _ => 0.5%float;
  now_us := fun _ _ => 1695000000000000;
  fromtimestamp := fun t => Some t
|}.

(* ================================================================== *)
(** ** Rounding a real percentage *)

(** [q] rounded to two decimal places as a real number, a tie going to
    the even neighbour. *)
Definition spec_round2 (q : Q) : Q :=
  let c := (q * 100)%Q in
  inject_Z (round_half_even (Qnum c) (Z.pos (Qden c))) / 100.

(** The percentage of supply as a real number:
    [balance / total_supply * 100]. *)
Definition spec_percentage (balance_tokens total_supply : Z) : Q :=
  inject_Z balance_tokens / inject_Z total_supply * 100.

(* ================================================================== *)
(** * Properties *)

(** ** The number model on sample values

    Each value below is the one CPython 3 prints for the same expression. *)

Example int_truediv_samples :
  int_truediv (10 ^ 30 + 12345) (10 ^ 18) = inr 0x1.d1a94a2000000p+39%float
  /\ int_truediv (2 ^ 70 + 1) 3 = inr 0x1.5555555555555p+68%float
  /\ int_truediv 1 3 = inr 0x1.5555555555555p-2%float
  /\ int_truediv 7 (-2) = inr (-3.5)%float
  /\ int_truediv 0 (-3) = inr (-0)%float.
Proof. vm_compute. repeat split; reflexivity. Qed.

Example float_of_Z_samples :
  float_of_Z (2 ^ 53 + 1) = 0x1.0000000000000p+53%float
  /\ float_of_Z (2 ^ 63 + 2 ^ 10) = 0x1.0000000000000p+63%float.
Proof. vm_compute. split; reflexivity. Qed.

Example float_round2_samples :
  float_round2 14.374999999999998%float = 0x1.cbd70a3d70a3dp+3%float
  /\ float_round2 85.625%float = 0x1.567ae147ae148p+6%float
  /\ float_round2 0.125%float = 0x1.eb851eb851eb8p-4%float
  /\ float_round2 1e-7%float = 0%float
  /\ float_round2 (-0.004)%float = (-0)%float
  /\ float_round2 123456.785%float = 0x1.e240ca3d70a3dp+16%float
  /\ float_round2 5e-324%float = 0%float.
Proof. vm_compute. repeat split; reflexivity. Qed.

Example float_round0_samples :
  float_round0 2.5%float = inr 2
  /\ float_round0 3.5%float = inr 4
  /\ float_round0 (-0.5)%float = inr 0
  /\ float_round0 0.49999999999999994%float = inr 0
  /\ float_round0 1e20%float = inr 100000000000000000000.
Proof. vm_compute. repeat split; reflexivity. Qed.

Example num_compare_samples :
  num_lt (Int 1) (Float 1.0000000000000002%float) = true
  /\ num_gt (Int (2 ^ 53 + 1)) (Float (float_of_Z (2 ^ 53))) = true
  /\ num_compare (Int (2 ^ 53 + 1)) (Float (float_of_Z (2 ^ 53 + 1)))
     = Some Gt.
Proof. vm_compute. repeat split; reflexivity. Qed.


(* ================================================================== *)
(** ** The string model on sample values

    Each value below is the one CPython 3 gives for the same expression
    on code points below 256. *)

Example is_space_samples :
  map nat_of_ascii (filter is_space (map ascii_of_nat (seq 0 256))) =
  [9; 10; 11; 12; 13; 28; 29; 30; 31; 32; 133; 160]%nat.
Proof. vm_compute. reflexivity. Qed.

Example lower_char_samples :
  filter (fun n => negb (Nat.eqb (nat_of_ascii (lower_char (ascii_of_nat n)))
                                 n))
         (seq 0 256) = (seq 65 26 ++ seq 192 23 ++ seq 216 7)%list
  /\ forall n, (n < 256)%nat ->
       lower_char (ascii_of_nat n) <> ascii_of_nat n ->
       nat_of_ascii (lower_char (ascii_of_nat n)) = (n + 32)%nat.
Proof.
  split; [vm_compute; reflexivity|].
  intros n Hn Hneq.
  assert (forallb (fun n =>
            Ascii.eqb (lower_char (ascii_of_nat n)) (ascii_of_nat n)
            || Nat.eqb (nat_of_ascii (lower_char (ascii_of_nat n))) (n + 32))
            (seq 0 256) = true) as Hall by (vm_compute; reflexivity).
  rewrite forallb_forall in Hall.
  specialize (Hall n ltac:(apply in_seq; lia)).
  apply orb_true_iff in Hall. destruct Hall as [H|H].
  - apply Ascii.eqb_eq in H. contradiction.
  - apply Nat.eqb_eq in H. exact H.
Qed.

Example strip_samples :
  strip (String (ascii_of_nat 32) (String (ascii_of_nat 28)
           (String "y" (String (ascii_of_nat 31)
              (String (ascii_of_nat 133)
                 (String (ascii_of_nat 160) EmptyString)))))) = "y"
  /\ strip "  yes please " = "yes please"
  /\ lower (strip " YES ") = "yes".
Proof. vm_compute. repeat split; reflexivity. Qed.

Example zfill64_samples :
  zfill64 "-1" = String "-" (String.append (zeros 62) "1")
  /\ zfill64 "+ab" = String "+" (String.append (zeros 61) "ab")
  /\ zfill64 "ab" = String.append (zeros 62) "ab"
  /\ zfill64 "" = zeros 64
  /\ zfill64 "-" = String "-" (zeros 63)
  /\ strlen (zfill64 "-1") = 64
  /\ zfill64 (zeros 70) = zeros 70
  /\ balance_call "0x22" "0x-1" =
     EthCall "0x22"
       (String.append "0x70a08231-" (String.append (zeros 62) "1")).
Proof. vm_compute. repeat split; reflexivity. Qed.


(* ================================================================== *)
(** ** Facts about binary64 comparison and the sign of products *)

Section FloatFacts.

Local Abbreviation zero := (S754_zero false).

Lemma SFcompare_antisym (a b : spec_float) :
  SFcompare b a = option_map CompOpp (SFcompare a b).
Proof.
  destruct a as [sa|sa| |sa ma ea], b as [sb|sb| |sb mb eb]; simpl;
    try reflexivity;
    try (destruct sa; reflexivity);
    try (destruct sb; reflexivity);
    try (destruct sa, sb; reflexivity).
  destruct sa, sb; try reflexivity.
  - rewrite (Z.compare_antisym ea eb).
    destruct (ea ?= eb) eqn:Ee; simpl; try reflexivity.
    rewrite (Pos.compare_cont_antisym ma mb Eq). simpl.
    destruct (Pos.compare_cont Eq ma mb); reflexivity.
  - rewrite (Z.compare_antisym ea eb).
    destruct (ea ?= eb) eqn:Ee; simpl; try reflexivity.
    rewrite (Pos.compare_cont_antisym ma mb Eq). reflexivity.
Qed.

Lemma SFleb_not_ltb (a b : spec_float) :
  SFleb a b = true -> SFltb b a = false.
Proof.
  unfold SFleb, SFltb. rewrite (SFcompare_antisym a b).
  destruct (SFcompare a b) as [[]|]; simpl; congruence.
Qed.

Lemma SFcompare_defined (a b : spec_float) :
  a <> S754_nan -> b <> S754_nan -> exists c, SFcompare a b = Some c.
Proof.
  intros Ha Hb.
  destruct a, b; try congruence; simpl; eexists; reflexivity.
Qed.

Lemma SFltb_total (a b : spec_float) :
  a <> S754_nan -> b <> S754_nan -> SFltb b a = false -> SFleb a b = true.
Proof.
  intros Ha Hb. unfold SFleb, SFltb. rewrite (SFcompare_antisym a b).
  destruct (SFcompare_defined a b Ha Hb) as [c ->].
  destruct c; simpl; congruence.
Qed.

Lemma SFltb_not_nan_r (a b : spec_float) : SFltb a b = true -> b <> S754_nan.
Proof. intros H ->. destruct a; discriminate. Qed.

Lemma SFleb_zero_not_nan (p : spec_float) :
  SFleb zero p = true -> p <> S754_nan.
Proof. intros H ->. discriminate. Qed.

Lemma SFleb_not_nan_l (a b : spec_float) : SFleb a b = true -> a <> S754_nan.
Proof. intros H ->. discriminate. Qed.

(** Through zero: [n <= 0 <= p] leaves no room for [p < n]. *)
Lemma SFleb_zero_between (n p : spec_float) :
  SFleb n zero = true -> SFleb zero p = true -> SFltb p n = false.
Proof.
  destruct n as [sn|[]| |[] mn en], p as [sp|[]| |[] mp ep];
    simpl; intros; try reflexivity; try discriminate.
Qed.

Lemma SFleb_below_nonpos (n m : spec_float) :
  SFleb n m = true -> SFleb m zero = true -> SFleb n zero = true.
Proof.
  destruct n as [sn|[]| |[] mn en], m as [sm|[]| |[] mm em];
    simpl; intros; try reflexivity; try discriminate.
Qed.

(** The rounding of a non-negative mantissa keeps the requested sign and
    never yields NaN. *)
Lemma shr_1_nonneg mrs : 0 <= shr_m mrs -> 0 <= shr_m (shr_1 mrs).
Proof.
  destruct mrs as [m r s]. simpl.
  destruct m as [|[p|p|]|p]; simpl; lia.
Qed.

Lemma iter_pos_shr_1_nonneg p : forall mrs,
  0 <= shr_m mrs -> 0 <= shr_m (iter_pos shr_1 p mrs).
Proof.
  induction p as [p IH|p IH|]; intros mrs H; simpl.
  - apply IH, IH, shr_1_nonneg, H.
  - apply IH, IH, H.
  - apply shr_1_nonneg, H.
Qed.

Lemma shr_fexp_nonneg m e l :
  0 <= m -> 0 <= shr_m (fst (shr_fexp prec emax m e l)).
Proof.
  intros H. unfold shr_fexp, shr.
  assert (0 <= shr_m (shr_record_of_loc m l)) as H0.
  { destruct l as [|[]]; exact H. }
  destruct (fexp prec emax (Zdigits2 m + e) - e) as [|p|p]; simpl;
    try exact H0.
  apply iter_pos_shr_1_nonneg, H0.
Qed.

Lemma round_nearest_even_nonneg m l :
  0 <= m -> 0 <= round_nearest_even m l.
Proof.
  intros H. destruct l as [|[]]; simpl; try lia.
  destruct (Z.even m); lia.
Qed.

Lemma binary_round_aux_sign sx mx ex lx :
  0 <= mx -> has_sign sx (binary_round_aux prec emax sx mx ex lx).
Proof.
  intros H. unfold binary_round_aux.
  pose proof (shr_fexp_nonneg mx ex lx H) as H1.
  destruct (shr_fexp prec emax mx ex lx) as [mrs' e']. simpl in H1.
  pose proof (shr_fexp_nonneg
                (round_nearest_even (shr_m mrs') (loc_of_shr_record mrs'))
                e' loc_Exact
                (round_nearest_even_nonneg _ _ H1)) as H2.
  destruct (shr_fexp prec emax _ e' loc_Exact) as [mrs'' e'']. simpl in H2.
  destruct (shr_m mrs'') as [|p|p]; simpl; try exact I; try lia.
  match goal with
  | |- context [if ?c then _ else _] => destruct c
  end; reflexivity.
Qed.

Lemma has_sign_false_nonneg x : has_sign false x -> SFleb zero x = true.
Proof. destruct x as [s|s| |s m e]; simpl; intros H; subst; tauto. Qed.

Lemma has_sign_true_nonpos x : has_sign true x -> SFleb x zero = true.
Proof. destruct x as [s|s| |s m e]; simpl; intros H; subst; tauto. Qed.

(** The product of a non-negative float and a positive finite constant is
    non-negative; with the float negated first it is non-positive. *)
Lemma SFmul_nonneg (s : spec_float) (mc : positive) (ec : Z) :
  SFleb zero s = true ->
  SFleb zero (SFmul prec emax s (S754_finite false mc ec)) = true.
Proof.
  intros H. apply has_sign_false_nonneg.
  destruct s as [ss|[]| |[] ms es]; simpl in *; try discriminate;
    try exact I; try reflexivity.
  apply binary_round_aux_sign. lia.
Qed.

Lemma SFmul_opp_nonpos (s : spec_float) (mc : positive) (ec : Z) :
  SFleb zero s = true ->
  SFleb (SFmul prec emax (SFopp s) (S754_finite false mc ec)) zero = true.
Proof.
  intros H. apply has_sign_true_nonpos.
  destruct s as [ss|[]| |[] ms es]; simpl in *; try discriminate;
    try exact I; try reflexivity.
  apply binary_round_aux_sign. lia.
Qed.

End FloatFacts.

(** *** Comparisons of Python numbers *)

Lemma cmp_Z_float_zero (f : float) :
  cmp_Z_float 0 f = SFcompare (S754_zero false) (Prim2SF f).
Proof.
  unfold cmp_Z_float. destruct (Prim2SF f) as [s|s| |s m e];
    try reflexivity.
  change (SFcompare (S754_zero false) (S754_finite s m e))
    with (Some (if s then Gt else Lt)).
  cbv zeta. destruct (0 <=? e) eqn:He.
  - apply Z.leb_le in He.
    assert (0 < 2 ^ e) by (apply Z.pow_pos_nonneg; lia).
    destruct s; f_equal.
    + apply Z.compare_gt_iff. nia.
    + apply Z.compare_lt_iff. nia.
  - destruct s; reflexivity.
Qed.

Lemma Prim2SF_zero : Prim2SF 0%float = S754_zero false.
Proof. reflexivity. Qed.

(** In a comparison the int [0] and the float [0.0] are interchangeable. *)
Lemma num_compare_Int0_l (x : num) :
  num_compare (Int 0) x = num_compare (Float 0) x.
Proof.
  destruct x as [y|g]; cbn [num_compare].
  - change (cmp_Z_float y 0) with (Some (y ?= 0)). cbn [option_map].
    rewrite (Z.compare_antisym 0 y), CompOpp_involutive. reflexivity.
  - rewrite cmp_Z_float_zero. reflexivity.
Qed.

Lemma num_compare_antisym (a b : num) :
  num_compare b a = option_map CompOpp (num_compare a b).
Proof.
  destruct a as [xa|fa]; destruct b as [xb|fb]; cbn [num_compare].
  - rewrite (Z.compare_antisym xa xb). reflexivity.
  - reflexivity.
  - destruct (cmp_Z_float xb fa) as [[]|]; reflexivity.
  - apply SFcompare_antisym.
Qed.

Lemma num_compare_Int0_r (x : num) :
  num_compare x (Int 0) = num_compare x (Float 0).
Proof.
  rewrite (num_compare_antisym (Int 0) x), (num_compare_antisym (Float 0) x).
  rewrite num_compare_Int0_l. reflexivity.
Qed.

Lemma num_lt_Float (f g : float) :
  num_lt (Float f) (Float g) = SFltb (Prim2SF f) (Prim2SF g).
Proof. reflexivity. Qed.

Lemma num_le_Float (f g : float) :
  num_le (Float f) (Float g) = SFleb (Prim2SF f) (Prim2SF g).
Proof. reflexivity. Qed.

(** The sign of the thresholds of the trend determination. *)
Lemma threshold_nonneg (s c : float) mc ec :
  Prim2SF c = S754_finite false mc ec ->
  num_le (Float 0) (Float s) = true ->
  num_le (Float 0) (Float (s * c)) = true.
Proof.
  intros Hc H. rewrite num_le_Float in *. rewrite Prim2SF_zero in *.
  rewrite mul_spec, Hc. apply SFmul_nonneg, H.
Qed.

Lemma threshold_nonpos (s c : float) mc ec :
  Prim2SF c = S754_finite false mc ec ->
  num_le (Float 0) (Float s) = true ->
  num_le (Float (- s * c)) (Float 0) = true.
Proof.
  intros Hc H. rewrite num_le_Float in *. rewrite Prim2SF_zero in *.
  rewrite mul_spec, opp_spec, Hc. apply SFmul_opp_nonpos, H.
Qed.


(* ================================================================== *)
(** ** Running methods: the requests they post *)

Lemma pushes_nil st : pushes [] st = st.
Proof. destruct st. unfold pushes. simpl. rewrite app_nil_r. reflexivity. Qed.

Lemma push_pushes c cs st : pushes cs (push c st) = pushes (c :: cs) st.
Proof.
  unfold pushes, push. simpl. rewrite <- app_assoc. reflexivity.
Qed.

Lemma pushes_pushes cs1 cs2 st :
  pushes cs2 (pushes cs1 st) = pushes (cs1 ++ cs2) st.
Proof. unfold pushes. simpl. rewrite <- app_assoc. reflexivity. Qed.

Lemma push_as_pushes c st : push c st = pushes [c] st.
Proof. reflexivity. Qed.

Section Requests.

Context (E : Env).

Lemma get_latest_block_number_run st :
  get_latest_block_number E st =
  (inr (latest_at E (trace st)), push EthBlockNumber st).
Proof.
  unfold get_latest_block_number, latest_at, bind, post.
  destruct (post_eth_blockNumber E (trace st)) as [|code [[| |hex]|]];
    try reflexivity.
  - destruct code as [|p|p]; try reflexivity.
    do 8 (destruct p as [p|p|]; try reflexivity).
  - destruct code as [|p|p]; try reflexivity.
    do 8 (destruct p as [p|p|]; try reflexivity).
  - destruct code as [|p|p]; try reflexivity.
    do 8 (destruct p as [p|p|]; try reflexivity).
    destruct (int16 E hex); reflexivity.
  - destruct code as [|p|p]; try reflexivity.
    do 8 (destruct p as [p|p|]; try reflexivity).
Qed.

Lemma get_block_with_transactions_run n st :
  get_block_with_transactions E n st =
  (inr (block_at E (trace st) n), push (EthGetBlockByNumber n) st).
Proof.
  unfold get_block_with_transactions, block_at, bind, post.
  destruct (post_eth_getBlockByNumber E (trace st) n) as [|code [r|]];
    try reflexivity.
  - destruct code as [|p|p]; try reflexivity.
    do 8 (destruct p as [p|p|]; try reflexivity).
  - destruct code as [|p|p]; try reflexivity.
    do 8 (destruct p as [p|p|]; try reflexivity).
Qed.

(** Counting the matching transactions of one block posts nothing. *)
Lemma count_block_run signatures transactions : forall count st,
  exists count',
    for_each transactions
      (fun count tx =>
         match destination tx with
         | None => ret count
         | Some (t, to_address) =>
             slf <- get_self ;;
             match matching_signature (staking_contract slf)
                     signatures to_address (tx_input t) with
             | Some _ => ret (count + 1)
             | None => ret count
             end
         end)
      count st = (inr count', st).
Proof.
  induction transactions as [|tx txs IH]; intros count st; simpl.
  - exists count. reflexivity.
  - unfold bind at 1.
    destruct (destination tx) as [[t to_address]|].
    + unfold bind at 1, get_self.
      destruct (matching_signature _ _ _ _); unfold ret; apply IH.
    + unfold ret. apply IH.
Qed.

Lemma count_range_run signatures blocks : forall count st,
  exists count',
    for_each blocks
      (fun count block_num =>
         block_data <- get_block_with_transactions E block_num ;;
         match block_data with
         | Some b =>
             match block_transactions b with
             | Some transactions =>
                 for_each transactions
                   (fun count tx =>
                      match destination tx with
                      | None => ret count
                      | Some (t, to_address) =>
                          slf <- get_self ;;
                          match matching_signature (staking_contract slf)
                                  signatures to_address (tx_input t) with
                          | Some _ => ret (count + 1)
                          | None => ret count
                          end
                      end)
                   count
             | None => ret count
             end
         | None => ret count
         end)
      count st
    = (inr count', pushes (map EthGetBlockByNumber blocks) st).
Proof.
  induction blocks as [|n blocks IH]; intros count st; simpl.
  - exists count. rewrite pushes_nil. reflexivity.
  - unfold bind at 1. unfold bind at 1.
    rewrite get_block_with_transactions_run.
    rewrite <- push_pushes.
    destruct (block_at E (trace st) n) as [b|].
    + destruct (block_transactions b) as [txs|].
      * destruct (count_block_run signatures txs count
                    (push (EthGetBlockByNumber n) st)) as [c Hc].
        rewrite Hc. apply IH.
      * unfold ret. apply IH.
    + unfold ret. apply IH.
Qed.

(** [count_events_in_period] always returns, after fetching one block per
    step of 200 and nothing else. *)
Lemma count_events_in_period_run from_block to_block signatures st :
  exists count,
    count_events_in_period E from_block to_block signatures st =
    (inr count, pushes (scan_calls from_block to_block 200) st).
Proof. apply count_range_run. Qed.

End Requests.

(* ================================================================== *)
(** ** The weekly breakdown *)

Section Weekly.

Context (E : Env).

Lemma weekly_loop_run (weeks current_block : Z) (ws : list Z) :
  forall (acc : list WeeklyBucket) (st : State),
  exists buckets,
    for_each ws
      (fun weekly_data week =>
         let week_start := current_block - (week + 1) * 7 * 43200 in
         let week_end := current_block - week * 7 * 43200 in
         slf <- get_self ;;
         week_stakes <-
           count_events_in_period E week_start week_end
                                  (stake_signatures slf) ;;
         slf <- get_self ;;
         week_unstakes <-
           count_events_in_period E week_start week_end
                                  (unstake_signatures slf) ;;
         ret (weekly_data ++
              [{| wb_week := weeks - week;
                  wb_stake_events := week_stakes;
                  wb_unstake_events := week_unstakes;
                  wb_net_events := week_stakes - week_unstakes |}]))
      acc st
    = (inr (acc ++ buckets),
       pushes (flat_map (week_calls current_block) ws) st)
    /\ map wb_week buckets = map (fun week => weeks - week) ws
    /\ Forall (fun b => wb_net_events b =
                        wb_stake_events b - wb_unstake_events b) buckets.
Proof.
  set (body := fun (weekly_data : list WeeklyBucket) (week : Z) => _).
  assert (forall acc w st, exists s u,
            body acc w st =
            (inr (acc ++ [{| wb_week := weeks - w;
                             wb_stake_events := s;
                             wb_unstake_events := u;
                             wb_net_events := s - u |}]),
             pushes (week_calls current_block w) st)) as Hbody.
  { intros acc w st. unfold body. cbv zeta.
    unfold bind at 1. unfold get_self at 1. unfold bind at 1.
    destruct (count_events_in_period_run E
                (current_block - (w + 1) * 7 * 43200)
                (current_block - w * 7 * 43200)
                (stake_signatures (self st)) st) as [s Hs].
    rewrite Hs. unfold bind at 1. unfold get_self at 1. unfold bind at 1.
    match goal with
    | |- context [count_events_in_period E ?a ?b ?sg ?st1] =>
        destruct (count_events_in_period_run E a b sg st1) as [u Hu]
    end.
    rewrite Hu. exists s, u. unfold ret, week_calls.
    rewrite pushes_pushes. reflexivity. }
  clearbody body.
  induction ws as [|w ws IH]; intros acc st; cbn [for_each flat_map].
  - exists []. rewrite app_nil_r, pushes_nil. repeat split. constructor.
  - destruct (Hbody acc w st) as [s [u Hb]].
    unfold bind at 1. rewrite Hb.
    match goal with
    | |- context [for_each ws body ?acc1 ?st1] =>
        destruct (IH acc1 st1) as [bs [Hrun [Hweeks Hnet]]]
    end.
    eexists (_ :: bs). split; [|split].
    + rewrite Hrun. rewrite <- app_assoc. cbn [app].
      rewrite pushes_pushes. reflexivity.
    + cbn [map wb_week]. rewrite Hweeks. reflexivity.
    + constructor; [reflexivity | exact Hnet].
Qed.

Lemma length_py_range_unit n : 0 <= n -> len (py_range 0 n 1) = n.
Proof.
  intros Hn. unfold len, py_range. rewrite length_map, length_seq.
  replace (n - 0 + 1 - 1) with n by lia. rewrite Z.div_1_r. lia.
Qed.

End Weekly.

(** [analyze_weekly_flows] always returns. *)
Lemma analyze_weekly_flows_returns (E : Env) (total_days : Z) (st : State) :
  exists weekly st',
    analyze_weekly_flows E total_days st = (inr weekly, st').
Proof.
  unfold analyze_weekly_flows. destruct (total_days <? 7).
  - exists [], st. reflexivity.
  - cbv zeta. unfold bind at 1. rewrite get_latest_block_number_run.
    match goal with
    | |- context [for_each ?ws ?body ?acc ?st1] =>
        destruct (weekly_loop_run E (Z.min 4 (total_days / 7))
                    (latest_at E (trace st)) ws acc st1) as [bs [Hrun _]]
    end.
    eexists. eexists. exact Hrun.
Qed.


(* ================================================================== *)
(** ** Inverting a successful run *)

Lemma bind_inv {A B} (m : M A) (k : A -> M B) st b st' :
  bind m k st = (inr b, st') ->
  exists a st1, m st = (inr a, st1) /\ k a st1 = (inr b, st').
Proof.
  unfold bind. destruct (m st) as [[e|a] st1]; [discriminate|].
  intros H. exists a, st1. auto.
Qed.

Lemma bind_lift_inv {A B} (r : result A) (k : A -> M B) st b st' :
  bind (lift r) k st = (inr b, st') ->
  exists a, r = inr a /\ k a st = (inr b, st').
Proof.
  unfold bind, lift. destruct r as [e|a]; [discriminate|].
  intros H. exists a. auto.
Qed.

Lemma rbind_inv {A B} (r : result A) (k : A -> result B) b :
  rbind r k = inr b -> exists a, r = inr a /\ k a = inr b.
Proof. destruct r as [e|a]; [discriminate|]. intros H. exists a. auto. Qed.

(** The trend of a flow analysis is the one [determine_trend] gives for the
    stake total and the net amount; the net amount is the difference of the
    totals. *)
Lemma analyze_staking_flows_trend (E : Env) sd ud st fa st' :
  analyze_staking_flows E sd ud st = (inr fa, st') ->
  exists net,
    num_sub (sd_total_estimated_stake_amount sd)
            (ud_total_estimated_unstake_amount ud) = inr net
    /\ cm_net_amount (fa_comparison_metrics fa) = net
    /\ determine_trend (sd_total_estimated_stake_amount sd) net =
       inr (ta_trend (fa_trend_analysis fa),
            ta_trend_score (fa_trend_analysis fa)).
Proof.
  unfold analyze_staking_flows. intros H.
  apply bind_lift_inv in H. destruct H as [net [Hnet H]].
  do 7 (apply bind_lift_inv in H; destruct H as [? [? H]]).
  apply bind_lift_inv in H. destruct H as [trend [Htrend H]].
  apply bind_inv in H. destruct H as [weekly [st1 [_ H]]].
  do 3 (apply bind_lift_inv in H; destruct H as [? [? H]]).
  apply bind_inv in H. destruct H as [slf [st2 [_ H]]].
  apply bind_lift_inv in H. destruct H as [nfp [_ H]].
  unfold ret in H. injection H as <- _.
  exists net. cbn. destruct trend. auto.
Qed.

(* ================================================================== *)
(** ** The trend thresholds *)

Section Trend.

Local Abbreviation zero := (S754_zero false).

Lemma chain_rows (n p m1 m3 : spec_float) :
  SFleb zero p = true -> SFleb m1 zero = true -> SFleb m3 zero = true ->
  let trend := fst (chain n p m1 m3) in
  (SFltb p n = true -> trend = STRONG_GROWTH)
  /\ (SFltb zero n = true /\ SFleb n p = true -> trend = GROWTH)
  /\ (SFltb m1 n = true /\ SFleb n zero = true -> trend = STABLE)
  /\ (SFltb m3 n = true /\ SFleb n m1 = true -> trend = DECLINE)
  /\ (SFltb p n = false
      /\ ~ (SFltb zero n = true /\ SFleb n p = true)
      /\ ~ (SFltb m1 n = true /\ SFleb n zero = true)
      /\ ~ (SFltb m3 n = true /\ SFleb n m1 = true) ->
      trend = STRONG_DECLINE).
Proof.
  intros Hp Hm1 Hm3 trend. subst trend. unfold chain.
  repeat split.
  - intros ->. reflexivity.
  - intros [H0 Hnp]. rewrite (SFleb_not_ltb _ _ Hnp), H0. reflexivity.
  - intros [H1 Hn0].
    rewrite (SFleb_zero_between n p Hn0 Hp).
    rewrite (SFleb_not_ltb _ _ Hn0), H1. reflexivity.
  - intros [H3 Hn1].
    pose proof (SFleb_below_nonpos n m1 Hn1 Hm1) as Hn0.
    rewrite (SFleb_zero_between n p Hn0 Hp).
    rewrite (SFleb_not_ltb _ _ Hn0), (SFleb_not_ltb _ _ Hn1), H3.
    reflexivity.
  - intros [Hr1 [Hr2 [Hr3 Hr4]]]. rewrite Hr1.
    destruct (SFltb zero n) eqn:H0.
    { exfalso. apply Hr2. split; [reflexivity|].
      apply SFltb_total;
        [eapply SFltb_not_nan_r, H0
        | eapply SFleb_zero_not_nan, Hp | exact Hr1]. }
    destruct (SFltb m1 n) eqn:H1.
    { exfalso. apply Hr3. split; [reflexivity|].
      apply SFltb_total;
        [eapply SFltb_not_nan_r, H1 | discriminate | exact H0]. }
    destruct (SFltb m3 n) eqn:H3.
    { exfalso. apply Hr4. split; [reflexivity|].
      apply SFltb_total;
        [eapply SFltb_not_nan_r, H3
        | eapply SFleb_not_nan_l, Hm1 | exact H1]. }
    reflexivity.
Qed.

End Trend.

Lemma num_compare_fl (a b : num) :
  int0_or_float a -> int0_or_float b ->
  num_compare a b = SFcompare (Prim2SF (fl a)) (Prim2SF (fl b)).
Proof.
  intros [->|[f ->]] [->|[g ->]]; cbn [fl].
  - reflexivity.
  - rewrite num_compare_Int0_l. reflexivity.
  - rewrite num_compare_Int0_r. reflexivity.
  - reflexivity.
Qed.

Lemma num_gt_fl (a b : num) :
  int0_or_float a -> int0_or_float b ->
  num_gt a b = SFltb (Prim2SF (fl b)) (Prim2SF (fl a)).
Proof.
  intros Ha Hb. unfold num_gt, num_lt, SFltb.
  rewrite (num_compare_fl b a Hb Ha). reflexivity.
Qed.

Lemma num_le_fl (a b : num) :
  int0_or_float a -> int0_or_float b ->
  num_le a b = SFleb (Prim2SF (fl a)) (Prim2SF (fl b)).
Proof.
  intros Ha Hb. unfold num_le, SFleb.
  rewrite (num_compare_fl a b Ha Hb). reflexivity.
Qed.

Lemma int0_or_float_Int0 : int0_or_float (Int 0).
Proof. left. reflexivity. Qed.

Lemma int0_or_float_Float f : int0_or_float (Float f).
Proof. right. exists f. reflexivity. Qed.

Lemma amount_total_simple a : amount_total a -> int0_or_float a.
Proof. intros [->|[f [-> _]]]; [left|right; exists f]; reflexivity. Qed.

(** The three thresholds of a stake total exist and have the expected
    signs. *)
Lemma thresholds_of_total (stake : num) :
  amount_total stake ->
  exists p m1 m3,
    num_mul stake (Float 0.1) = inr (Float p)
    /\ num_mul (num_neg stake) (Float 0.1) = inr (Float m1)
    /\ num_mul (num_neg stake) (Float 0.3) = inr (Float m3)
    /\ SFleb (S754_zero false) (Prim2SF p) = true
    /\ SFleb (Prim2SF m1) (S754_zero false) = true
    /\ SFleb (Prim2SF m3) (S754_zero false) = true.
Proof.
  intros [->|[s [-> Hs]]].
  - exists 0%float, 0%float, 0%float. repeat split; reflexivity.
  - exists (s * 0.1)%float, (- s * 0.1)%float, (- s * 0.3)%float.
    assert (num_le (Float 0) (Float s) = true) as Hs'.
    { unfold num_le in *. rewrite <- num_compare_Int0_l. exact Hs. }
    split; [reflexivity|]. split; [reflexivity|]. split; [reflexivity|].
    split; [|split].
    + eapply (threshold_nonneg s 0.1); [reflexivity | exact Hs'].
    + eapply (threshold_nonpos s 0.1); [reflexivity | exact Hs'].
    + eapply (threshold_nonpos s 0.3); [reflexivity | exact Hs'].
Qed.

Lemma determine_trend_chain (stake net : num) p m1 m3 :
  num_mul stake (Float 0.1) = inr (Float p) ->
  num_mul (num_neg stake) (Float 0.1) = inr (Float m1) ->
  num_mul (num_neg stake) (Float 0.3) = inr (Float m3) ->
  int0_or_float net ->
  determine_trend stake net =
  inr (chain (Prim2SF (fl net)) (Prim2SF p) (Prim2SF m1) (Prim2SF m3)).
Proof.
  intros Hp Hm1 Hm3 Hnet. unfold determine_trend, chain.
  rewrite Hp. cbn [rbind].
  rewrite (num_gt_fl net (Float p) Hnet (int0_or_float_Float p)).
  cbn [fl]. destruct (SFltb (Prim2SF p) (Prim2SF (fl net))); [reflexivity|].
  rewrite (num_gt_fl net (Int 0) Hnet int0_or_float_Int0).
  cbn [fl]. change (Prim2SF 0) with (S754_zero false).
  destruct (SFltb (S754_zero false) (Prim2SF (fl net))); [reflexivity|].
  rewrite Hm1. cbn [rbind].
  rewrite (num_gt_fl net (Float m1) Hnet (int0_or_float_Float m1)).
  cbn [fl]. destruct (SFltb (Prim2SF m1) (Prim2SF (fl net))); [reflexivity|].
  rewrite Hm3. cbn [rbind].
  rewrite (num_gt_fl net (Float m3) Hnet (int0_or_float_Float m3)).
  cbn [fl]. destruct (SFltb (Prim2SF m3) (Prim2SF (fl net))); reflexivity.
Qed.

Lemma num_sub_totals (a b net : num) :
  int0_or_float a -> int0_or_float b -> num_sub a b = inr net ->
  int0_or_float net.
Proof.
  intros [->|[f ->]] [->|[g ->]] H; cbn in H.
  - injection H as <-. left. reflexivity.
  - injection H as <-. right. eexists. reflexivity.
  - injection H as <-. right. eexists. reflexivity.
  - injection H as <-. right. eexists. reflexivity.
Qed.

Lemma chain_score (n p m1 m3 : spec_float) :
  snd (chain n p m1 m3) = trend_score_of (fst (chain n p m1 m3)).
Proof.
  unfold chain.
  repeat match goal with
         | |- context [if ?c then _ else _] => destruct c
         end; reflexivity.
Qed.

(** The trend of aggregated totals: the determination always returns, and
    its result follows the table on the binary64 thresholds. *)
Lemma determine_trend_total (stake unstake : num) :
  amount_total stake -> amount_total unstake ->
  exists net p10 m10 m30 trend,
    num_sub stake unstake = inr net
    /\ num_mul stake (Float 0.1) = inr p10
    /\ num_mul (num_neg stake) (Float 0.1) = inr m10
    /\ num_mul (num_neg stake) (Float 0.3) = inr m30
    /\ determine_trend stake net = inr (trend, trend_score_of trend)
    /\ trend_table net p10 m10 m30 trend.
Proof.
  intros Hs Hu.
  destruct (thresholds_of_total stake Hs)
    as [p [m1 [m3 [Hp [Hm1 [Hm3 [Sp [Sm1 Sm3]]]]]]]].
  assert (exists net, num_sub stake unstake = inr net) as [net Hnet].
  { destruct (amount_total_simple _ Hs) as [->|[f ->]];
      destruct (amount_total_simple _ Hu) as [->|[g ->]];
      eexists; reflexivity. }
  assert (int0_or_float net) as Hsimple.
  { eapply num_sub_totals; [| |exact Hnet];
      apply amount_total_simple; assumption. }
  exists net, (Float p), (Float m1), (Float m3),
    (fst (chain (Prim2SF (fl net)) (Prim2SF p) (Prim2SF m1) (Prim2SF m3))).
  split; [exact Hnet|]. split; [exact Hp|]. split; [exact Hm1|].
  split; [exact Hm3|]. split.
  - rewrite (determine_trend_chain stake net p m1 m3 Hp Hm1 Hm3 Hsimple).
    rewrite <- chain_score, <- surjective_pairing. reflexivity.
  - unfold trend_table.
    rewrite !(num_gt_fl net (Float _) Hsimple (int0_or_float_Float _)).
    rewrite !(num_le_fl net (Float _) Hsimple (int0_or_float_Float _)).
    rewrite (num_gt_fl net (Int 0) Hsimple int0_or_float_Int0).
    rewrite (num_le_fl net (Int 0) Hsimple int0_or_float_Int0).
    cbn [fl]. change (Prim2SF 0) with (S754_zero false).
    apply chain_rows; assumption.
Qed.

(** C3, as the code has it. For every pair of aggregated stake and unstake
    totals (each the int 0 of an empty scan or a non-negative float) the
    trend determination returns, never raising, and assigns exactly one
    trend, with the score of that trend: with [net = stake - unstake]
    computed in binary64 and the thresholds the binary64 products
    [stake * 0.1], [(-stake) * 0.1] and [(-stake) * 0.3], net above the
    first gives STRONG GROWTH, 0 < net up to the first gives GROWTH, net
    above the second and up to 0 gives STABLE, net above the third and up
    to the second gives DECLINE, and anything else STRONG DECLINE; and
    every flow analysis of scan reports with these totals that returns
    reports this trend and this score. *)
Theorem trend_follows_thresholds (stake unstake : num) :
  amount_total stake -> amount_total unstake ->
  exists net p10 m10 m30 trend,
    num_sub stake unstake = inr net
    /\ num_mul stake (Float 0.1) = inr p10
    /\ num_mul (num_neg stake) (Float 0.1) = inr m10
    /\ num_mul (num_neg stake) (Float 0.3) = inr m30
    /\ determine_trend stake net = inr (trend, trend_score_of trend)
    /\ trend_table net p10 m10 m30 trend
    /\ forall E sd ud st fa st',
         sd_total_estimated_stake_amount sd = stake ->
         ud_total_estimated_unstake_amount ud = unstake ->
         analyze_staking_flows E sd ud st = (inr fa, st') ->
         ta_trend (fa_trend_analysis fa) = trend
         /\ ta_trend_score (fa_trend_analysis fa) = trend_score_of trend.
Proof.
  intros Hs Hu.
  destruct (determine_trend_total stake unstake Hs Hu)
    as [net [p10 [m10 [m30 [trend [Hnet [Hp [Hm1 [Hm3 [Hd Ht]]]]]]]]]].
  exists net, p10, m10, m30, trend.
  repeat (split; [assumption|]).
  intros E sd ud st fa st' Hsd Hud Hrun.
  destruct (analyze_staking_flows_trend E sd ud st fa st' Hrun)
    as [net' [Hnet' [_ Htrend]]].
  rewrite Hsd, Hud in Hnet'. rewrite Hnet in Hnet'. injection Hnet' as <-.
  rewrite Hsd, Hd in Htrend. injection Htrend as <- <-.
  split; reflexivity.
Qed.

(** Settles one row from the table instantiated at its totals. *)
Ltac settle_row stake unstake table :=
  let Hs := fresh "Hs" in
  let Hu := fresh "Hu" in
  let Hnet := fresh "Hnet" in
  let Hd := fresh "Hd" in
  let Hall := fresh "Hall" in
  let Htrend := fresh "Htrend" in
  let Hrun := fresh "Hrun" in
  let trend := fresh "trend" in
  let fa := fresh "fa" in
  let st' := fresh "st'" in
  assert (amount_total (Float stake)) as Hs
    by (right; exists stake; split; reflexivity);
  assert (amount_total (Float unstake)) as Hu
    by (right; exists unstake; split; reflexivity);
  split; [exact Hs|]; split; [exact Hu|];
  destruct (table Hs Hu)
    as [net [p10 [m10 [m30 [trend [Hnet [? [? [? [Hd [? Hall]]]]]]]]]]];
  exists net, p10, m10, m30;
  match goal with
  | |- context [determine_trend _ _ = inr (?expected, _)] =>
      assert (trend = expected) as Htrend
        by (vm_compute in Hnet; injection Hnet as <-;
            vm_compute in Hd; injection Hd as <-; reflexivity)
  end;
  rewrite <- Htrend;
  repeat (split; [assumption|]);
  destruct (analyze_staking_flows unreachable_node
              (example_staking 3 (Float stake))
              (example_unstaking 2 (Float unstake)) (fresh half))
    as [[?|fa] st'] eqn:Hrun;
  [ vm_compute in Hrun; discriminate
  | exact (Hall unreachable_node (example_staking 3 (Float stake))
             (example_unstaking 2 (Float unstake)) (fresh half) fa st'
             eq_refl eq_refl Hrun) ].

(** C3 on 50000 staked against 20000, 47000, 52000, 60000 and 70000
    unstaked: one pair of totals for each row of the table. *)
Lemma trend_follows_thresholds_witness :
  trend_row (Float 50000) (Float 20000) STRONG_GROWTH
  /\ trend_row (Float 50000) (Float 47000) GROWTH
  /\ trend_row (Float 50000) (Float 52000) STABLE
  /\ trend_row (Float 50000) (Float 60000) DECLINE
  /\ trend_row (Float 50000) (Float 70000) STRONG_DECLINE.
Proof.
  split; [|split; [|split; [|split]]].
  - settle_row 50000%float 20000%float
      (trend_follows_thresholds (Float 50000) (Float 20000)).
  - settle_row 50000%float 47000%float
      (trend_follows_thresholds (Float 50000) (Float 47000)).
  - settle_row 50000%float 52000%float
      (trend_follows_thresholds (Float 50000) (Float 52000)).
  - settle_row 50000%float 60000%float
      (trend_follows_thresholds (Float 50000) (Float 60000)).
  - settle_row 50000%float 70000%float
      (trend_follows_thresholds (Float 50000) (Float 70000)).
Defined.

(** C3 as worded, with net and the thresholds taken as real numbers,
    fails: for totals of 3.0 staked and 3.9 unstaked the difference is
    computed exactly and lies above -0.30 times the stake and at most
    -0.10 times the stake, the row of DECLINE, while the code compares it
    with the binary64 product (-3.0) * 0.3, which equals it, and answers
    STRONG DECLINE. *)
Lemma trend_thresholds_are_rounded :
  exists net m30 stake_q unstake_q net_q,
    num_sub (Float 3) (Float 3.9) = inr (Float net)
    /\ num_mul (num_neg (Float 3)) (Float 0.3) = inr (Float m30)
    /\ PrimFloat.eqb net m30 = true
    /\ Q_of_float 3 = Some stake_q
    /\ Q_of_float 3.9 = Some unstake_q
    /\ Q_of_float net = Some net_q
    /\ (net_q == stake_q - unstake_q)%Q
    /\ (- (3 # 10) * stake_q < net_q)%Q
    /\ (net_q <= - (1 # 10) * stake_q)%Q
    /\ spec_trend stake_q net_q = DECLINE
    /\ determine_trend (Float 3) (Float net) = inr (STRONG_DECLINE, -2)
    /\ match analyze_staking_flows unreachable_node
               (example_staking 3 (Float 3)) (example_unstaking 2 (Float 3.9))
               (fresh half) with
       | (inr fa, _) => ta_trend (fa_trend_analysis fa) = STRONG_DECLINE
       | (inl _, _) => False
       end.
Proof.
  eexists _, _, _, _, _.
  split; [reflexivity|]. split; [reflexivity|].
  split; [vm_compute; reflexivity|].
  split; [reflexivity|]. split; [reflexivity|]. split; [reflexivity|].
  split; [vm_compute; reflexivity|].
  split; [vm_compute; reflexivity|].
  split; [vm_compute; discriminate|].
  split; [vm_compute; reflexivity|].
  split; [vm_compute; reflexivity|].
  vm_compute. reflexivity.
Qed.


(* ================================================================== *)
(** ** Scans over an empty range and computations on zero totals *)

Lemma bind_lift_ret {A B} (a : A) (k : A -> M B) st :
  bind (lift (inr a)) k st = k a st.
Proof. reflexivity. Qed.

Lemma bind_run {A B} (m : M A) (k : A -> M B) st a st1 :
  m st = (inr a, st1) -> bind m k st = k a st1.
Proof. intros H. unfold bind. rewrite H. reflexivity. Qed.

Lemma bind_raise {A B} (m : M A) (k : A -> M B) st e st1 :
  m st = (inl e, st1) -> bind m k st = (inl e, st1).
Proof. intros H. unfold bind. rewrite H. reflexivity. Qed.

Lemma py_range_empty (a b step : Z) :
  b <= a -> 0 < step -> py_range a b step = [].
Proof.
  intros Hab Hstep. unfold py_range.
  assert ((b - a + step - 1) / step <= 0) as H.
  { assert ((b - a + step - 1) / step < 1); [|lia].
    apply Z.div_lt_upper_bound; lia. }
  destruct ((b - a + step - 1) / step); try reflexivity; lia.
Qed.

Lemma latest_at_fails (E : Env) h :
  latest_block_read_fails E -> latest_at E h = 0.
Proof.
  intros H. unfold latest_at.
  destruct (H h) as [->|[code [body [-> Hcode]]]]; [reflexivity|].
  destruct code as [|p|p]; try reflexivity.
  do 8 (destruct p as [p|p|]; try reflexivity).
  congruence.
Qed.

(** [0 / d] on ints is a float zero, which rounds to the int 0. *)
Lemma int_truediv_zero (d : Z) :
  d <> 0 ->
  exists q, int_truediv 0 d = inr q
            /\ float_round0 q = inr 0
            /\ float_round2 q = q.
Proof.
  intros Hd. unfold int_truediv.
  destruct d as [|p|p]; [congruence| |]; cbn [Z.eqb SF_of_Z SFdiv xorb].
  - exists 0%float. repeat split; reflexivity.
  - exists (-0)%float. repeat split; reflexivity.
Qed.

Lemma positive_float_not_zero (f : float) :
  num_gt (Float f) (Int 0) = true -> PrimFloat.eqb f 0 = false.
Proof.
  unfold num_gt, num_lt. cbn [num_compare].
  rewrite cmp_Z_float_zero, eqb_spec. unfold SFeqb.
  change (Prim2SF 0) with (S754_zero false).
  destruct (Prim2SF f) as [s|[]| |[] m e]; simpl; congruence.
Qed.

(** [(0 / b) * 100] never raises once [b > 0] has been checked. *)
Lemma ratio100_zero (b : num) :
  num_gt b (Int 0) = true -> exists r, ratio100 (Int 0) b = inr (Float r).
Proof.
  intros Hb. unfold ratio100. destruct b as [z|f].
  - assert (z <> 0) as Hz.
    { intros ->. discriminate Hb. }
    cbn [num_truediv].
    destruct (int_truediv_zero z Hz) as [q [-> _]].
    cbn [rbind]. eexists. reflexivity.
  - cbn [num_truediv as_float]. change (int_to_float 0) with (@inr exn _ 0%float).
    cbn [rbind]. unfold float_truediv.
    rewrite (positive_float_not_zero f Hb). cbn [rbind].
    eexists. reflexivity.
Qed.

Lemma guarded_ratio100_zero (b : num) :
  exists r,
    (if num_gt b (Int 0) then ratio100 (Int 0) b else inr (Int 0)) = inr r.
Proof.
  destruct (num_gt b (Int 0)) eqn:Hb.
  - destruct (ratio100_zero b Hb) as [r ->]. eexists. reflexivity.
  - eexists. reflexivity.
Qed.

Section EmptyScans.

Context (E : Env).

(** A scan whose range is empty posts the latest-block request only and,
    for a non-zero window, reports zeros. *)
Lemma analyze_staking_events_empty (days : Z) (st : State) :
  latest_at E (trace st) <= 0 -> days <> 0 ->
  exists q qa st',
    analyze_staking_events E days st =
    (inr (no_stake days q qa), st')
    /\ trace st' = trace st ++ [EthBlockNumber].
Proof.
  intros Hcur Hdays. unfold analyze_staking_events.
  rewrite (bind_run _ _ _ _ _ (get_latest_block_number_run E st)).
  cbv zeta. rewrite py_range_empty by lia.
  cbn [for_each]. unfold bind at 1, ret at 1.
  destruct (int_truediv_zero days Hdays) as [q [Hq _]].
  unfold bind at 1. unfold set_stake_events at 1.
  unfold bind at 1, get_self at 1, set_self at 1.
  change (len (@nil StakeEvent)) with 0. rewrite Hq, bind_lift_ret.
  cbn [num_truediv]. rewrite Hq. cbn [rbind]. rewrite bind_lift_ret.
  exists q, q. eexists. split; reflexivity.
Qed.

Lemma analyze_unstaking_events_empty (days : Z) (st : State) :
  latest_at E (trace st) <= 0 -> days <> 0 ->
  exists q qa st',
    analyze_unstaking_events E days st =
    (inr (no_unstake days q qa), st')
    /\ trace st' = trace st ++ [EthBlockNumber].
Proof.
  intros Hcur Hdays. unfold analyze_unstaking_events.
  rewrite (bind_run _ _ _ _ _ (get_latest_block_number_run E st)).
  cbv zeta. rewrite py_range_empty by lia.
  cbn [for_each]. unfold bind at 1, ret at 1.
  destruct (int_truediv_zero days Hdays) as [q [Hq _]].
  unfold bind at 1. unfold set_unstake_events at 1.
  unfold bind at 1, get_self at 1, set_self at 1.
  change (len (@nil UnstakeEvent)) with 0. rewrite Hq, bind_lift_ret.
  cbn [num_truediv]. rewrite Hq. cbn [rbind]. rewrite bind_lift_ret.
  exists q, q. eexists. split; reflexivity.
Qed.

(** With a window of zero days the scan fetches no block and raises at the
    first daily average. *)
Lemma analyze_staking_events_zero_days (st : State) :
  exists st',
    analyze_staking_events E 0 st = (inl ZeroDivisionError, st')
    /\ trace st' = trace st ++ [EthBlockNumber].
Proof.
  unfold analyze_staking_events.
  rewrite (bind_run _ _ _ _ _ (get_latest_block_number_run E st)).
  cbv zeta. rewrite py_range_empty by lia.
  cbn [for_each]. unfold bind at 1, ret at 1.
  unfold bind at 1. unfold set_stake_events at 1.
  unfold bind at 1, get_self at 1, set_self at 1.
  eexists. split; reflexivity.
Qed.

End EmptyScans.


(* ================================================================== *)
(** ** The window scanner *)

Section Scanner.

Context (E : Env).

Lemma estimate_transaction_amount_state tx_type address st :
  exists r st',
    estimate_transaction_amount E tx_type address st = (r, st')
    /\ trace st' = trace st /\ self st' = self st.
Proof.
  unfold estimate_transaction_amount. unfold bind at 1.
  destruct (8 <=? strlen address).
  - destruct (int16 E (last8 address)) as [seed|].
    + unfold ret at 1. unfold bind at 1. unfold set_rng at 1.
      unfold bind at 1. unfold random_random at 1.
      destruct (String.eqb tx_type "stake");
        repeat match goal with
               | |- context [if ?c then _ else _] => destruct c
               end; eexists; eexists; split; reflexivity || (split; reflexivity).
    + eexists. eexists. split; [reflexivity|]. split; reflexivity.
  - unfold ret at 1. unfold bind at 1. unfold set_rng at 1.
    unfold bind at 1. unfold random_random at 1.
    destruct (String.eqb tx_type "stake");
      repeat match goal with
             | |- context [if ?c then _ else _] => destruct c
             end; eexists; eexists; split; reflexivity || (split; reflexivity).
Qed.

Lemma block_time_state block_data st :
  exists r, block_time E block_data st = (r, st).
Proof.
  unfold block_time. unfold bind at 1.
  destruct (block_timestamp block_data) as [h|].
  - destruct (int16 E h) as [n|].
    + unfold ret at 1. destruct (fromtimestamp E n); eexists; reflexivity.
    + eexists. reflexivity.
  - unfold ret at 1. destruct (fromtimestamp E 0); eexists; reflexivity.
Qed.

(** Building a stake event never raises and posts nothing. *)
Lemma analyze_stake_transaction_run tx_data block_data signature st :
  exists r st',
    analyze_stake_transaction E tx_data block_data signature st
      = (inr r, st')
    /\ trace st' = trace st /\ self st' = self st.
Proof.
  unfold analyze_stake_transaction, try_except. cbv zeta.
  unfold bind at 1.
  destruct (block_time_state block_data st) as [[e|ts] ->].
  - eexists. eexists. split; [reflexivity|]. split; reflexivity.
  - unfold bind at 1.
    destruct (estimate_transaction_amount_state "stake"
                (lower (tx_from tx_data)) st)
      as [[e|amount] [st1 [-> [Ht Hs]]]].
    + eexists. eexists. split; [reflexivity|]. split; assumption.
    + unfold ret. eexists. eexists. split; [reflexivity|].
      split; assumption.
Qed.

Lemma num_add_total (total : num) (amount : float) :
  int0_or_float total ->
  exists f, num_add total (Float amount) = inr (Float f).
Proof.
  intros [->|[g ->]]; eexists; reflexivity.
Qed.

Lemma scan_stake_transaction_run block_data acc tx st :
  int0_or_float (snd acc) ->
  exists acc' st',
    scan_stake_transaction E block_data acc tx st = (inr acc', st')
    /\ trace st' = trace st /\ self st' = self st
    /\ int0_or_float (snd acc').
Proof.
  intros Hacc. unfold scan_stake_transaction.
  destruct acc as [stake_events total]. cbn [snd] in Hacc.
  destruct (destination tx) as [[t to_address]|].
  - unfold bind at 1, get_self at 1.
    destruct (matching_signature _ _ _ _) as [sig|].
    + destruct (analyze_stake_transaction_run t block_data sig st)
        as [ev [st1 [Hrun [Ht Hs]]]].
      rewrite (bind_run _ _ _ _ _ Hrun).
      destruct ev as [ev|].
      * destruct (num_add_total total (se_estimated_amount ev) Hacc)
          as [f ->].
        rewrite bind_lift_ret. unfold ret.
        eexists. eexists. split; [reflexivity|].
        split; [exact Ht|]. split; [exact Hs|].
        right. eexists. reflexivity.
      * unfold ret. eexists. eexists. split; [reflexivity|].
        split; [exact Ht|]. split; [exact Hs | exact Hacc].
    + unfold ret. eexists. eexists. split; [reflexivity|].
      split; [reflexivity|]. split; [reflexivity | exact Hacc].
  - unfold ret. eexists. eexists. split; [reflexivity|].
    split; [reflexivity|]. split; [reflexivity | exact Hacc].
Qed.

Lemma scan_stake_transactions_run block_data transactions :
  forall acc st,
  int0_or_float (snd acc) ->
  exists acc' st',
    for_each transactions (scan_stake_transaction E block_data) acc st
      = (inr acc', st')
    /\ trace st' = trace st /\ int0_or_float (snd acc').
Proof.
  induction transactions as [|tx txs IH]; intros acc st Hacc;
    cbn [for_each].
  - unfold ret. eexists. eexists. split; [reflexivity|].
    split; [reflexivity | exact Hacc].
  - destruct (scan_stake_transaction_run block_data acc tx st Hacc)
      as [acc1 [st1 [Hrun [Ht [_ Hacc1]]]]].
    rewrite (bind_run _ _ _ _ _ Hrun).
    destruct (IH acc1 st1 Hacc1) as [acc2 [st2 [Hrun2 [Ht2 Hacc2]]]].
    exists acc2, st2. split; [exact Hrun2|].
    split; [congruence | exact Hacc2].
Qed.

(** The loop over the sampled blocks: one request per block of the list,
    and [step] blocks counted for each. *)
Lemma scan_stake_blocks_run blocks :
  forall acc counted st,
  int0_or_float (snd acc) ->
  exists acc' st',
    for_each blocks
      (fun '(acc, blocks_scanned) block_num =>
         let blocks_scanned := blocks_scanned + 100 in
         block_data <- get_block_with_transactions E block_num ;;
         match block_data with
         | Some b =>
             match block_transactions b with
             | Some transactions =>
                 acc' <- for_each transactions
                           (scan_stake_transaction E b) acc ;;
                 ret (acc', blocks_scanned)
             | None => ret (acc, blocks_scanned)
             end
         | None => ret (acc, blocks_scanned)
         end)
      (acc, counted) st
    = (inr (acc', counted + 100 * len blocks), st')
    /\ trace st' = trace st ++ map EthGetBlockByNumber blocks
    /\ int0_or_float (snd acc').
Proof.
  induction blocks as [|n blocks IH]; intros acc counted st Hacc;
    cbn [for_each map].
  - unfold ret. exists acc, st. split; [|split].
    + change (len (@nil Z)) with 0. rewrite Z.mul_0_r, Z.add_0_r.
      reflexivity.
    + rewrite app_nil_r. reflexivity.
    + exact Hacc.
  - cbv zeta. unfold bind at 1. unfold bind at 1.
    rewrite get_block_with_transactions_run.
    assert (counted + 100 + 100 * len blocks =
            counted + 100 * len (n :: blocks)) as Hcount.
    { unfold len. cbn [List.length]. lia. }
    assert (forall s : State,
              trace s = trace (push (EthGetBlockByNumber n) st) ->
              trace s ++ map EthGetBlockByNumber blocks =
              trace st ++ EthGetBlockByNumber n
                       :: map EthGetBlockByNumber blocks) as Htr.
    { intros s ->. unfold push. cbn [trace]. rewrite <- app_assoc.
      reflexivity. }
    destruct (block_at E (trace st) n) as [b|].
    + destruct (block_transactions b) as [txs|].
      * destruct (scan_stake_transactions_run b txs acc
                    (push (EthGetBlockByNumber n) st) Hacc)
          as [acc1 [st1 [Hrun [Ht Hacc1]]]].
        rewrite (bind_run _ _ _ _ _ Hrun). unfold ret at 1.
        destruct (IH acc1 (counted + 100) st1 Hacc1)
          as [acc2 [st2 [Hrun2 [Ht2 Hacc2]]]].
        exists acc2, st2. rewrite <- Hcount. split; [exact Hrun2|].
        split; [rewrite Ht2; apply Htr, Ht | exact Hacc2].
      * unfold ret at 1.
        destruct (IH acc (counted + 100) (push (EthGetBlockByNumber n) st)
                    Hacc) as [acc2 [st2 [Hrun2 [Ht2 Hacc2]]]].
        exists acc2, st2. rewrite <- Hcount. split; [exact Hrun2|].
        split; [rewrite Ht2; apply Htr; reflexivity | exact Hacc2].
    + unfold ret at 1.
      destruct (IH acc (counted + 100) (push (EthGetBlockByNumber n) st)
                  Hacc) as [acc2 [st2 [Hrun2 [Ht2 Hacc2]]]].
      exists acc2, st2. rewrite <- Hcount. split; [exact Hrun2|].
      split; [rewrite Ht2; apply Htr; reflexivity | exact Hacc2].
Qed.

(** What every staking scan does: after the latest-block request it
    fetches the blocks [from_block], [from_block + 100], ... below the
    current block and no other, and it reports 100 blocks scanned for each
    block fetched. *)
Lemma analyze_staking_events_requests (days : Z) (st : State) :
  let current_block := latest_at E (trace st) in
  let from_block := Z.max 0 (current_block - days * 43200) in
  exists outcome st',
    analyze_staking_events E days st = (outcome, st')
    /\ trace st' =
       trace st ++ EthBlockNumber :: scan_calls from_block current_block 100
    /\ forall sd, outcome = inr sd ->
         sd_blocks_scanned sd =
         100 * len (scan_calls from_block current_block 100).
Proof.
  intros current_block from_block. unfold analyze_staking_events.
  rewrite (bind_run _ _ _ _ _ (get_latest_block_number_run E st)).
  cbv zeta. fold current_block. fold from_block.
  destruct (scan_stake_blocks_run (py_range from_block current_block 100)
              ([], Int 0) 0 (push EthBlockNumber st) int0_or_float_Int0)
    as [[events total] [st1 [Hrun [Ht _]]]].
  rewrite (bind_run _ _ _ _ _ Hrun).
  unfold bind at 1. unfold set_stake_events at 1.
  unfold bind at 1, get_self at 1, set_self at 1.
  assert (trace st1 =
          trace st ++ EthBlockNumber
                   :: scan_calls from_block current_block 100) as Htrace.
  { rewrite Ht. unfold push. cbn [trace]. rewrite <- app_assoc. reflexivity. }
  assert (len (scan_calls from_block current_block 100) =
          len (py_range from_block current_block 100)) as Hlen.
  { unfold len, scan_calls. rewrite length_map. reflexivity. }
  destruct (int_truediv (len events) days) as [e|q].
  - eexists. eexists. split; [reflexivity|]. split; [exact Htrace|].
    intros sd H. discriminate H.
  - rewrite bind_lift_ret.
    destruct (num_truediv total (Int days)) as [e|qa].
    + eexists. eexists. split; [reflexivity|]. split; [exact Htrace|].
      intros sd H. discriminate H.
    + rewrite bind_lift_ret. unfold ret.
      eexists. eexists. split; [reflexivity|]. split; [exact Htrace|].
      intros sd H. injection H as <-. cbn [sd_blocks_scanned].
      rewrite Hlen. apply Z.add_0_l.
Qed.

End Scanner.

(** C1, what the code does on a chain of 200 blocks whose only stake
    transaction sits in block 1. The 14-day scan fetches two blocks only,
    0 and 100; block 1 is never requested, so its stake transaction, which
    the classifier would match, is not found; and the scan reports 200
    blocks scanned. *)
Theorem scan_samples_one_block_in_a_hundred :
  let run := analyze_staking_events small_chain 14 (configured half) in
  trace (snd run) =
    [EthBlockNumber; EthGetBlockByNumber 0; EthGetBlockByNumber 100]
  /\ (exists sd,
        fst run = inr sd
        /\ sd_blocks_scanned sd = 200
        /\ sd_stake_events_found sd = 0)
  /\ latest_at small_chain [] = 200
  /\ block_at small_chain [] 1 =
       Some {| block_timestamp := Some "0x65000000";
               block_transactions := Some [TxDict stake_tx] |}
  /\ (exists t to_address,
        destination (TxDict stake_tx) = Some (t, to_address)
        /\ matching_signature
             (staking_contract (self (configured half)))
             (stake_signatures (self (configured half)))
             to_address (tx_input t) = Some "0xa694fc3a").
Proof.
  cbv zeta. split; [vm_compute; reflexivity|].
  split; [eexists; vm_compute; repeat split; reflexivity|].
  split; [vm_compute; reflexivity|].
  split; [vm_compute; reflexivity|].
  eexists. eexists. split; vm_compute; reflexivity.
Qed.


(* ================================================================== *)
(** ** The health factors and the grade *)

Lemma determine_trend_score (stake net : num) trend score :
  determine_trend stake net = inr (trend, score) ->
  In score [-2; -1; 0; 1; 2].
Proof.
  unfold determine_trend. intros H.
  apply rbind_inv in H. destruct H as [t1 [_ H]].
  destruct (num_gt net t1); [injection H as _ <-; simpl; tauto|].
  destruct (num_gt net (Int 0)); [injection H as _ <-; simpl; tauto|].
  apply rbind_inv in H. destruct H as [t2 [_ H]].
  destruct (num_gt net t2); [injection H as _ <-; simpl; tauto|].
  apply rbind_inv in H. destruct H as [t3 [_ H]].
  destruct (num_gt net t3); injection H as _ <-; simpl; tauto.
Qed.

(** The grade computed from the float mean of four small ints is the grade
    of their exact mean. *)
Lemma grade_of_sum (s : Z) :
  -5 <= s <= 8 ->
  exists avg,
    int_truediv s 4 = inr avg
    /\ (if num_ge (Float avg) (Float 1.5) then EXCELLENT
        else if num_ge (Float avg) (Float 0.5) then GOOD
        else if num_ge (Float avg) (Float (-0.5)) then MODERATE
        else CRITICAL) = grade_by_thresholds (s # 4).
Proof.
  intros Hs.
  assert (s = -5 \/ s = -4 \/ s = -3 \/ s = -2 \/ s = -1 \/ s = 0 \/ s = 1
          \/ s = 2 \/ s = 3 \/ s = 4 \/ s = 5 \/ s = 6 \/ s = 7 \/ s = 8)
    as Hcases by lia.
  repeat (destruct Hcases as [->|Hcases]); try subst s;
    (eexists; split; [vm_compute; reflexivity|]; vm_compute; reflexivity).
Qed.

Lemma calculate_complete_health_metrics_inv slf bd sd ud fa hm :
  calculate_complete_health_metrics slf bd sd ud fa = inr hm ->
  exists f1 f2 f4 avg,
    In f1 [-1; 0; 1; 2] /\ In f2 [-1; 0; 1; 2] /\ In f4 [-1; 0; 1; 2]
    /\ ha_health_factors (hm_health_assessment hm) =
       [f1; f2; ta_trend_score (fa_trend_analysis fa); f4]
    /\ int_truediv
         (sum_Z [f1; f2; ta_trend_score (fa_trend_analysis fa); f4]) 4
       = inr avg
    /\ ha_health_score (hm_health_assessment hm) =
       (if num_ge (Float avg) (Float 1.5) then EXCELLENT
        else if num_ge (Float avg) (Float 0.5) then GOOD
        else if num_ge (Float avg) (Float (-0.5)) then MODERATE
        else CRITICAL).
Proof.
  unfold calculate_complete_health_metrics. intros H.
  apply rbind_inv in H. destruct H as [ui [_ H]].
  apply rbind_inv in H. destruct H as [sfp [_ H]].
  apply rbind_inv in H. destruct H as [nfp [_ H]].
  cbv zeta in H. cbn [app] in H.
  apply rbind_inv in H. destruct H as [avg [Havg H]].
  injection H as <-. cbn.
  match type of Havg with
  | int_truediv (sum_Z [?a; ?b; _; ?c]) _ = _ => exists a, b, c, avg
  end.
  split; [|split; [|split; [|split; [|split]]]];
    try reflexivity; try exact Havg;
    repeat match goal with
           | |- context [if ?c then _ else _] => destruct c
           end; simpl; tauto.
Qed.

(** C2, as the code has it. The health assessment lists exactly four
    factors; the staking-share, unstaking-incidence and net-flow factors lie
    in {-1,0,1,2}; the third factor is the trend score of the flow analysis
    and lies in {-2,-1,0,1,2}; and the grade is the one the thresholds
    1.5 / 0.5 / -0.5 give for the arithmetic mean of the four factors. *)
Theorem health_factors_and_grade (E : Env) slf bd sd ud st fa st' hm :
  analyze_staking_flows E sd ud st = (inr fa, st') ->
  calculate_complete_health_metrics slf bd sd ud fa = inr hm ->
  exists f1 f2 f3 f4,
    ha_health_factors (hm_health_assessment hm) = [f1; f2; f3; f4]
    /\ In f1 [-1; 0; 1; 2]
    /\ In f2 [-1; 0; 1; 2]
    /\ f3 = ta_trend_score (fa_trend_analysis fa)
    /\ In f3 [-2; -1; 0; 1; 2]
    /\ In f4 [-1; 0; 1; 2]
    /\ ha_health_score (hm_health_assessment hm) =
       grade_by_thresholds ((f1 + f2 + f3 + f4) # 4).
Proof.
  intros Hflow Hhm.
  destruct (analyze_staking_flows_trend E sd ud st fa st' Hflow)
    as [net [_ [_ Htrend]]].
  apply determine_trend_score in Htrend.
  destruct (calculate_complete_health_metrics_inv slf bd sd ud fa hm Hhm)
    as [f1 [f2 [f4 [avg [H1 [H2 [H4 [Hfactors [Havg Hscore]]]]]]]]].
  set (f3 := ta_trend_score (fa_trend_analysis fa)) in *.
  exists f1, f2, f3, f4.
  repeat (split; [assumption || reflexivity|]).
  assert (sum_Z [f1; f2; f3; f4] = f1 + f2 + f3 + f4) as Hsum
    by (unfold sum_Z; simpl; lia).
  rewrite Hsum in Havg.
  assert (-5 <= f1 + f2 + f3 + f4 <= 8) as Hrange.
  { simpl in H1, H2, H4, Htrend. lia. }
  destruct (grade_of_sum _ Hrange) as [avg' [Havg' Hgrade]].
  rewrite Havg in Havg'. injection Havg' as <-.
  rewrite Hscore. exact Hgrade.
Qed.

(** C2 on an unreachable node: the factors are 2, 2, -2 and 0, their mean
    0.5 is graded Good. *)
Lemma health_factors_and_grade_witness :
  match main unreachable_node (example_args 1) ["y"] half with
  | (Returned rs, _) =>
      exists f1 f2 f3 f4,
        ha_health_factors (hm_health_assessment (rs_health_metrics rs)) =
          [f1; f2; f3; f4]
        /\ In f1 [-1; 0; 1; 2]
        /\ In f2 [-1; 0; 1; 2]
        /\ f3 = ta_trend_score (fa_trend_analysis (rs_flow_analysis rs))
        /\ In f3 [-2; -1; 0; 1; 2]
        /\ In f4 [-1; 0; 1; 2]
        /\ ha_health_score (hm_health_assessment (rs_health_metrics rs)) =
           grade_by_thresholds ((f1 + f2 + f3 + f4) # 4)
  | _ => False
  end.
Proof.
  destruct (main unreachable_node (example_args 1) ["y"] half)
    as [[code| |rs] calls] eqn:Hmain;
    [vm_compute in Hmain; discriminate
    | vm_compute in Hmain; discriminate |].
  set (st2 := snd (bind (analyze_staking_events unreachable_node 1)
                     (fun sd => analyze_unstaking_events unreachable_node 1)
                     (snd (get_total_staked_balance unreachable_node
                             (configured half))))).
  apply (health_factors_and_grade unreachable_node
           (self (snd (analyze_staking_flows unreachable_node
                         (rs_staking_analysis rs)
                         (rs_unstaking_analysis rs) st2)))
           (rs_balance_data rs) (rs_staking_analysis rs)
           (rs_unstaking_analysis rs) st2
           (rs_flow_analysis rs)
           (snd (analyze_staking_flows unreachable_node
                   (rs_staking_analysis rs)
                   (rs_unstaking_analysis rs) st2))).
  - vm_compute in Hmain. injection Hmain as <- _. vm_compute. reflexivity.
  - vm_compute in Hmain. injection Hmain as <- _. vm_compute. reflexivity.
Defined.

(** C2, the claim as stated fails: on an unreachable node (no event at all)
    the trend is STRONG DECLINE and the third of the four health factors is
    -2, outside {-1,0,1,2}. *)
Lemma health_factor_minus_two :
  match main unreachable_node (example_args 1) ["y"] half with
  | (Returned rs, _) =>
      ha_health_factors (hm_health_assessment (rs_health_metrics rs)) =
        [2; 2; -2; 0]
      /\ ~ Forall (fun f => In f [-1; 0; 1; 2])
             (ha_health_factors (hm_health_assessment
                                   (rs_health_metrics rs)))
  | _ => False
  end.
Proof.
  vm_compute. split; [reflexivity|].
  intros H. inversion H as [|? ? _ H1]; subst.
  inversion H1 as [|? ? _ H2]; subst.
  inversion H2 as [|? ? H3 _]; subst.
  simpl in H3. repeat destruct H3 as [H3|H3]; try discriminate H3.
  exact H3.
Qed.


(* ================================================================== *)
(** ** Net amount and event shares *)

Lemma analyze_staking_flows_shares (E : Env) sd ud st fa st' :
  analyze_staking_flows E sd ud st = (inr fa, st') ->
  let s := sd_stake_events_found sd in
  let u := ud_unstake_events_found ud in
  exists shares,
    (if 0 <? s + u then
       let* a := ratio100 (Int s) (Int (s + u)) in
       let* b := ratio100 (Int u) (Int (s + u)) in
       inr (a, b)
     else inr (Int 0, Int 0)) = inr shares
    /\ pc_stake_event_percentage (fa_percentages fa) =
       num_round2 (fst shares)
    /\ pc_unstake_event_percentage (fa_percentages fa) =
       num_round2 (snd shares).
Proof.
  intros H s u. unfold analyze_staking_flows in H.
  do 6 (apply bind_lift_inv in H; destruct H as [? [? H]]).
  apply bind_lift_inv in H. destruct H as [shares [Hshares H]].
  do 2 (apply bind_lift_inv in H; destruct H as [? [? H]]).
  apply bind_inv in H. destruct H as [weekly [st1 [_ H]]].
  do 3 (apply bind_lift_inv in H; destruct H as [? [? H]]).
  apply bind_inv in H. destruct H as [slf [st2 [_ H]]].
  apply bind_lift_inv in H. destruct H as [nfp [_ H]].
  unfold ret in H. injection H as <- _.
  exists shares. cbn. auto.
Qed.

Lemma ratio100_ints (a b : Z) r :
  ratio100 (Int a) (Int b) = inr r ->
  exists q, int_truediv a b = inr q /\ r = Float (q * 100).
Proof.
  unfold ratio100. cbn [num_truediv]. intros H.
  apply rbind_inv in H. destruct H as [x [Hx H]].
  apply rbind_inv in Hx. destruct Hx as [q [Hq Hx]].
  injection Hx as <-. exists q. split; [exact Hq|].
  cbn in H. injection H as <-. reflexivity.
Qed.

(** C4, as the code has it. The net amount of a flow comparison is the
    stake total minus the unstake total; when both event counts are zero
    both event percentages are the int 0; when their sum is positive each
    percentage is the share [count / (stake + unstake)] times 100, computed
    in binary64 and rounded to two decimals on its own (nothing forces the
    two rounded values to add up to 100). *)
Theorem flow_comparison_net_and_shares (E : Env) sd ud st fa st' :
  analyze_staking_flows E sd ud st = (inr fa, st') ->
  let s := sd_stake_events_found sd in
  let u := ud_unstake_events_found ud in
  num_sub (sd_total_estimated_stake_amount sd)
          (ud_total_estimated_unstake_amount ud)
    = inr (cm_net_amount (fa_comparison_metrics fa))
  /\ (s = 0 -> u = 0 ->
      pc_stake_event_percentage (fa_percentages fa) = Int 0
      /\ pc_unstake_event_percentage (fa_percentages fa) = Int 0)
  /\ (0 < s + u ->
      exists qs qu,
        int_truediv s (s + u) = inr qs
        /\ int_truediv u (s + u) = inr qu
        /\ pc_stake_event_percentage (fa_percentages fa) =
           Float (float_round2 (qs * 100))
        /\ pc_unstake_event_percentage (fa_percentages fa) =
           Float (float_round2 (qu * 100))).
Proof.
  intros Hrun s u.
  destruct (analyze_staking_flows_trend E sd ud st fa st' Hrun)
    as [net [Hnet [Hcm _]]].
  destruct (analyze_staking_flows_shares E sd ud st fa st' Hrun)
    as [shares [Hshares [Hps Hpu]]].
  fold s u in Hshares.
  split; [rewrite Hcm; exact Hnet|]. split.
  - intros Hs Hu. rewrite Hs, Hu in Hshares. cbn in Hshares.
    injection Hshares as <-. rewrite Hps, Hpu. split; reflexivity.
  - intros Hpos. apply Z.ltb_lt in Hpos. rewrite Hpos in Hshares.
    apply rbind_inv in Hshares. destruct Hshares as [a [Ha Hshares]].
    apply rbind_inv in Hshares. destruct Hshares as [b [Hb Hshares]].
    injection Hshares as <-.
    apply ratio100_ints in Ha, Hb.
    destruct Ha as [qs [Hqs ->]]. destruct Hb as [qu [Hqu ->]].
    exists qs, qu. rewrite Hps, Hpu. auto.
Qed.

(** C4 on 3 stake events and 1 unstake event: 75.0 and 25.0. *)
Lemma flow_comparison_net_and_shares_witness :
  match analyze_staking_flows unreachable_node
          (example_staking 3 (Float 50000))
          (example_unstaking 1 (Float 20000)) (fresh half) with
  | (inr fa, _) =>
      num_sub (Float 50000) (Float 20000)
        = inr (cm_net_amount (fa_comparison_metrics fa))
      /\ pc_stake_event_percentage (fa_percentages fa) = Float 75
      /\ pc_unstake_event_percentage (fa_percentages fa) = Float 25
  | (inl _, _) => False
  end.
Proof.
  destruct (analyze_staking_flows unreachable_node
              (example_staking 3 (Float 50000))
              (example_unstaking 1 (Float 20000)) (fresh half))
    as [[e|fa] st'] eqn:Hrun.
  - vm_compute in Hrun. discriminate.
  - destruct (flow_comparison_net_and_shares unreachable_node
                (example_staking 3 (Float 50000))
                (example_unstaking 1 (Float 20000)) (fresh half) fa st'
                Hrun) as [Hnet [_ Hshares]].
    split; [exact Hnet|].
    destruct (Hshares ltac:(reflexivity)) as [qs [qu [Hqs [Hqu [Hs Hu]]]]].
    vm_compute in Hqs, Hqu. injection Hqs as <-. injection Hqu as <-.
    rewrite Hs, Hu. split; vm_compute; reflexivity.
Defined.

(** C4, the claim as stated fails: with 23 stake events and 137 unstake
    events the reported percentages are 14.37 and 85.62, whose sum
    99.99000000000001 is below 100. *)
Lemma event_percentages_miss_100 :
  match analyze_staking_flows unreachable_node
          (example_staking 23 (Float 50000))
          (example_unstaking 137 (Float 20000)) (fresh half) with
  | (inr fa, _) =>
      pc_stake_event_percentage (fa_percentages fa) = Float 14.37
      /\ pc_unstake_event_percentage (fa_percentages fa) = Float 85.62
      /\ num_add (pc_stake_event_percentage (fa_percentages fa))
                 (pc_unstake_event_percentage (fa_percentages fa))
         = inr (Float 99.99000000000001)
      /\ num_lt (Float 99.99000000000001) (Int 100) = true
  | (inl _, _) => False
  end.
Proof. vm_compute. repeat split; reflexivity. Qed.


(* ================================================================== *)
(** ** The selling-pressure timeline *)

Section Timeline.

Lemma lookup_add_to_bucket (D : list (Z * PressureBucket)) d a k :
  lookup (add_to_bucket D d a) k =
  if d =? k then
    Some match lookup D d with
         | Some b => {| pb_day := pb_day b;
                        pb_amount := (pb_amount b + a)%float;
                        pb_count := pb_count b + 1 |}
         | None => {| pb_day := d; pb_amount := (0 + a)%float;
                      pb_count := 0 + 1 |}
         end
  else lookup D k.
Proof.
  induction D as [|[k' b] D IH]; simpl.
  - destruct (d =? k); reflexivity.
  - destruct (k' =? d) eqn:Ekd; simpl.
    + apply Z.eqb_eq in Ekd; subst k'.
      destruct (d =? k); reflexivity.
    + rewrite IH. destruct (d =? k) eqn:Edk.
      * apply Z.eqb_eq in Edk; subst k. rewrite Ekd. reflexivity.
      * reflexivity.
Qed.

Lemma keys_add_to_bucket (D : list (Z * PressureBucket)) d a :
  map fst (add_to_bucket D d a) =
  if existsb (Z.eqb d) (map fst D) then map fst D else map fst D ++ [d].
Proof.
  induction D as [|[k' b] D IH]; simpl; [reflexivity|].
  rewrite (Z.eqb_sym d k').
  destruct (k' =? d); simpl; [reflexivity|].
  rewrite IH. destruct (existsb (Z.eqb d) (map fst D)); reflexivity.
Qed.

Lemma NoDup_keys_add_to_bucket (D : list (Z * PressureBucket)) d a :
  NoDup (map fst D) -> NoDup (map fst (add_to_bucket D d a)).
Proof.
  intros H. rewrite keys_add_to_bucket.
  destruct (existsb (Z.eqb d) (map fst D)) eqn:Ex; [exact H|].
  apply NoDup_app; [exact H | repeat constructor; intros [] | ].
  intros x Hx [Hd|[]]. subst x.
  assert (existsb (Z.eqb d) (map fst D) = true) as C.
  { apply existsb_exists. exists d. split; [exact Hx | apply Z.eqb_refl]. }
  congruence.
Qed.

Lemma events_of_day_app d l1 l2 :
  events_of_day d (l1 ++ l2) = events_of_day d l1 ++ events_of_day d l2.
Proof. apply filter_app. Qed.

Lemma float_sum_snoc l x :
  float_sum (l ++ [x]) = (float_sum l + x)%float.
Proof. unfold float_sum. rewrite fold_left_app. reflexivity. Qed.

Lemma occurs_false_events_of_day d l :
  occurs d l = false -> events_of_day d l = [].
Proof.
  unfold occurs, events_of_day. induction l as [|e l IH]; simpl; [reflexivity|].
  destruct (ue_days_remaining e =? d); simpl; [discriminate|exact IH].
Qed.

Lemma occurs_app d l1 l2 : occurs d (l1 ++ l2) = occurs d l1 || occurs d l2.
Proof. apply existsb_app. Qed.

Lemma events_of_day_one d e :
  events_of_day d [e] = if ue_days_remaining e =? d then [e] else [].
Proof. reflexivity. Qed.

Lemma bucket_of_snoc_same seen e :
  bucket_of (ue_days_remaining e) (seen ++ [e]) =
  {| pb_day := ue_days_remaining e;
     pb_amount := (pb_amount (bucket_of (ue_days_remaining e) seen)
                   + ue_estimated_amount e)%float;
     pb_count := pb_count (bucket_of (ue_days_remaining e) seen) + 1 |}.
Proof.
  unfold bucket_of. cbn [pb_amount pb_count].
  rewrite events_of_day_app, events_of_day_one, Z.eqb_refl.
  rewrite map_app. cbn [map]. rewrite float_sum_snoc.
  unfold len. rewrite length_app. cbn [List.length].
  f_equal. lia.
Qed.

Lemma bucket_of_snoc_other k seen e :
  (ue_days_remaining e =? k) = false ->
  bucket_of k (seen ++ [e]) = bucket_of k seen.
Proof.
  intros Ek. unfold bucket_of.
  rewrite events_of_day_app, events_of_day_one, Ek, app_nil_r. reflexivity.
Qed.

Lemma bucket_of_unseen d seen :
  occurs d seen = false ->
  bucket_of d seen = {| pb_day := d; pb_amount := 0%float; pb_count := 0 |}.
Proof.
  intros Ho. unfold bucket_of.
  rewrite (occurs_false_events_of_day _ _ Ho). reflexivity.
Qed.

Lemma occurs_snoc k seen e :
  occurs k (seen ++ [e]) = occurs k seen || (ue_days_remaining e =? k).
Proof. rewrite occurs_app. unfold occurs at 2. cbn [existsb]. rewrite orb_false_r. reflexivity. Qed.

Lemma dict_ok_step D seen e :
  dict_ok D seen -> dict_ok (timeline_step D e) (seen ++ [e]).
Proof.
  intros [Hnd Hl]. unfold timeline_step.
  destruct (in_window (ue_days_remaining e)) eqn:Hw.
  - split; [apply NoDup_keys_add_to_bucket; exact Hnd|].
    intros k. rewrite lookup_add_to_bucket, occurs_snoc.
    destruct (ue_days_remaining e =? k) eqn:Ek.
    + apply Z.eqb_eq in Ek. subst k. rewrite Hw, orb_true_r.
      cbn [andb]. f_equal. rewrite bucket_of_snoc_same, Hl, Hw.
      destruct (occurs (ue_days_remaining e) seen) eqn:Ho; cbn [andb].
      * reflexivity.
      * rewrite (bucket_of_unseen _ _ Ho). reflexivity.
    + rewrite orb_false_r, Hl, (bucket_of_snoc_other _ _ _ Ek). reflexivity.
  - split; [exact Hnd|].
    intros k. rewrite Hl, occurs_snoc.
    destruct (ue_days_remaining e =? k) eqn:Ek.
    + apply Z.eqb_eq in Ek. subst k. rewrite Hw. reflexivity.
    + rewrite orb_false_r, (bucket_of_snoc_other _ _ _ Ek). reflexivity.
Qed.

Lemma dict_ok_fold events : forall D seen,
  dict_ok D seen ->
  dict_ok (fold_left timeline_step events D) (seen ++ events).
Proof.
  induction events as [|e events IH]; intros D seen H; simpl.
  - rewrite app_nil_r. exact H.
  - replace (seen ++ e :: events) with ((seen ++ [e]) ++ events)
      by (rewrite <- app_assoc; reflexivity).
    apply IH, dict_ok_step, H.
Qed.

Lemma lookup_In {B} (D : list (Z * B)) k b :
  NoDup (map fst D) -> (In (k, b) D <-> lookup D k = Some b).
Proof.
  induction D as [|[k' b'] D IH]; simpl; intros Hnd.
  - split; [intros [] | discriminate].
  - inversion Hnd as [|? ? Hnotin Hnd']; subst.
    destruct (k' =? k) eqn:Ek.
    + apply Z.eqb_eq in Ek. subst k'. split.
      * intros [H|H]; [congruence|].
        exfalso. apply Hnotin. change k with (fst (k, b)).
        apply in_map, H.
      * intros H. left. congruence.
    + apply Z.eqb_neq in Ek. split.
      * intros [H|H]; [congruence | apply IH; assumption].
      * intros H. right. apply IH; assumption.
Qed.

Lemma insert_by_day_perm b l : Permutation (insert_by_day b l) (b :: l).
Proof.
  induction l as [|x l IH]; simpl; [reflexivity|].
  destruct (pb_day b <=? pb_day x); [reflexivity|].
  rewrite IH. apply perm_swap.
Qed.

Lemma sorted_by_day_perm l : Permutation (sorted_by_day l) l.
Proof.
  induction l as [|b l IH]; simpl; [reflexivity|].
  rewrite insert_by_day_perm. constructor. exact IH.
Qed.

Lemma insert_by_day_sorted b l :
  NoDup (map pb_day (b :: l)) ->
  StronglySorted (fun x y => pb_day x < pb_day y) l ->
  StronglySorted (fun x y => pb_day x < pb_day y) (insert_by_day b l).
Proof.
  induction l as [|x l IH]; simpl; intros Hnd Hs.
  - repeat constructor.
  - inversion Hs as [|? ? Hs' Hall]; subst.
    destruct (pb_day b <=? pb_day x) eqn:Hle.
    + apply Z.leb_le in Hle.
      assert (pb_day b < pb_day x) as Hlt.
      { inversion Hnd as [|? ? Hn _]; subst. simpl in Hn.
        destruct (Z.eq_dec (pb_day b) (pb_day x)); [|lia].
        exfalso. apply Hn. left. congruence. }
      constructor; [exact Hs|]. constructor; [exact Hlt|].
      eapply Forall_impl; [|exact Hall]. simpl. intros; lia.
    + apply Z.leb_gt in Hle. constructor.
      * apply IH; [|exact Hs'].
        inversion Hnd as [|? ? Hn Hnd']; subst.
        inversion Hnd' as [|? ? _ Hnd'']; subst.
        constructor; [|exact Hnd'']. intros Hin. apply Hn. right. exact Hin.
      * eapply Permutation_Forall;
          [apply Permutation_sym, insert_by_day_perm|].
        constructor; [exact Hle | exact Hall].
Qed.

Lemma sorted_by_day_sorted l :
  NoDup (map pb_day l) ->
  StronglySorted (fun x y => pb_day x < pb_day y) (sorted_by_day l).
Proof.
  induction l as [|b l IH]; simpl; intros Hnd; [constructor|].
  apply insert_by_day_sorted.
  - eapply Permutation_NoDup; [|exact Hnd]. simpl. constructor.
    apply Permutation_map, Permutation_sym, sorted_by_day_perm.
  - apply IH. inversion Hnd; assumption.
Qed.

Lemma timeline_unfold events :
  calculate_selling_pressure_timeline events =
  sorted_by_day (map snd (fold_left timeline_step events [])).
Proof. reflexivity. Qed.

Lemma dict_ok_days D seen :
  dict_ok D seen -> map pb_day (map snd D) = map fst D.
Proof.
  intros [Hnd Hl]. rewrite map_map. apply map_ext_in.
  intros [k b] Hin. simpl.
  apply (lookup_In D k b Hnd) in Hin. rewrite Hl in Hin.
  destruct (in_window k && occurs k seen); [|discriminate].
  injection Hin as <-. reflexivity.
Qed.

Lemma dict_ok_member D seen b :
  dict_ok D seen ->
  (In b (map snd D) <->
   exists k, in_window k = true /\ occurs k seen = true
             /\ b = bucket_of k seen).
Proof.
  intros [Hnd Hl]. split.
  - intros Hin. apply in_map_iff in Hin. destruct Hin as [[k b'] [Hb Hin]].
    simpl in Hb. subst b'. apply (lookup_In D k b Hnd) in Hin.
    rewrite Hl in Hin. exists k.
    destruct (in_window k); [|discriminate].
    destruct (occurs k seen); [|discriminate].
    injection Hin as <-. auto.
  - intros [k [Hw [Ho Hb]]]. apply in_map_iff. exists (k, b). split; [reflexivity|].
    apply (lookup_In D k b Hnd). rewrite Hl, Hw, Ho. simpl. congruence.
Qed.

End Timeline.

(** C6. For every list of unstake events the selling-pressure timeline is
    sorted by strictly ascending day (so no day has two buckets), a day has
    a bucket exactly when it lies in [0,14] and is the days-remaining value
    of some event, and every bucket carries the sum of the amounts and the
    number of the events with its day (events outside [0,14] belong to no
    bucket). *)
Theorem pressure_timeline_buckets (events : list UnstakeEvent) :
  let timeline := calculate_selling_pressure_timeline events in
  StronglySorted (fun a b => pb_day a < pb_day b) timeline
  /\ (forall d, In d (map pb_day timeline) <->
                0 <= d <= 14 /\
                exists e, In e events /\ ue_days_remaining e = d)
  /\ (forall b, In b timeline ->
        pb_amount b =
          float_sum (map ue_estimated_amount
                         (events_of_day (pb_day b) events))
        /\ pb_count b = len (events_of_day (pb_day b) events)).
Proof.
  intros timeline. subst timeline. rewrite timeline_unfold.
  assert (dict_ok (fold_left timeline_step events []) events) as Hok.
  { apply (dict_ok_fold events [] []). split; [constructor|].
    intros k. simpl. rewrite andb_false_r. reflexivity. }
  set (D := fold_left timeline_step events []) in *.
  assert (forall b, In b (sorted_by_day (map snd D)) <-> In b (map snd D))
    as Hmem.
  { intros b. split; apply Permutation_in;
      [apply sorted_by_day_perm | apply Permutation_sym, sorted_by_day_perm]. }
  split; [|split].
  - apply sorted_by_day_sorted. rewrite (dict_ok_days D events Hok).
    apply Hok.
  - intros d. rewrite in_map_iff. split.
    + intros [b [Hd Hin]]. apply Hmem in Hin.
      apply (dict_ok_member D events b Hok) in Hin.
      destruct Hin as [k [Hw [Ho Hb]]]. subst b. simpl in Hd. subst k.
      unfold in_window in Hw. apply andb_true_iff in Hw.
      destruct Hw as [H0 H14]. apply Z.leb_le in H0, H14.
      split; [lia|]. apply existsb_exists in Ho.
      destruct Ho as [e [He Hde]]. exists e. apply Z.eqb_eq in Hde. auto.
    + intros [Hr [e [He Hde]]]. exists (bucket_of d events).
      split; [reflexivity|]. apply Hmem.
      apply (dict_ok_member D events _ Hok). exists d.
      split; [|split; [|reflexivity]].
      * unfold in_window. apply andb_true_iff. split; apply Z.leb_le; lia.
      * apply existsb_exists. exists e. split; [exact He|].
        apply Z.eqb_eq, Hde.
  - intros b Hin. apply Hmem in Hin.
    apply (dict_ok_member D events b Hok) in Hin.
    destruct Hin as [k [_ [_ Hb]]]. subst b. simpl. split; reflexivity.
Qed.


(* ================================================================== *)
(** ** The balance snapshot *)

(** [get_token_balance] never raises and posts exactly its [eth_call]. *)
Lemma get_token_balance_run (E : Env) token holder st :
  exists r,
    get_token_balance E token holder st =
    (inr r, push (balance_call token holder) st).
Proof.
  unfold get_token_balance, bind, post.
  destruct (post_eth_call E (trace st) token _) as [|code [[| |result]|]].
  - eexists; reflexivity.
  - destruct code as [|p|p]; try (eexists; reflexivity).
    do 8 (destruct p as [p|p|]; try (eexists; reflexivity)).
  - destruct code as [|p|p]; try (eexists; reflexivity).
    do 8 (destruct p as [p|p|]; try (eexists; reflexivity)).
  - destruct code as [|p|p]; try (eexists; reflexivity).
    do 8 (destruct p as [p|p|]; try (eexists; reflexivity)).
    destruct (_ && _)%bool; eexists; reflexivity.
  - destruct code as [|p|p]; try (eexists; reflexivity).
    do 8 (destruct p as [p|p|]; try (eexists; reflexivity)).
Qed.

(** C8, as the code has it. When the direct balance read gives no value or
    a non-positive one, the snapshot holds the estimate of
    [estimate_balance_from_activity] and is marked estimated; when it gives
    a positive value the snapshot holds that value and is marked direct; in
    both branches the reported percentage of supply is
    [balance / total_supply * 100] rounded to two decimals. *)
Theorem balance_snapshot (E : Env) (st : State) bd st' :
  get_total_staked_balance E st = (inr bd, st') ->
  let read :=
    fst (get_token_balance E (token_contract (self st))
                           (staking_contract (self st)) st) in
  ((read = inr None \/ exists w, read = inr (Some w) /\ w <= 0) ->
   bd_verification_method bd = estimated_from_activity
   /\ bd_balance_tokens bd = Int estimate_balance_from_activity)
  /\ (forall w, read = inr (Some w) -> 0 < w ->
      bd_verification_method bd = direct_balance_call
      /\ bd_balance_wei bd = w
      /\ exists tokens,
           int_truediv w (10 ^ token_decimals (self st)) = inr tokens
           /\ bd_balance_tokens bd = Float tokens)
  /\ exists p,
       ratio100 (bd_balance_tokens bd) (Int (total_supply (self st)))
         = inr p
       /\ bd_percentage_of_supply bd = num_round2 p.
Proof.
  intros Hrun read. subst read.
  unfold get_total_staked_balance in Hrun.
  unfold bind at 1 in Hrun. unfold get_self at 1 in Hrun.
  apply bind_inv in Hrun. destruct Hrun as [r [st1 [Hread Hrun]]].
  rewrite Hread. cbn [fst].
  destruct (get_token_balance_run E (token_contract (self st))
              (staking_contract (self st)) st) as [r' Hr'].
  rewrite Hr' in Hread. injection Hread as -> <-.
  destruct r as [w|].
  - destruct (0 <? w) eqn:Hw.
    + apply bind_lift_inv in Hrun. destruct Hrun as [tokens [Htokens Hrun]].
      apply bind_inv in Hrun. destruct Hrun as [[] [st2 [_ Hrun]]].
      apply bind_lift_inv in Hrun. destruct Hrun as [p [Hp Hrun]].
      unfold ret in Hrun. injection Hrun as <- _. cbn.
      split; [|split].
      * intros [H|[w' [H Hle]]]; [discriminate|].
        injection H as <-. apply Z.ltb_lt in Hw. lia.
      * intros w' H _. injection H as <-.
        split; [reflexivity|]. split; [reflexivity|].
        exists tokens. split; [exact Htokens | reflexivity].
      * exists p. split; [exact Hp | reflexivity].
    + apply bind_inv in Hrun. destruct Hrun as [[] [st2 [_ Hrun]]].
      apply bind_lift_inv in Hrun. destruct Hrun as [p [Hp Hrun]].
      unfold ret in Hrun. injection Hrun as <- _. cbn.
      split; [|split].
      * intros _. split; reflexivity.
      * intros w' H Hpos. injection H as <-.
        apply Z.ltb_ge in Hw. lia.
      * exists p. split; [exact Hp | reflexivity].
  - apply bind_inv in Hrun. destruct Hrun as [[] [st2 [_ Hrun]]].
    apply bind_lift_inv in Hrun. destruct Hrun as [p [Hp Hrun]].
    unfold ret in Hrun. injection Hrun as <- _. cbn.
    split; [|split].
    + intros _. split; reflexivity.
    + intros w' H. discriminate.
    + exists p. split; [exact Hp | reflexivity].
Qed.

(** C8 on an unreachable node: the snapshot is the estimate, 45.8 % of the
    default supply. *)
Lemma balance_snapshot_witness :
  match get_total_staked_balance unreachable_node (configured half) with
  | (inr bd, _) =>
      bd_verification_method bd = estimated_from_activity
      /\ bd_balance_tokens bd = Int 458000000
      /\ bd_percentage_of_supply bd = Float 45.8
  | (inl _, _) => False
  end.
Proof.
  destruct (get_total_staked_balance unreachable_node (configured half))
    as [[e|bd] st'] eqn:Hrun.
  - vm_compute in Hrun. discriminate.
  - destruct (balance_snapshot unreachable_node (configured half) bd st'
                Hrun) as [Hest [_ [p [Hp Hpct]]]].
    destruct (Hest ltac:(left; reflexivity)) as [Hm Hb].
    split; [exact Hm|]. split; [exact Hb|].
    rewrite Hb in Hp. vm_compute in Hp. injection Hp as <-.
    rewrite Hpct. vm_compute. reflexivity.
Defined.

(** C8, the claim as stated fails twice. The reported percentage is
    rounded: for a balance of one token (10^18 wei) and the default supply
    of 10^9 the direct snapshot reports 0.0 % while balance / supply * 100
    is 1.0000000000000001e-07. And it is computed in binary64 before it is
    rounded: for a balance of 150000 tokens the real percentage is 0.015,
    which rounds to 0.02, while the binary64 quotient times 100 lies below
    0.015 and the snapshot reports 0.01. The estimate is no strategy of the
    caller: whatever supply the caller configures, an unreadable balance is
    replaced by the constant 458000000. *)
Lemma percentage_of_supply_is_rounded :
  match get_total_staked_balance one_token_node (configured half) with
  | (inr bd, st') =>
      bd_verification_method bd = direct_balance_call
      /\ bd_balance_tokens bd = Float 1
      /\ ratio100 (bd_balance_tokens bd) (Int (total_supply (self st')))
         = inr (Float 1.0000000000000001e-07)
      /\ bd_percentage_of_supply bd = Float 0
      /\ num_lt (bd_percentage_of_supply bd)
                (Float 1.0000000000000001e-07) = true
  | (inl _, _) => False
  end
  /\ match get_total_staked_balance
             (balance_node "0x1fc3842bd1f071c00000") (configured half) with
     | (inr bd, st') =>
         bd_verification_method bd = direct_balance_call
         /\ bd_balance_tokens bd = Float 150000
         /\ total_supply (self st') = 1000000000
         /\ (spec_percentage 150000 1000000000 == 15 # 1000)%Q
         /\ (spec_round2 (spec_percentage 150000 1000000000) == 2 # 100)%Q
         /\ ratio100 (bd_balance_tokens bd) (Int (total_supply (self st')))
            = inr (Float 0x1.eb851eb851eb8p-7)
         /\ match Q_of_float 0x1.eb851eb851eb8p-7 with
            | Some q => (q < 15 # 1000)%Q
            | None => False
            end
         /\ bd_percentage_of_supply bd = Float 0.01
         /\ match Q_of_float 0.01 with
            | Some r => (r < 2 # 100)%Q
            | None => False
            end
     | (inl _, _) => False
     end
  /\ match get_total_staked_balance unreachable_node (configured half),
           get_total_staked_balance unreachable_node
             (configured_from (fresh half) the_staking_contract
                              the_token_contract (Some 500)) with
     | (inr bd, _), (inr bd', st') =>
         total_supply (self st') = 500
         /\ bd_verification_method bd = estimated_from_activity
         /\ bd_verification_method bd' = estimated_from_activity
         /\ bd_balance_tokens bd = Int 458000000
         /\ bd_balance_tokens bd' = Int 458000000
     | _, _ => False
     end.
Proof.
  split; [vm_compute; repeat split; reflexivity|].
  split.
  - destruct (get_total_staked_balance
                (balance_node "0x1fc3842bd1f071c00000") (configured half))
      as [[e|bd] st'] eqn:Hrun; vm_compute in Hrun; [discriminate|].
    injection Hrun as <- <-. cbn [bd_verification_method bd_balance_tokens
      bd_percentage_of_supply total_supply self].
    repeat split; vm_compute; reflexivity.
  - vm_compute. repeat split; reflexivity.
Qed.


(* ================================================================== *)
(** ** The amount resolver *)

Lemma estimate_transaction_amount_run (E : Env) tx_type address st :
  fst (estimate_transaction_amount E tx_type address st) =
  match seed_of E address with
  | Some seed => inr (tiered_amount tx_type (random_seed E seed))
  | None => inl ValueError
  end.
Proof.
  unfold estimate_transaction_amount, seed_of, tiered_amount.
  unfold bind at 1.
  destruct (8 <=? strlen address).
  - destruct (int16 E (last8 address)) as [seed|]; [|reflexivity].
    unfold ret at 1. unfold bind at 1. unfold set_rng at 1.
    unfold bind at 1. unfold random_random at 1. cbn [rng].
    destruct (String.eqb tx_type "stake");
      repeat match goal with
             | |- context [if ?c then _ else _] => destruct c
             end; reflexivity.
  - unfold ret at 1. unfold bind at 1. unfold set_rng at 1.
    unfold bind at 1. unfold random_random at 1. cbn [rng].
    destruct (String.eqb tx_type "stake");
      repeat match goal with
             | |- context [if ?c then _ else _] => destruct c
             end; reflexivity.
Qed.

(** C9. Two calls of [estimate_transaction_amount] with the same kind and
    the same sender address give the same outcome whatever the state they
    are made in (the generator, the requests posted so far, the attributes
    of the object); and two addresses of at least eight characters with the
    same last eight characters give the same outcome. *)
Theorem estimate_depends_on_kind_and_suffix (E : Env) (tx_type : string) :
  (forall address st1 st2,
     fst (estimate_transaction_amount E tx_type address st1) =
     fst (estimate_transaction_amount E tx_type address st2))
  /\
  (forall a1 a2 st1 st2,
     8 <= strlen a1 -> 8 <= strlen a2 -> last8 a1 = last8 a2 ->
     fst (estimate_transaction_amount E tx_type a1 st1) =
     fst (estimate_transaction_amount E tx_type a2 st2)).
Proof.
  split.
  - intros address st1 st2.
    rewrite !estimate_transaction_amount_run. reflexivity.
  - intros a1 a2 st1 st2 H1 H2 Hs.
    rewrite !estimate_transaction_amount_run. unfold seed_of.
    apply Z.leb_le in H1, H2. rewrite H1, H2, Hs. reflexivity.
Qed.

(** C9 at work: on the small chain two senders that share their last four
    bytes get the same stake amount, in a fresh state and in a state whose
    generator has been used. *)
Lemma estimate_depends_on_kind_and_suffix_witness :
  fst (estimate_transaction_amount small_chain "stake"
         "0x00000000000000000000000000000000deadbeef" (fresh half)) =
  fst (estimate_transaction_amount small_chain "stake"
         "0xffffffffffffffffffffffffffffffffdeadbeef"
         {| self := init_self; trace := [EthBlockNumber];
            rng := fun _ => 0.25%float; clock := 3 |}).
Proof.
  apply (proj2 (estimate_depends_on_kind_and_suffix small_chain "stake"));
    [vm_compute; discriminate | vm_compute; discriminate | reflexivity].
Defined.


(* ================================================================== *)
(** ** The analysis when no event is found *)

Section NoEvent.

Context (E : Env).

Lemma analyze_staking_flows_no_event days q1 qa1 q2 qa2 st :
  days <> 0 ->
  exists fa st',
    analyze_staking_flows E (no_stake days q1 qa1) (no_unstake days q2 qa2)
                          st = (inr fa, st')
    /\ cm_net_amount (fa_comparison_metrics fa) = Int 0
    /\ ta_trend_score (fa_trend_analysis fa) = -2
    /\ dr_daily_net_amount (fa_daily_rates fa) = 0.
Proof.
  intros Hdays. unfold analyze_staking_flows, no_stake, no_unstake.
  cbn [sd_stake_events_found ud_unstake_events_found sd_period_days
       sd_total_estimated_stake_amount ud_total_estimated_unstake_amount].
  cbv zeta.
  destruct (int_truediv_zero days Hdays) as [q [Hq [Hround _]]].
  change (num_sub (Int 0) (Int 0)) with (@inr exn _ (Int 0)).
  rewrite bind_lift_ret. rewrite Hq. rewrite !bind_lift_ret.
  cbn [num_truediv]. rewrite Hq. cbn [rbind]. rewrite !bind_lift_ret.
  change (0 <? 0 + 0) with false. cbv iota. rewrite bind_lift_ret.
  change (num_add (Int 0) (Int 0)) with (@inr exn _ (Int 0)).
  cbn [rbind]. change (num_gt (Int 0) (Int 0)) with false. cbv iota.
  rewrite bind_lift_ret.
  change (determine_trend (Int 0) (Int 0))
    with (@inr exn _ (STRONG_DECLINE, -2)).
  rewrite bind_lift_ret.
  destruct (analyze_weekly_flows_returns E days st) as [weekly [st1 Hw]].
  rewrite (bind_run _ _ _ _ _ Hw).
  cbn [num_round0]. rewrite Hround. rewrite !bind_lift_ret.
  unfold bind at 1, get_self at 1.
  destruct (num_gt (actual_staked_balance (self st1)) (Int 0)) eqn:Hb.
  - destruct (ratio100_zero _ Hb) as [r ->]. cbn [rbind].
    rewrite bind_lift_ret. unfold ret.
    eexists. eexists. split; [reflexivity|]. cbn. auto.
  - rewrite bind_lift_ret. unfold ret.
    eexists. eexists. split; [reflexivity|]. cbn. auto.
Qed.

Lemma calculate_complete_health_metrics_no_event slf bd days q1 qa1 q2 qa2
      fa :
  cm_net_amount (fa_comparison_metrics fa) = Int 0 ->
  ta_trend_score (fa_trend_analysis fa) = -2 ->
  exists hm,
    calculate_complete_health_metrics slf bd (no_stake days q1 qa1)
      (no_unstake days q2 qa2) fa = inr hm.
Proof.
  intros Hnet Hscore. unfold calculate_complete_health_metrics.
  cbn [no_stake no_unstake sd_total_estimated_stake_amount
       ud_total_estimated_unstake_amount].
  rewrite Hnet, Hscore. cbv zeta.
  destruct (guarded_ratio100_zero (bd_balance_tokens bd)) as [r ->].
  cbn [rbind].
  repeat match goal with
         | |- context [if ?c then _ else _] => destruct c
         end;
    eexists; reflexivity.
Qed.

Lemma calculate_projections_and_pressure_no_event bd days q1 qa1 q2 qa2 fa :
  dr_daily_net_amount (fa_daily_rates fa) = 0 ->
  exists pr,
    calculate_projections_and_pressure (no_stake days q1 qa1)
      (no_unstake days q2 qa2) fa bd = inr pr.
Proof.
  intros Hnet. unfold calculate_projections_and_pressure.
  cbn [no_unstake ud_unstake_events]. rewrite Hnet. cbv zeta.
  change (calculate_selling_pressure_timeline []) with (@nil PressureBucket).
  cbn [map num_sum fold_left rbind]. change (0 * 30) with 0.
  destruct (guarded_ratio100_zero (bd_balance_tokens bd)) as [r ->].
  cbn [rbind].
  change (num_truediv (Int 0) (Int 14)) with (@inr exn _ (Float 0)).
  cbn [rbind]. eexists. reflexivity.
Qed.

End NoEvent.

(** The balance verification posts its one request whatever it ends in. *)
Lemma get_total_staked_balance_trace (E : Env) (st : State) :
  exists r st',
    get_total_staked_balance E st = (r, st')
    /\ trace st' =
       trace st ++ [balance_call (token_contract (self st))
                                 (staking_contract (self st))].
Proof.
  unfold get_total_staked_balance.
  unfold bind at 1. unfold get_self at 1.
  destruct (get_token_balance_run E (token_contract (self st))
              (staking_contract (self st)) st) as [r Hr].
  rewrite (bind_run _ _ _ _ _ Hr).
  destruct (match r with
            | Some w => if 0 <? w then Some w else None
            | None => None
            end) as [w|].
  - destruct (int_truediv w (10 ^ token_decimals (self st))) as [e|tokens].
    + eexists. eexists. split; reflexivity.
    + rewrite bind_lift_ret.
      unfold bind at 1. unfold set_actual_staked_balance at 1.
      unfold bind at 1, get_self at 1, set_self at 1.
      match goal with
      | |- context [lift ?c] => destruct c as [e|p]
      end.
      * eexists. eexists. split; reflexivity.
      * eexists. eexists. split; reflexivity.
  - cbv zeta.
    unfold bind at 1. unfold set_actual_staked_balance at 1.
    unfold bind at 1, get_self at 1, set_self at 1.
    match goal with
    | |- context [lift ?c] => destruct c as [e|p]
    end.
    + eexists. eexists. split; reflexivity.
    + eexists. eexists. split; reflexivity.
Qed.

Lemma run_complete_analysis_unfold (E : Env) sc tc days supply st :
  run_complete_analysis E sc tc days supply st =
  bind (get_total_staked_balance E)
    (fun balance_data =>
       staking_data <- analyze_staking_events E days ;;
       unstaking_data <- analyze_unstaking_events E days ;;
       flow_analysis <-
         analyze_staking_flows E staking_data unstaking_data ;;
       slf <- get_self ;;
       health_metrics <- lift (
         calculate_complete_health_metrics slf balance_data staking_data
                                           unstaking_data flow_analysis) ;;
       projections <- lift (
         calculate_projections_and_pressure staking_data unstaking_data
                                            flow_analysis balance_data) ;;
       ret {| rs_analysis_period_days := days;
              rs_balance_data := balance_data;
              rs_staking_analysis := staking_data;
              rs_unstaking_analysis := unstaking_data;
              rs_flow_analysis := flow_analysis;
              rs_health_metrics := health_metrics;
              rs_projections := projections;
              rs_executive_summary :=
                generate_executive_summary health_metrics flow_analysis
                                           projections |})
    (configured_from st sc tc supply).
Proof. reflexivity. Qed.

(** C10, as the code has it. If every latest-block read fails and the
    window is not zero days, then, once the balance verification has given
    its snapshot, the staking scan and the unstaking scan each run over an
    empty range (no block is counted as scanned) and the whole analysis
    returns its report, with zero events, zero amounts and zero unique
    addresses on both sides. *)
Theorem analysis_completes_when_latest_block_read_fails
  (E : Env) sc tc (days : Z) supply st bd st1 :
  latest_block_read_fails E ->
  days <> 0 ->
  get_total_staked_balance E (configured_from st sc tc supply)
    = (inr bd, st1) ->
  exists rs st',
    run_complete_analysis E sc tc days supply st = (inr rs, st')
    /\ rs_balance_data rs = bd
    /\ (exists q qa, rs_staking_analysis rs = no_stake days q qa)
    /\ (exists q qa, rs_unstaking_analysis rs = no_unstake days q qa).
Proof.
  intros Hfail Hdays Hbalance.
  rewrite run_complete_analysis_unfold.
  rewrite (bind_run _ _ _ _ _ Hbalance).
  assert (forall s, latest_at E (trace s) <= 0) as Hlatest.
  { intros s. rewrite (latest_at_fails E _ Hfail). lia. }
  destruct (analyze_staking_events_empty E days st1 (Hlatest st1) Hdays)
    as [q1 [qa1 [st2 [Hsd _]]]].
  rewrite (bind_run _ _ _ _ _ Hsd).
  destruct (analyze_unstaking_events_empty E days st2 (Hlatest st2) Hdays)
    as [q2 [qa2 [st3 [Hud _]]]].
  rewrite (bind_run _ _ _ _ _ Hud).
  destruct (analyze_staking_flows_no_event E days q1 qa1 q2 qa2 st3 Hdays)
    as [fa [st4 [Hfa [Hnet [Hscore Hrate]]]]].
  rewrite (bind_run _ _ _ _ _ Hfa).
  unfold bind at 1, get_self at 1.
  destruct (calculate_complete_health_metrics_no_event (self st4) bd days
              q1 qa1 q2 qa2 fa Hnet Hscore) as [hm ->].
  rewrite bind_lift_ret.
  destruct (calculate_projections_and_pressure_no_event bd days
              q1 qa1 q2 qa2 fa Hrate) as [pr ->].
  rewrite bind_lift_ret. unfold ret.
  eexists. eexists. split; [reflexivity|]. cbn.
  split; [reflexivity|]. split; eexists; eexists; reflexivity.
Qed.

Lemma unreachable_node_latest_fails : latest_block_read_fails unreachable_node.
Proof. intros h. left. reflexivity. Qed.

(** C10 on the unreachable node with the default window of 14 days. *)
Lemma analysis_completes_when_latest_block_read_fails_witness :
  exists rs st',
    run_complete_analysis unreachable_node the_staking_contract
      the_token_contract 14 None (fresh half) = (inr rs, st')
    /\ sd_stake_events_found (rs_staking_analysis rs) = 0
    /\ sd_total_estimated_stake_amount (rs_staking_analysis rs) = Int 0
    /\ sd_unique_stakers (rs_staking_analysis rs) = 0
    /\ ud_unstake_events_found (rs_unstaking_analysis rs) = 0
    /\ ud_total_estimated_unstake_amount (rs_unstaking_analysis rs) = Int 0
    /\ ud_unique_unstakers (rs_unstaking_analysis rs) = 0.
Proof.
  destruct (get_total_staked_balance unreachable_node
              (configured_from (fresh half) the_staking_contract
                               the_token_contract None))
    as [[e|bd] st1] eqn:Hbalance; [vm_compute in Hbalance; discriminate|].
  destruct (analysis_completes_when_latest_block_read_fails
              unreachable_node the_staking_contract the_token_contract 14
              None (fresh half) bd st1 unreachable_node_latest_fails
              ltac:(lia) Hbalance)
    as [rs [st' [Hrun [_ [[q1 [qa1 Hsd]] [q2 [qa2 Hud]]]]]]].
  exists rs, st'. split; [exact Hrun|].
  rewrite Hsd, Hud. cbn. repeat split; reflexivity.
Defined.

(** C10, the claim as stated fails twice on an unreachable node, whose
    latest-block read always fails: with a window of zero days the analysis
    raises ZeroDivisionError instead of completing; and with the default
    window of 14 days the weekly breakdown still scans a non-empty range,
    starting at block -302400. *)
Lemma latest_block_failure_is_not_quiet :
  latest_block_read_fails unreachable_node
  /\ fst (run_complete_analysis unreachable_node the_staking_contract
            the_token_contract 0 None (fresh half))
     = inl ZeroDivisionError
  /\ In (EthGetBlockByNumber (-302400))
        (snd (main unreachable_node (example_args 14) ["y"] half)).
Proof.
  split; [exact unreachable_node_latest_fails|].
  split; [vm_compute; reflexivity|].
  assert (nth_error (snd (main unreachable_node (example_args 14) ["y"] half))
                    4 = Some (EthGetBlockByNumber (-302400))) as H
    by (vm_compute; reflexivity).
  eapply nth_error_In, H.
Qed.

(* ================================================================== *)
(** ** A window of zero days *)

Lemma run_complete_analysis_zero_days (E : Env) sc tc supply st :
  exists e st' rest,
    run_complete_analysis E sc tc 0 supply st = (inl e, st')
    /\ trace st' = trace st ++ balance_call (lower tc) (lower sc) :: rest.
Proof.
  rewrite run_complete_analysis_unfold.
  destruct (get_total_staked_balance_trace E (configured_from st sc tc supply))
    as [r [st1 [Hbalance Htrace]]].
  destruct r as [e|bd].
  - rewrite (bind_raise _ _ _ _ _ Hbalance).
    exists e, st1, []. split; [reflexivity | exact Htrace].
  - rewrite (bind_run _ _ _ _ _ Hbalance).
    destruct (analyze_staking_events_zero_days E st1) as [st2 [Hsd Htrace2]].
    rewrite (bind_raise _ _ _ _ _ Hsd).
    exists ZeroDivisionError, st2, [EthBlockNumber].
    split; [reflexivity|]. rewrite Htrace2, Htrace, <- app_assoc.
    reflexivity.
Qed.

(** C5, what the code does. A run configured with zero days is not
    rejected by [main]: whatever the node answers, the balance request is
    posted first and the run ends in [sys.exit(1)] through the handler of
    exceptions; on a node that cannot be reached the exception is the
    ZeroDivisionError of the first daily average, raised after the
    latest-block request. *)
Theorem zero_days_is_not_validated (E : Env) (g : Rng) :
  (exists rest,
     main E (example_args 0) ["y"] g =
     (SysExit 1,
      balance_call the_token_contract the_staking_contract :: rest))
  /\ (let run := run_complete_analysis unreachable_node
                   the_staking_contract the_token_contract 0 None
                   (fresh half) in
      fst run = inl ZeroDivisionError
      /\ trace (snd run) =
         [balance_call the_token_contract the_staking_contract;
          EthBlockNumber]).
Proof.
  split.
  - unfold main.
    change (address_or_prompt (args_staking (example_args 0)) ["y"])
      with (@inl (string * list string) Outcome
                 (the_staking_contract, ["y"])).
    cbv iota beta.
    change (address_or_prompt (args_token (example_args 0)) ["y"])
      with (@inl (string * list string) Outcome
                 (the_token_contract, ["y"])).
    cbv iota beta zeta.
    change (String.eqb (lower (strip "y")) "y") with true.
    cbn [orb].
    destruct (run_complete_analysis_zero_days E the_staking_contract
                the_token_contract (args_supply (example_args 0))
                {| self := init_self; trace := []; rng := g; clock := 0 |})
      as [e [st' [rest [Hrun Htrace]]]].
    change (args_days (example_args 0)) with 0.
    rewrite Hrun, Htrace. exists rest. reflexivity.
  - vm_compute. split; reflexivity.
Qed.


(* ================================================================== *)
(** ** The two scans as functions of the blocks they receive *)

(** A loop whose body keeps an invariant indexed by the items done. *)
Lemma for_each_invariant {A S} (body : S -> A -> M S)
  (I : list A -> S -> State -> Prop) (l : list A) :
  (forall done x acc st,
     I done acc st ->
     exists acc' st',
       body acc x st = (inr acc', st') /\ I (done ++ [x]) acc' st') ->
  forall done acc st,
    I done acc st ->
    exists acc' st',
      for_each l body acc st = (inr acc', st') /\ I (done ++ l) acc' st'.
Proof.
  intros Hbody. induction l as [|x l IH]; intros done acc st HI;
    cbn [for_each].
  - exists acc, st. rewrite app_nil_r. split; [reflexivity | exact HI].
  - destruct (Hbody done x acc st HI) as [acc1 [st1 [Hrun HI1]]].
    rewrite (bind_run _ _ _ _ _ Hrun).
    destruct (IH (done ++ [x]) acc1 st1 HI1) as [acc2 [st2 [Hrun2 HI2]]].
    exists acc2, st2. rewrite <- app_assoc in HI2.
    split; [exact Hrun2 | exact HI2].
Qed.

Section Events.

Context (E : Env).

Lemma block_time_run block_data st :
  block_time E block_data st =
  (match block_time_value E block_data with
   | Some ts => inr ts
   | None => inl ValueError
   end, st).
Proof.
  unfold block_time, block_time_value. unfold bind at 1.
  destruct (block_timestamp block_data) as [h|].
  - destruct (int16 E h) as [n|]; [|reflexivity].
    unfold ret at 1. destruct (fromtimestamp E n); reflexivity.
  - unfold ret at 1. destruct (fromtimestamp E 0); reflexivity.
Qed.

Lemma estimate_transaction_amount_full tx_type address st :
  exists st',
    estimate_transaction_amount E tx_type address st =
    (match seed_of E address with
     | Some seed => inr (tiered_amount tx_type (random_seed E seed))
     | None => inl ValueError
     end, st')
    /\ trace st' = trace st /\ self st' = self st
    /\ clock st' = clock st.
Proof.
  unfold estimate_transaction_amount, seed_of, tiered_amount.
  unfold bind at 1.
  destruct (8 <=? strlen address).
  - destruct (int16 E (last8 address)) as [seed|].
    + unfold ret at 1. unfold bind at 1. unfold set_rng at 1.
      unfold bind at 1. unfold random_random at 1. cbn [rng].
      destruct (String.eqb tx_type "stake");
        repeat match goal with
               | |- context [if ?c then _ else _] => destruct c
               end;
        (eexists; split; [reflexivity|]; repeat split; reflexivity).
    + exists st. repeat split; reflexivity.
  - unfold ret at 1. unfold bind at 1. unfold set_rng at 1.
    unfold bind at 1. unfold random_random at 1. cbn [rng].
    destruct (String.eqb tx_type "stake");
      repeat match goal with
             | |- context [if ?c then _ else _] => destruct c
             end;
      (eexists; split; [reflexivity|]; repeat split; reflexivity).
Qed.

(** [analyze_stake_transaction] never raises and posts nothing: it returns
    the event when the block time and the seed of the sender can be read,
    and [None] otherwise. *)
Lemma analyze_stake_transaction_value tx_data block_data signature st :
  exists st',
    analyze_stake_transaction E tx_data block_data signature st =
    (inr (stake_event_for E tx_data block_data signature), st')
    /\ trace st' = trace st /\ self st' = self st.
Proof.
  unfold analyze_stake_transaction, try_except, stake_event_for. cbv zeta.
  unfold bind at 1. rewrite block_time_run.
  destruct (block_time_value E block_data) as [ts|].
  - unfold bind at 1.
    destruct (estimate_transaction_amount_full "stake"
                (lower (tx_from tx_data)) st) as [st1 [-> [Ht [Hs _]]]].
    destruct (seed_of E (lower (tx_from tx_data))) as [seed|].
    + unfold ret. exists st1. split; [reflexivity | split; assumption].
    + exists st1. split; [reflexivity | split; assumption].
  - exists st. split; [reflexivity | split; reflexivity].
Qed.

(** [analyze_unstake_transaction] likewise; it reads the clock, once, when
    the block time can be read and the expiry is a date. *)
Lemma analyze_unstake_transaction_value tx_data block_data signature st :
  exists st',
    analyze_unstake_transaction E tx_data block_data signature st =
    (inr (unstake_event_for E (now_us E (trace st) (clock st)) tx_data
                            block_data signature), st')
    /\ trace st' = trace st /\ self st' = self st
    /\ clock st' = match expiry_of E block_data with
                   | Some _ => S (clock st)
                   | None => clock st
                   end.
Proof.
  unfold analyze_unstake_transaction, try_except, unstake_event_for,
    expiry_of.
  cbv zeta. unfold bind at 1. rewrite block_time_run.
  destruct (block_time_value E block_data) as [ts|].
  - unfold bind at 1.
    destruct (ts + 14 * 86400 <=? datetime_max).
    + unfold ret at 1. unfold bind at 1. unfold datetime_now at 1.
      unfold bind at 1.
      match goal with
      | |- context [estimate_transaction_amount E _ _ ?s] =>
          destruct (estimate_transaction_amount_full "unstake"
                      (lower (tx_from tx_data)) s)
            as [st1 [-> [Ht [Hs Hc]]]]
      end.
      cbn [trace self clock] in Ht, Hs, Hc.
      destruct (seed_of E (lower (tx_from tx_data))) as [seed|].
      * unfold ret. exists st1. split; [reflexivity|].
        repeat split; assumption.
      * exists st1. split; [reflexivity|]. repeat split; assumption.
    + exists st. repeat split; reflexivity.
  - exists st. repeat split; reflexivity.
Qed.

Lemma total_of_snoc (amounts : list float) (a : float) :
  num_add (total_of amounts) (Float a) = inr (total_of (amounts ++ [a])).
Proof.
  unfold total_of. destruct amounts as [|b l].
  - reflexivity.
  - change ((b :: l) ++ [a]) with (b :: (l ++ [a])) at 1.
    cbv iota. change (b :: (l ++ [a])) with ((b :: l) ++ [a]).
    rewrite float_sum_snoc. reflexivity.
Qed.

Lemma fetched_blocks_snoc blocks : forall h n,
  fetched_blocks E h (blocks ++ [n]) =
  fetched_blocks E h blocks ++
  [(h ++ map EthGetBlockByNumber blocks ++ [EthGetBlockByNumber n],
    block_at E (h ++ map EthGetBlockByNumber blocks) n)].
Proof.
  induction blocks as [|m blocks IH]; intros h n; cbn [app fetched_blocks map].
  - rewrite app_nil_r. reflexivity.
  - rewrite IH. rewrite <- !app_assoc. reflexivity.
Qed.

Lemma length_fetched_blocks blocks : forall h,
  List.length (fetched_blocks E h blocks) = List.length blocks.
Proof.
  induction blocks as [|m blocks IH]; intros h; cbn [fetched_blocks List.length];
    [reflexivity | rewrite IH; reflexivity].
Qed.

(** *** The staking scan *)

Lemma scan_stake_transaction_value b events tx st :
  let new :=
    match classify (staking_contract (self st)) (stake_signatures (self st))
                   tx with
    | Some (t, sig) => option_list (stake_event_for E t b sig)
    | None => []
    end in
  exists st',
    scan_stake_transaction E b
      (events, total_of (map se_estimated_amount events)) tx st =
    (inr (events ++ new, total_of (map se_estimated_amount (events ++ new))),
     st')
    /\ trace st' = trace st /\ self st' = self st.
Proof.
  unfold scan_stake_transaction, classify.
  destruct (destination tx) as [[t to_address]|]; cbv zeta.
  - unfold bind at 1, get_self at 1.
    destruct (matching_signature _ _ _ _) as [sig|].
    + destruct (analyze_stake_transaction_value t b sig st)
        as [st1 [Hrun [Ht Hs]]].
      rewrite (bind_run _ _ _ _ _ Hrun).
      destruct (stake_event_for E t b sig) as [ev|]; cbn [option_list].
      * rewrite total_of_snoc, bind_lift_ret. unfold ret.
        exists st1. rewrite map_app. split; [reflexivity|].
        split; assumption.
      * unfold ret. exists st1. rewrite app_nil_r.
        split; [reflexivity | split; assumption].
    + unfold ret. exists st. rewrite app_nil_r.
      split; [reflexivity | split; reflexivity].
  - unfold ret. exists st. rewrite app_nil_r.
    split; [reflexivity | split; reflexivity].
Qed.

Lemma flat_map_map {A B C} (f : B -> list C) (g : A -> B) (l : list A) :
  flat_map f (map g l) = flat_map (fun x => f (g x)) l.
Proof.
  induction l as [|x l IH]; cbn [map flat_map]; [reflexivity|].
  rewrite IH. reflexivity.
Qed.

Lemma scan_stake_transactions_value b transactions events st :
  block_transactions b = Some transactions ->
  exists st',
    for_each transactions (scan_stake_transaction E b)
      (events, total_of (map se_estimated_amount events)) st =
    (inr (let all :=
            events ++
            stake_events_of_block E (staking_contract (self st))
              (stake_signatures (self st)) (Some b) in
          (all, total_of (map se_estimated_amount all))), st')
    /\ trace st' = trace st /\ self st' = self st.
Proof.
  intros Htxs.
  set (contract := staking_contract (self st)).
  set (signatures := stake_signatures (self st)).
  set (new := fun tx =>
         match classify contract signatures tx with
         | Some (t, sig) => option_list (stake_event_for E t b sig)
         | None => []
         end).
  destruct (for_each_invariant (scan_stake_transaction E b)
              (fun done acc s =>
                 trace s = trace st /\ self s = self st
                 /\ acc = (events ++ flat_map new done,
                           total_of (map se_estimated_amount
                                         (events ++ flat_map new done))))
              transactions) with (done := @nil TxEntry)
       (acc := (events, total_of (map se_estimated_amount events)))
       (st := st)
    as [acc' [st' [Hrun [Ht [Hs Hacc]]]]].
  - intros done x acc s [Ht [Hs ->]].
    destruct (scan_stake_transaction_value b
                (events ++ flat_map new done) x s) as [s' [Hrun [Ht' Hs']]].
    eexists. exists s'. split; [exact Hrun|].
    split; [congruence|]. split; [congruence|].
    rewrite Hs. fold contract. fold signatures.
    rewrite flat_map_app. cbn [flat_map]. rewrite app_nil_r.
    rewrite <- app_assoc. reflexivity.
  - cbn [flat_map]. rewrite app_nil_r. split; [reflexivity|].
    split; reflexivity.
  - exists st'. split; [|split; assumption].
    rewrite Hrun, Hacc. cbn [app]. cbv zeta.
    unfold stake_events_of_block, transactions_of. rewrite Htxs.
    rewrite flat_map_map. reflexivity.
Qed.

Lemma stake_events_of_snoc contract signatures fetched h b :
  stake_events_of E contract signatures (fetched ++ [(h, b)]) =
  stake_events_of E contract signatures fetched ++
  stake_events_of_block E contract signatures b.
Proof.
  unfold stake_events_of. rewrite flat_map_app. cbn [flat_map snd].
  rewrite app_nil_r. reflexivity.
Qed.

Lemma scan_stake_blocks_value blocks st :
  let events :=
    stake_events_of E (staking_contract (self st))
      (stake_signatures (self st)) (fetched_blocks E (trace st) blocks) in
  exists st',
    for_each blocks
      (fun '(acc, blocks_scanned) block_num =>
         let blocks_scanned := blocks_scanned + 100 in
         block_data <- get_block_with_transactions E block_num ;;
         match block_data with
         | Some b =>
             match block_transactions b with
             | Some transactions =>
                 acc' <- for_each transactions
                           (scan_stake_transaction E b) acc ;;
                 ret (acc', blocks_scanned)
             | None => ret (acc, blocks_scanned)
             end
         | None => ret (acc, blocks_scanned)
         end)
      (([], Int 0), 0) st
    = (inr ((events, total_of (map se_estimated_amount events)),
            100 * len blocks), st')
    /\ trace st' = trace st ++ map EthGetBlockByNumber blocks
    /\ self st' = self st.
Proof.
  set (contract := staking_contract (self st)).
  set (signatures := stake_signatures (self st)).
  set (events_of := fun done =>
         stake_events_of E contract signatures
                         (fetched_blocks E (trace st) done)).
  cbv zeta.
  match goal with
  | |- exists st', for_each _ ?body _ _ = _ /\ _ =>
      destruct (for_each_invariant body
                  (fun done acc s =>
                     trace s = trace st ++ map EthGetBlockByNumber done
                     /\ self s = self st
                     /\ acc = ((events_of done,
                                total_of (map se_estimated_amount
                                              (events_of done))),
                               100 * len done))
                  blocks) with (done := @nil Z)
           (acc := ((@nil StakeEvent, Int 0), 0)) (st := st)
        as [acc' [st' [Hrun [Ht [Hs Hacc]]]]]
  end.
  - intros done n acc s [Ht [Hs ->]]. cbv zeta.
    rewrite (bind_run _ _ _ _ _ (get_block_with_transactions_run E n s)).
    assert (100 * len done + 100 = 100 * len (done ++ [n])) as Hcount.
    { unfold len. rewrite length_app. cbn [List.length]. lia. }
    assert (trace (push (EthGetBlockByNumber n) s) =
            trace st ++ map EthGetBlockByNumber (done ++ [n])) as Hpush.
    { unfold push. cbn [trace]. rewrite Ht, map_app, <- app_assoc.
      reflexivity. }
    assert (events_of (done ++ [n]) =
            events_of done ++
            stake_events_of_block E contract signatures
              (block_at E (trace s) n)) as Hev.
    { unfold events_of. rewrite fetched_blocks_snoc, stake_events_of_snoc.
      rewrite Ht. reflexivity. }
    rewrite Hev, <- Hcount.
    destruct (block_at E (trace s) n) as [b|].
    + destruct (block_transactions b) as [txs|] eqn:Htxs.
      * destruct (scan_stake_transactions_value b txs (events_of done)
                    (push (EthGetBlockByNumber n) s) Htxs)
          as [s' [Hrun [Ht' Hs']]].
        rewrite (bind_run _ _ _ _ _ Hrun). unfold ret.
        eexists. exists s'. split; [reflexivity|].
        split; [congruence|]. split; [rewrite Hs'; exact Hs|].
        cbv zeta. cbn [push self]. rewrite Hs. reflexivity.
      * unfold ret. eexists. eexists. split; [reflexivity|].
        split; [exact Hpush|]. split; [exact Hs|].
        unfold stake_events_of_block, transactions_of. rewrite Htxs.
        cbn [flat_map]. rewrite app_nil_r. reflexivity.
    + unfold ret. eexists. eexists. split; [reflexivity|].
      split; [exact Hpush|]. split; [exact Hs|].
      unfold stake_events_of_block, transactions_of.
      cbn [flat_map]. rewrite app_nil_r. reflexivity.
  - split; [cbn [map]; rewrite app_nil_r; reflexivity|].
    split; reflexivity.
  - exists st'. split; [|split; assumption].
    rewrite Hrun, Hacc. rewrite app_nil_l. reflexivity.
Qed.

(** The staking scan in full: its requests, the events it returns and
    stores, and the figures it derives from them. *)
Lemma analyze_staking_events_value (days : Z) (st : State) :
  let current_block := latest_at E (trace st) in
  let from_block := Z.max 0 (current_block - days * 43200) in
  let events :=
    stake_events_of E (staking_contract (self st))
      (stake_signatures (self st)) (scanned_blocks E (trace st) days) in
  let total := total_of (map se_estimated_amount events) in
  exists st',
    analyze_staking_events E days st =
    ((let* daily_average_stakes := int_truediv (len events) days in
      let* daily_average_amount := num_truediv total (Int days) in
      inr {| sd_period_days := days;
             sd_blocks_scanned :=
               100 * len (py_range from_block current_block 100);
             sd_stake_events_found := len events;
             sd_unique_stakers := count_unique (map se_address events);
             sd_total_estimated_stake_amount := total;
             sd_daily_average_stakes := daily_average_stakes;
             sd_daily_average_amount := daily_average_amount;
             sd_stake_events := events |}), st')
    /\ trace st' =
       trace st ++ EthBlockNumber :: scan_calls from_block current_block 100
    /\ stake_events (self st') = events
    /\ unstake_events (self st') = unstake_events (self st)
    /\ staking_contract (self st') = staking_contract (self st)
    /\ token_contract (self st') = token_contract (self st)
    /\ stake_signatures (self st') = stake_signatures (self st)
    /\ unstake_signatures (self st') = unstake_signatures (self st)
    /\ total_supply (self st') = total_supply (self st)
    /\ token_decimals (self st') = token_decimals (self st)
    /\ actual_staked_balance (self st') = actual_staked_balance (self st).
Proof.
  intros current_block from_block. cbv zeta.
  unfold analyze_staking_events.
  rewrite (bind_run _ _ _ _ _ (get_latest_block_number_run E st)).
  cbv zeta. fold current_block. fold from_block.
  destruct (scan_stake_blocks_value (py_range from_block current_block 100)
              (push EthBlockNumber st)) as [st1 [Hrun [Ht Hs]]].
  rewrite (bind_run _ _ _ _ _ Hrun).
  unfold push in Ht, Hs. cbn [trace self] in Ht, Hs.
  unfold scanned_blocks. fold current_block. fold from_block.
  cbn [push self trace].
  set (events := stake_events_of E _ _ _).
  unfold bind at 1. unfold set_stake_events at 1.
  unfold bind at 1, get_self at 1, set_self at 1.
  assert (trace st1 =
          trace st ++ EthBlockNumber
                   :: scan_calls from_block current_block 100) as Htrace.
  { rewrite Ht, <- app_assoc. reflexivity. }
  destruct (int_truediv (len events) days) as [e|q].
  - eexists. split; [reflexivity|]. cbn [self trace stake_events
      unstake_events staking_contract token_contract stake_signatures
      unstake_signatures total_supply token_decimals actual_staked_balance].
    rewrite Hs. repeat split; try reflexivity. exact Htrace.
  - rewrite bind_lift_ret.
    destruct (num_truediv _ (Int days)) as [e|qa].
    + eexists. split; [reflexivity|]. cbn [self trace stake_events
        unstake_events staking_contract token_contract stake_signatures
        unstake_signatures total_supply token_decimals actual_staked_balance].
      rewrite Hs. repeat split; try reflexivity. exact Htrace.
    + rewrite bind_lift_ret. unfold ret.
      eexists. split; [reflexivity|].
      cbn [self trace stake_events
        unstake_events staking_contract token_contract stake_signatures
        unstake_signatures total_supply token_decimals actual_staked_balance].
      rewrite Hs. repeat split; try reflexivity. exact Htrace.
Qed.

(** *** The unstaking scan *)

Lemma scan_unstake_transaction_value b events tx st :
  let found :=
    unstake_step E (staking_contract (self st))
      (unstake_signatures (self st)) (trace st) (events, clock st) (b, tx) in
  exists st',
    scan_unstake_transaction E b
      (events, total_of (map ue_estimated_amount events)) tx st =
    (inr (fst found, total_of (map ue_estimated_amount (fst found))), st')
    /\ trace st' = trace st /\ self st' = self st
    /\ clock st' = snd found.
Proof.
  unfold scan_unstake_transaction, unstake_step, classify. cbn [fst snd].
  destruct (destination tx) as [[t to_address]|]; cbv zeta.
  - unfold bind at 1, get_self at 1.
    destruct (matching_signature _ _ _ _) as [sig|].
    + destruct (analyze_unstake_transaction_value t b sig st)
        as [st1 [Hrun [Ht [Hs Hc]]]].
      rewrite (bind_run _ _ _ _ _ Hrun). cbn [fst snd].
      destruct (unstake_event_for E _ t b sig) as [ev|]; cbn [option_list].
      * rewrite total_of_snoc, bind_lift_ret. unfold ret.
        exists st1. rewrite map_app. split; [reflexivity|].
        repeat split; assumption.
      * unfold ret. exists st1. rewrite app_nil_r.
        split; [reflexivity|]. repeat split; assumption.
    + unfold ret. exists st. repeat split; reflexivity.
  - unfold ret. exists st. repeat split; reflexivity.
Qed.

Lemma scan_unstake_transactions_value b transactions events st :
  block_transactions b = Some transactions ->
  let found :=
    fold_left (unstake_step E (staking_contract (self st))
                 (unstake_signatures (self st)) (trace st))
              (transactions_of (Some b)) (events, clock st) in
  exists st',
    for_each transactions (scan_unstake_transaction E b)
      (events, total_of (map ue_estimated_amount events)) st =
    (inr (fst found, total_of (map ue_estimated_amount (fst found))), st')
    /\ trace st' = trace st /\ self st' = self st
    /\ clock st' = snd found.
Proof.
  intros Htxs. cbv zeta.
  set (step := unstake_step E (staking_contract (self st))
                 (unstake_signatures (self st)) (trace st)).
  set (found_of := fun done : list TxEntry =>
         fold_left step (map (fun tx => (b, tx)) done) (events, clock st)).
  destruct (for_each_invariant (scan_unstake_transaction E b)
              (fun done acc s =>
                 trace s = trace st /\ self s = self st
                 /\ acc = (fst (found_of done),
                           total_of (map ue_estimated_amount
                                         (fst (found_of done))))
                 /\ clock s = snd (found_of done))
              transactions) with (done := @nil TxEntry)
       (acc := (events, total_of (map ue_estimated_amount events)))
       (st := st)
    as [acc' [st' [Hrun [Ht [Hs [Hacc Hc]]]]]].
  - intros done x acc s [Ht [Hs [-> Hc]]].
    destruct (scan_unstake_transaction_value b (fst (found_of done)) x s)
      as [s' [Hrun [Ht' [Hs' Hc']]]].
    assert (found_of (done ++ [x]) =
            unstake_step E (staking_contract (self s))
              (unstake_signatures (self s)) (trace s)
              (fst (found_of done), clock s) (b, x)) as Hstep.
    { unfold found_of. rewrite map_app, fold_left_app. cbn [map fold_left].
      rewrite Hs, Ht, Hc. fold step. fold (found_of done).
      rewrite <- surjective_pairing. reflexivity. }
    eexists. exists s'. split; [exact Hrun|]. rewrite Hstep.
    split; [congruence|]. split; [congruence|].
    split; [reflexivity | exact Hc'].
  - repeat split; reflexivity.
  - exists st'. unfold transactions_of. rewrite Htxs.
    rewrite Hrun, Hacc. repeat split; assumption.
Qed.

Lemma unstake_events_of_snoc contract signatures k fetched h b :
  unstake_events_of E contract signatures k (fetched ++ [(h, b)]) =
  fold_left (unstake_step E contract signatures h) (transactions_of b)
            (unstake_events_of E contract signatures k fetched).
Proof.
  unfold unstake_events_of. rewrite fold_left_app. reflexivity.
Qed.

Lemma scan_unstake_blocks_value blocks st :
  let found :=
    unstake_events_of E (staking_contract (self st))
      (unstake_signatures (self st)) (clock st)
      (fetched_blocks E (trace st) blocks) in
  exists st',
    for_each blocks
      (fun '(acc, blocks_scanned) block_num =>
         let blocks_scanned := blocks_scanned + 100 in
         block_data <- get_block_with_transactions E block_num ;;
         match block_data with
         | Some b =>
             match block_transactions b with
             | Some transactions =>
                 acc' <- for_each transactions
                           (scan_unstake_transaction E b) acc ;;
                 ret (acc', blocks_scanned)
             | None => ret (acc, blocks_scanned)
             end
         | None => ret (acc, blocks_scanned)
         end)
      (([], Int 0), 0) st
    = (inr ((fst found, total_of (map ue_estimated_amount (fst found))),
            100 * len blocks), st')
    /\ trace st' = trace st ++ map EthGetBlockByNumber blocks
    /\ self st' = self st
    /\ clock st' = snd found.
Proof.
  set (contract := staking_contract (self st)).
  set (signatures := unstake_signatures (self st)).
  set (found_of := fun done =>
         unstake_events_of E contract signatures (clock st)
                           (fetched_blocks E (trace st) done)).
  cbv zeta.
  match goal with
  | |- exists st', for_each _ ?body _ _ = _ /\ _ =>
      destruct (for_each_invariant body
                  (fun done acc s =>
                     trace s = trace st ++ map EthGetBlockByNumber done
                     /\ self s = self st
                     /\ acc = ((fst (found_of done),
                                total_of (map ue_estimated_amount
                                              (fst (found_of done)))),
                               100 * len done)
                     /\ clock s = snd (found_of done))
                  blocks) with (done := @nil Z)
           (acc := ((@nil UnstakeEvent, Int 0), 0)) (st := st)
        as [acc' [st' [Hrun [Ht [Hs [Hacc Hc]]]]]]
  end.
  - intros done n acc s [Ht [Hs [-> Hc]]]. cbv zeta.
    rewrite (bind_run _ _ _ _ _ (get_block_with_transactions_run E n s)).
    assert (100 * len done + 100 = 100 * len (done ++ [n])) as Hcount.
    { unfold len. rewrite length_app. cbn [List.length]. lia. }
    assert (trace (push (EthGetBlockByNumber n) s) =
            trace st ++ map EthGetBlockByNumber (done ++ [n])) as Hpush.
    { unfold push. cbn [trace]. rewrite Ht, map_app, <- app_assoc.
      reflexivity. }
    assert (found_of (done ++ [n]) =
            fold_left (unstake_step E contract signatures
                         (trace (push (EthGetBlockByNumber n) s)))
                      (transactions_of (block_at E (trace s) n))
                      (fst (found_of done), clock s)) as Hev.
    { unfold found_of. rewrite fetched_blocks_snoc, unstake_events_of_snoc.
      unfold push. cbn [trace]. rewrite Ht, Hc, <- app_assoc.
      fold (found_of done). rewrite <- surjective_pairing. reflexivity. }
    rewrite Hev, <- Hcount.
    destruct (block_at E (trace s) n) as [b|].
    + destruct (block_transactions b) as [txs|] eqn:Htxs.
      * destruct (scan_unstake_transactions_value b txs (fst (found_of done))
                    (push (EthGetBlockByNumber n) s) Htxs)
          as [s' [Hrun [Ht' [Hs' Hc']]]].
        rewrite (bind_run _ _ _ _ _ Hrun). unfold ret.
        cbn [push self clock] in Hc'. rewrite Hs in Hc'.
        cbn [push self clock]. rewrite Hs.
        eexists. exists s'. split; [reflexivity|].
        split; [congruence|]. split; [rewrite Hs'; exact Hs|].
        split; [reflexivity | exact Hc'].
      * unfold ret. eexists. eexists. split; [reflexivity|].
        split; [exact Hpush|]. split; [exact Hs|].
        unfold transactions_of. rewrite Htxs. cbn [fold_left fst snd].
        split; [reflexivity | reflexivity].
    + unfold ret. eexists. eexists. split; [reflexivity|].
      split; [exact Hpush|]. split; [exact Hs|].
      cbn [transactions_of fold_left fst snd].
      split; reflexivity.
  - split; [cbn [map]; rewrite app_nil_r; reflexivity|].
    repeat split; reflexivity.
  - exists st'. split; [|repeat split; assumption].
    rewrite Hrun, Hacc. reflexivity.
Qed.

(** The unstaking scan in full. *)
Lemma analyze_unstaking_events_value (days : Z) (st : State) :
  let current_block := latest_at E (trace st) in
  let from_block := Z.max 0 (current_block - days * 43200) in
  let found :=
    unstake_events_of E (staking_contract (self st))
      (unstake_signatures (self st)) (clock st)
      (scanned_blocks E (trace st) days) in
  let events := fst found in
  let total := total_of (map ue_estimated_amount events) in
  exists st',
    analyze_unstaking_events E days st =
    ((let* daily_average_unstakes := int_truediv (len events) days in
      let* daily_average_amount := num_truediv total (Int days) in
      inr {| ud_period_days := days;
             ud_blocks_scanned :=
               100 * len (py_range from_block current_block 100);
             ud_unstake_events_found := len events;
             ud_unique_unstakers := count_unique (map ue_address events);
             ud_total_estimated_unstake_amount := total;
             ud_daily_average_unstakes := daily_average_unstakes;
             ud_daily_average_amount := daily_average_amount;
             ud_unstake_events := events |}), st')
    /\ trace st' =
       trace st ++ EthBlockNumber :: scan_calls from_block current_block 100
    /\ unstake_events (self st') = events
    /\ clock st' = snd found
    /\ stake_events (self st') = stake_events (self st)
    /\ staking_contract (self st') = staking_contract (self st)
    /\ token_contract (self st') = token_contract (self st)
    /\ stake_signatures (self st') = stake_signatures (self st)
    /\ unstake_signatures (self st') = unstake_signatures (self st)
    /\ total_supply (self st') = total_supply (self st)
    /\ token_decimals (self st') = token_decimals (self st)
    /\ actual_staked_balance (self st') = actual_staked_balance (self st).
Proof.
  intros current_block from_block. cbv zeta.
  unfold analyze_unstaking_events.
  rewrite (bind_run _ _ _ _ _ (get_latest_block_number_run E st)).
  cbv zeta. fold current_block. fold from_block.
  destruct (scan_unstake_blocks_value (py_range from_block current_block 100)
              (push EthBlockNumber st)) as [st1 [Hrun [Ht [Hs Hc]]]].
  rewrite (bind_run _ _ _ _ _ Hrun).
  unfold push in Ht, Hs, Hc. cbn [trace self clock] in Ht, Hs, Hc.
  unfold scanned_blocks. fold current_block. fold from_block.
  cbn [push self trace clock].
  set (found := unstake_events_of E _ _ _ _) in *.
  unfold bind at 1. unfold set_unstake_events at 1.
  unfold bind at 1, get_self at 1, set_self at 1.
  assert (trace st1 =
          trace st ++ EthBlockNumber
                   :: scan_calls from_block current_block 100) as Htrace.
  { rewrite Ht, <- app_assoc. reflexivity. }
  destruct (int_truediv (len (fst found)) days) as [e|q].
  - eexists. split; [reflexivity|]. cbn [self trace clock stake_events
      unstake_events staking_contract token_contract stake_signatures
      unstake_signatures total_supply token_decimals actual_staked_balance].
    rewrite Hs. repeat split; try reflexivity; assumption.
  - rewrite bind_lift_ret.
    destruct (num_truediv _ (Int days)) as [e|qa].
    + eexists. split; [reflexivity|]. cbn [self trace clock stake_events
        unstake_events staking_contract token_contract stake_signatures
        unstake_signatures total_supply token_decimals actual_staked_balance].
      rewrite Hs. repeat split; try reflexivity; assumption.
    + rewrite bind_lift_ret. unfold ret.
      eexists. split; [reflexivity|].
      cbn [self trace clock stake_events
        unstake_events staking_contract token_contract stake_signatures
        unstake_signatures total_supply token_decimals actual_staked_balance].
      rewrite Hs. repeat split; try reflexivity; assumption.
Qed.

End Events.


(* ================================================================== *)
(** ** What the scans request and return *)

Lemma in_py_range (a b step n : Z) :
  0 < step ->
  In n (py_range a b step) <->
  a <= n < b /\ (n - a) mod step = 0.
Proof.
  intros Hstep. unfold py_range. rewrite in_map_iff. split.
  - intros [i [<- Hi]]. apply in_seq in Hi.
    assert (Z.of_nat i < (b - a + step - 1) / step) as Hlt by lia.
    assert (Z.of_nat i + 1 <= (b - a + step - 1) / step) as Hle by lia.
    assert (step * (Z.of_nat i + 1) <= b - a + step - 1) as Hm.
    { pose proof (Z.mul_div_le (b - a + step - 1) step Hstep). nia. }
    split; [nia|].
    replace (a + step * Z.of_nat i - a) with (Z.of_nat i * step) by ring.
    apply Z.mod_mul. lia.
  - intros [[Hlo Hhi] Hmod].
    exists (Z.to_nat ((n - a) / step)).
    assert (0 <= (n - a) / step) as Hq by (apply Z.div_pos; lia).
    pose proof (Z.div_mod (n - a) step ltac:(lia)) as Hdm.
    rewrite Hmod, Z.add_0_r in Hdm.
    split; [rewrite Z2Nat.id by exact Hq; lia|].
    apply in_seq. split; [lia|]. cbn [plus].
    apply Z2Nat.inj_lt; [exact Hq | |].
    + apply Z.div_pos; lia.
    + apply Z.div_lt_upper_bound; [exact Hstep|].
      assert (step * ((n - a) / step) + step <= b - a + step - 1) by lia.
      pose proof (Z.mul_succ_div_gt (b - a + step - 1) step Hstep).
      nia.
Qed.

Lemma scan_calls_in_window (current_block days n : Z) :
  let from_block := Z.max 0 (current_block - days * 43200) in
  In (EthGetBlockByNumber n) (scan_calls from_block current_block 100) <->
  from_block <= n < current_block /\ (n - from_block) mod 100 = 0.
Proof.
  cbv zeta. unfold scan_calls. rewrite in_map_iff. split.
  - intros [m [Hm Hin]]. injection Hm as ->.
    apply in_py_range in Hin; [exact Hin | lia].
  - intros H. exists n. split; [reflexivity|].
    apply in_py_range; [lia | exact H].
Qed.

(** X1. On a node whose answers follow the JSON-RPC schema, each of the two
    scans posts one latest-block request and then one block request for
    every hundredth block of its window, in increasing order, and nothing
    else; it does so whatever the answers hold (failed fetches, empty
    blocks, transactions of any kind) and also when the scan ends in the
    division error of a window of zero days.  A block is requested
    exactly when it lies at a multiple of 100 above the start of the
    window and below the current block; the start is never negative, so
    no scan asks for a negative block number or for the current block
    itself. *)
Theorem scans_request_every_hundredth_block
  (E : Env) (days : Z) (st : State) :
  let current_block := latest_at E (trace st) in
  let from_block := Z.max 0 (current_block - days * 43200) in
  let requests := EthBlockNumber :: scan_calls from_block current_block 100 in
  trace (snd (analyze_staking_events E days st)) = trace st ++ requests
  /\ trace (snd (analyze_unstaking_events E days st)) = trace st ++ requests
  /\ (forall n,
        In (EthGetBlockByNumber n) requests <->
        from_block <= n < current_block /\ (n - from_block) mod 100 = 0)
  /\ 0 <= from_block.
Proof.
  cbv zeta.
  destruct (analyze_staking_events_value E days st) as [st1 [Hrun1 [Ht1 _]]].
  destruct (analyze_unstaking_events_value E days st)
    as [st2 [Hrun2 [Ht2 _]]].
  rewrite Hrun1, Hrun2. cbn [snd].
  split; [exact Ht1|]. split; [exact Ht2|]. split; [|lia].
  intros n. rewrite <- scan_calls_in_window. cbn [In]. split.
  - intros [H|H]; [discriminate H | exact H].
  - intros H. right. exact H.
Qed.

Lemma count_unique_bounds (addresses : list string) :
  0 <= count_unique addresses <= len addresses
  /\ (count_unique addresses = 0 <-> addresses = []).
Proof.
  unfold count_unique, len. split.
  - pose proof (NoDup_incl_length (NoDup_nodup string_dec addresses)
                  (fun a H => proj1 (nodup_In string_dec addresses a) H)).
    lia.
  - split.
    + intros H. destruct addresses as [|a l]; [reflexivity|].
      assert (In a (nodup string_dec (a :: l))) as Hin.
      { apply nodup_In. left. reflexivity. }
      destruct (nodup string_dec (a :: l)); [destruct Hin|].
      cbn [List.length] in H. lia.
    + intros ->. reflexivity.
Qed.

Lemma length_scanned_blocks (E : Env) h days :
  len (scanned_blocks E h days) =
  len (py_range (Z.max 0 (latest_at E h - days * 43200)) (latest_at E h) 100).
Proof.
  unfold scanned_blocks, len. cbv zeta. rewrite length_fetched_blocks.
  reflexivity.
Qed.

(** X2. A staking scan that returns gives exactly the stake events of the
    blocks it fetched: block after block in the order of the requests,
    within a block in array order, one event for each transaction object
    with a non-empty [to] equal to the staking contract whose input starts
    with a stake selector and whose event could be built; bare hashes,
    failed fetches and blocks without transactions contribute nothing.
    The same list is stored in the object; the event count is its length,
    the number of unique stakers is between 0 and that count and is 0 only
    for an empty list, the total is the int 0 for no event and the
    left-to-right float sum of the amounts otherwise, the daily averages
    are the count and the total divided by the number of days, and the
    blocks-scanned figure is 100 times the number of blocks fetched. *)
Theorem staking_scan_result
  (E : Env) (days : Z) (st : State) (sd : StakingData) (st' : State) :
  analyze_staking_events E days st = (inr sd, st') ->
  let fetched := scanned_blocks E (trace st) days in
  let events :=
    stake_events_of E (staking_contract (self st))
                    (stake_signatures (self st)) fetched in
  let total := total_of (map se_estimated_amount events) in
  sd_stake_events sd = events
  /\ stake_events (self st') = events
  /\ sd_stake_events_found sd = len events
  /\ sd_unique_stakers sd = count_unique (map se_address events)
  /\ 0 <= sd_unique_stakers sd <= sd_stake_events_found sd
  /\ (sd_unique_stakers sd = 0 <-> events = [])
  /\ sd_total_estimated_stake_amount sd = total
  /\ int_truediv (len events) days = inr (sd_daily_average_stakes sd)
  /\ num_truediv total (Int days) = inr (sd_daily_average_amount sd)
  /\ sd_period_days sd = days
  /\ sd_blocks_scanned sd = 100 * len fetched.
Proof.
  intros Hrun. cbv zeta.
  destruct (analyze_staking_events_value E days st)
    as [st1 [Hval [_ [Hev _]]]].
  rewrite Hrun in Hval. injection Hval as Hres <-.
  symmetry in Hres.
  apply rbind_inv in Hres. destruct Hres as [q [Hq Hres]].
  apply rbind_inv in Hres. destruct Hres as [qa [Hqa Hres]].
  injection Hres as <-.
  cbn [sd_stake_events sd_stake_events_found sd_unique_stakers
       sd_total_estimated_stake_amount sd_daily_average_stakes
       sd_daily_average_amount sd_period_days sd_blocks_scanned].
  set (events := stake_events_of E _ _ _) in *.
  pose proof (count_unique_bounds (map se_address events)) as [Hb Hz].
  assert (len (map se_address events) = len events) as Hlen.
  { unfold len. rewrite length_map. reflexivity. }
  rewrite Hlen in Hb.
  repeat split; try reflexivity; try assumption; try lia.
  - intros H. apply Hz in H. destruct events; [reflexivity|discriminate H].
  - intros ->. reflexivity.
  - rewrite length_scanned_blocks. reflexivity.
Qed.

(** X2 at work: the 14-day scan of the active chain returns the stake of
    block 0 and the stake of block 100. *)
Lemma staking_scan_result_witness :
  match analyze_staking_events busy_chain 14 (configured half) with
  | (inr sd, _) =>
      sd_stake_events_found sd = 2
      /\ sd_unique_stakers sd = 1
      /\ sd_blocks_scanned sd = 200
      /\ map se_transaction_hash (sd_stake_events sd) = ["0xaa"; "0xaa"]
  | (inl _, _) => False
  end.
Proof.
  destruct (analyze_staking_events busy_chain 14 (configured half))
    as [[e|sd] st'] eqn:Hrun.
  - vm_compute in Hrun. discriminate.
  - destruct (staking_scan_result busy_chain 14 (configured half) sd st'
                Hrun)
      as [Hev [_ [Hfound [Huniq [_ [_ [_ [_ [_ [_ Hblocks]]]]]]]]]].
    rewrite Hfound, Huniq, Hblocks, Hev. vm_compute.
    repeat split; reflexivity.
Defined.

(** X3. An unstaking scan that returns gives exactly the unstake events of
    the blocks it fetched, selected as in the staking scan but by the
    unstake selectors, in block order and array order.  The clock is read
    once for every transaction of the contract with an unstake selector
    whose block has an expiry (a block time that can be read and converted
    and an expiry up to the year 9999), in scan order, and the event of the
    transaction is dated by that reading.  The list is stored in the
    object, and the count, the number of unique unstakers, the total, the
    daily averages and the blocks-scanned figure are derived from it as in
    the staking scan. *)
Theorem unstaking_scan_result
  (E : Env) (days : Z) (st : State) (ud : UnstakingData) (st' : State) :
  analyze_unstaking_events E days st = (inr ud, st') ->
  let fetched := scanned_blocks E (trace st) days in
  let found :=
    unstake_events_of E (staking_contract (self st))
                      (unstake_signatures (self st)) (clock st) fetched in
  let events := fst found in
  let total := total_of (map ue_estimated_amount events) in
  ud_unstake_events ud = events
  /\ unstake_events (self st') = events
  /\ clock st' = snd found
  /\ stake_events (self st') = stake_events (self st)
  /\ ud_unstake_events_found ud = len events
  /\ ud_unique_unstakers ud = count_unique (map ue_address events)
  /\ 0 <= ud_unique_unstakers ud <= ud_unstake_events_found ud
  /\ (ud_unique_unstakers ud = 0 <-> events = [])
  /\ ud_total_estimated_unstake_amount ud = total
  /\ int_truediv (len events) days = inr (ud_daily_average_unstakes ud)
  /\ num_truediv total (Int days) = inr (ud_daily_average_amount ud)
  /\ ud_period_days ud = days
  /\ ud_blocks_scanned ud = 100 * len fetched.
Proof.
  intros Hrun. cbv zeta.
  destruct (analyze_unstaking_events_value E days st)
    as [st1 [Hval [_ [Hev [Hc [Hsev _]]]]]].
  rewrite Hrun in Hval. injection Hval as Hres <-.
  symmetry in Hres.
  apply rbind_inv in Hres. destruct Hres as [q [Hq Hres]].
  apply rbind_inv in Hres. destruct Hres as [qa [Hqa Hres]].
  injection Hres as <-.
  cbn [ud_unstake_events ud_unstake_events_found ud_unique_unstakers
       ud_total_estimated_unstake_amount ud_daily_average_unstakes
       ud_daily_average_amount ud_period_days ud_blocks_scanned].
  set (found := unstake_events_of E _ _ _ _) in *.
  pose proof (count_unique_bounds (map ue_address (fst found))) as [Hb Hz].
  assert (len (map ue_address (fst found)) = len (fst found)) as Hlen.
  { unfold len. rewrite length_map. reflexivity. }
  rewrite Hlen in Hb.
  repeat split; try reflexivity; try assumption; try lia.
  - intros H. apply Hz in H.
    destruct (fst found); [reflexivity|discriminate H].
  - intros ->. reflexivity.
  - rewrite length_scanned_blocks. reflexivity.
Qed.

(** X3 at work: the 14-day scan of the active chain, whose clock runs two
    hours ahead of UTC, returns the unstake of block 0, which unlocks in 8
    days, after one reading of the clock. *)
Lemma unstaking_scan_result_witness :
  match analyze_unstaking_events busy_chain 14 (configured half) with
  | (inr ud, st') =>
      ud_unstake_events_found ud = 1
      /\ ud_unique_unstakers ud = 1
      /\ ud_blocks_scanned ud = 200
      /\ map ue_days_remaining (ud_unstake_events ud) = [8]
      /\ clock st' = 1%nat
  | (inl _, _) => False
  end.
Proof.
  destruct (analyze_unstaking_events busy_chain 14 (configured half))
    as [[e|ud] st'] eqn:Hrun.
  - vm_compute in Hrun. discriminate.
  - destruct (unstaking_scan_result busy_chain 14 (configured half) ud st'
                Hrun)
      as [Hev [_ [Hc [_ [Hfound [Huniq [_ [_ [_ [_ [_ [_ Hblocks]]]]]]]]]]]].
    rewrite Hfound, Huniq, Hblocks, Hev, Hc. vm_compute.
    repeat split; reflexivity.
Defined.

(** *** What every event of a scan satisfies *)

Lemma classify_some contract signatures tx t sig :
  classify contract signatures tx = Some (t, sig) ->
  tx = TxDict t
  /\ In sig signatures
  /\ option_map lower (tx_to t) = Some contract
  /\ startswith (tx_input t) sig = true.
Proof.
  unfold classify, destination.
  destruct tx as [h|t0]; [discriminate|].
  destruct (tx_to t0) as [to_address|] eqn:Hto; [|discriminate].
  destruct (String.eqb to_address ""); [discriminate|].
  unfold matching_signature.
  destruct (find _ signatures) as [s|] eqn:Hfind; [|discriminate].
  intros H. injection H as <- <-.
  apply find_some in Hfind. destruct Hfind as [Hin Hm].
  apply andb_true_iff in Hm. destruct Hm as [Heq Hstart].
  apply String.eqb_eq in Heq.
  split; [reflexivity|]. split; [exact Hin|].
  split; [rewrite Hto; cbn [option_map]; rewrite Heq; reflexivity|].
  exact Hstart.
Qed.

Lemma block_time_value_ok (E : Env) bd ts :
  block_time_value E bd = Some ts ->
  exists timestamp_unix, fromtimestamp E timestamp_unix = Some ts.
Proof.
  unfold block_time_value.
  destruct (match block_timestamp bd with
            | Some h => int16 E h
            | None => Some 0
            end) as [n|]; [|discriminate].
  intros H. exists n. exact H.
Qed.

Lemma stake_event_for_some (E : Env) t bd sig ev :
  stake_event_for E t bd sig = Some ev ->
  se_address ev = lower (tx_from t)
  /\ se_transaction_hash ev = tx_hash t
  /\ se_signature ev = sig
  /\ block_time_value E bd = Some (se_timestamp ev)
  /\ exists seed,
       seed_of E (se_address ev) = Some seed
       /\ se_estimated_amount ev = tiered_amount "stake" (random_seed E seed).
Proof.
  unfold stake_event_for.
  destruct (block_time_value E bd) as [ts|]; [|discriminate].
  destruct (seed_of E (lower (tx_from t))) as [seed|] eqn:Hseed;
    [|discriminate].
  intros H. injection H as <-. cbn.
  repeat split; try reflexivity.
  exists seed. split; [exact Hseed | reflexivity].
Qed.

Lemma unstake_event_for_some (E : Env) now t bd sig ev :
  unstake_event_for E now t bd sig = Some ev ->
  ue_address ev = lower (tx_from t)
  /\ ue_transaction_hash ev = tx_hash t
  /\ ue_signature ev = sig
  /\ block_time_value E bd = Some (ue_timestamp ev)
  /\ ue_expiry_date ev = ue_timestamp ev + 1209600
  /\ ue_expiry_date ev <= datetime_max
  /\ ue_days_remaining ev =
     (ue_expiry_date ev * 1000000 - now) / 86400000000
  /\ ue_status ev = (if 0 <? ue_days_remaining ev then active else expired)
  /\ exists seed,
       seed_of E (ue_address ev) = Some seed
       /\ ue_estimated_amount ev =
          tiered_amount "unstake" (random_seed E seed).
Proof.
  unfold unstake_event_for. cbv zeta.
  destruct (block_time_value E bd) as [ts|]; [|discriminate].
  destruct (ts + 14 * 86400 <=? datetime_max) eqn:Hok; [|discriminate].
  destruct (seed_of E (lower (tx_from t))) as [seed|] eqn:Hseed;
    [|discriminate].
  intros H. injection H as <-.
  cbn [ue_address ue_transaction_hash ue_signature ue_timestamp
       ue_expiry_date ue_days_remaining ue_status ue_estimated_amount].
  apply Z.leb_le in Hok.
  repeat split; try reflexivity; try assumption.
  exists seed. split; [exact Hseed | reflexivity].
Qed.

Lemma in_stake_events_of (E : Env) contract signatures fetched ev :
  In ev (stake_events_of E contract signatures fetched) ->
  exists h bd tx t sig,
    In (h, Some bd) fetched
    /\ (exists txs, block_transactions bd = Some txs /\ In tx txs)
    /\ classify contract signatures tx = Some (t, sig)
    /\ stake_event_for E t bd sig = Some ev.
Proof.
  unfold stake_events_of. rewrite in_flat_map.
  intros [[h b] [Hin Hev]]. cbn [snd] in Hev.
  unfold stake_events_of_block in Hev. rewrite in_flat_map in Hev.
  destruct Hev as [[bd tx] [Htx Hev]].
  unfold transactions_of in Htx.
  destruct b as [b|]; [|destruct Htx].
  destruct (block_transactions b) as [txs|] eqn:Htxs; [|destruct Htx].
  apply in_map_iff in Htx. destruct Htx as [tx0 [Hpair Hin0]].
  injection Hpair as <- <-.
  destruct (classify contract signatures tx0) as [[t sig]|] eqn:Hc;
    [|destruct Hev].
  destruct (stake_event_for E t b sig) as [ev0|] eqn:Hfor;
    cbn [option_list In] in Hev; [|destruct Hev].
  destruct Hev as [<-|[]].
  exists h, b, tx0, t, sig. split; [exact Hin|].
  split; [exists txs; split; [exact Htxs | exact Hin0]|].
  split; [exact Hc | exact Hfor].
Qed.

Lemma unstake_step_clock (E : Env) contract signatures h found btx :
  (snd found <= snd (unstake_step E contract signatures h found btx))%nat.
Proof.
  unfold unstake_step.
  destruct (classify contract signatures (snd btx)) as [[t sig]|];
    [|apply Nat.le_refl].
  cbn [snd]. destruct (expiry_of E (fst btx)); [apply Nat.le_succ_diag_r|].
  apply Nat.le_refl.
Qed.

Lemma unstake_steps_clock (E : Env) contract signatures h l : forall found,
  (snd found <=
   snd (fold_left (unstake_step E contract signatures h) l found))%nat.
Proof.
  induction l as [|btx l IH]; intros found; cbn [fold_left].
  - apply Nat.le_refl.
  - eapply Nat.le_trans; [apply unstake_step_clock | apply IH].
Qed.

Lemma unstake_event_for_expiry (E : Env) now t bd sig ev :
  unstake_event_for E now t bd sig = Some ev ->
  exists expiry, expiry_of E bd = Some expiry.
Proof.
  unfold unstake_event_for, expiry_of. cbv zeta.
  destruct (block_time_value E bd) as [ts|]; [|discriminate].
  destruct (ts + 14 * 86400 <=? datetime_max); [|discriminate].
  intros _. eexists. reflexivity.
Qed.

Lemma unstake_step_some (E : Env) contract signatures h found bd tx t sig :
  classify contract signatures tx = Some (t, sig) ->
  unstake_step E contract signatures h found (bd, tx) =
  (fst found ++
   option_list (unstake_event_for E (now_us E h (snd found)) t bd sig),
   match expiry_of E bd with
   | Some _ => S (snd found)
   | None => snd found
   end).
Proof. intros Hc. unfold unstake_step. cbn [fst snd]. rewrite Hc. reflexivity. Qed.

Lemma unstake_step_none (E : Env) contract signatures h found bd tx :
  classify contract signatures tx = None ->
  unstake_step E contract signatures h found (bd, tx) = found.
Proof. intros Hc. unfold unstake_step. cbn [fst snd]. rewrite Hc. reflexivity. Qed.

Lemma in_unstake_steps (E : Env) contract signatures h l ev : forall found,
  In ev (fst (fold_left (unstake_step E contract signatures h) l found)) ->
  In ev (fst found)
  \/ exists bd tx t sig k,
       In (bd, tx) l
       /\ classify contract signatures tx = Some (t, sig)
       /\ (snd found <= k
           < snd (fold_left (unstake_step E contract signatures h) l
                            found))%nat
       /\ unstake_event_for E (now_us E h k) t bd sig = Some ev.
Proof.
  induction l as [|[bd tx] l IH]; intros found Hin; cbn [fold_left] in *.
  - left. exact Hin.
  - apply IH in Hin. destruct Hin as [Hin|Hin].
    + pose proof (unstake_steps_clock E contract signatures h l
                    (unstake_step E contract signatures h found (bd, tx)))
        as Hmono.
      destruct (classify contract signatures tx) as [[t sig]|] eqn:Hc.
      * rewrite (unstake_step_some E _ _ h found bd tx t sig Hc) in Hin.
        cbn [fst] in Hin. apply in_app_iff in Hin.
        destruct Hin as [Hin|Hin]; [left; exact Hin|].
        right. exists bd, tx, t, sig, (snd found).
        split; [left; reflexivity|]. split; [exact Hc|].
        destruct (unstake_event_for E _ t bd sig) as [ev0|] eqn:Hfor;
          cbn [option_list In] in Hin; [|destruct Hin].
        destruct Hin as [<-|[]].
        destruct (unstake_event_for_expiry _ _ _ _ _ _ Hfor) as [x Hx].
        split; [|reflexivity]. split; [apply Nat.le_refl|].
        rewrite (unstake_step_some E _ _ h found bd tx t sig Hc) in Hmono
          at 1.
        cbn [snd] in Hmono. rewrite Hx in Hmono. exact Hmono.
      * rewrite (unstake_step_none E _ _ h found bd tx Hc) in Hin.
        left. exact Hin.
    + right. destruct Hin as [bd0 [tx0 [t [sig [k [Hl [Hc [Hk Hev]]]]]]]].
      exists bd0, tx0, t, sig, k. split; [right; exact Hl|].
      split; [exact Hc|]. split; [|exact Hev].
      split; [|apply Hk].
      eapply Nat.le_trans; [apply unstake_step_clock | apply Hk].
Qed.

Lemma unstake_events_of_clock (E : Env) contract signatures fetched :
  forall found,
  (snd found <=
   snd (fold_left
          (fun found hb =>
             fold_left (unstake_step E contract signatures (fst hb))
                       (transactions_of (snd hb)) found)
          fetched found))%nat.
Proof.
  induction fetched as [|hb fetched IH]; intros found; cbn [fold_left].
  - apply Nat.le_refl.
  - eapply Nat.le_trans; [apply unstake_steps_clock | apply IH].
Qed.

Lemma in_unstake_events_of (E : Env) contract signatures k0 fetched ev :
  In ev (fst (unstake_events_of E contract signatures k0 fetched)) ->
  exists h bd tx t sig k,
    In (h, Some bd) fetched
    /\ (exists txs, block_transactions bd = Some txs /\ In tx txs)
    /\ classify contract signatures tx = Some (t, sig)
    /\ (k0 <= k
        < snd (unstake_events_of E contract signatures k0 fetched))%nat
    /\ unstake_event_for E (now_us E h k) t bd sig = Some ev.
Proof.
  unfold unstake_events_of.
  set (block_step := fun found (hb : list Call * option BlockData) =>
         fold_left (unstake_step E contract signatures (fst hb))
                   (transactions_of (snd hb)) found).
  assert (forall found,
            In ev (fst (fold_left block_step fetched found)) ->
            In ev (fst found)
            \/ exists h bd tx t sig k,
                 In (h, Some bd) fetched
                 /\ (exists txs,
                       block_transactions bd = Some txs /\ In tx txs)
                 /\ classify contract signatures tx = Some (t, sig)
                 /\ (snd found <= k
                     < snd (fold_left block_step fetched found))%nat
                 /\ unstake_event_for E (now_us E h k) t bd sig = Some ev)
    as Hgen.
  { induction fetched as [|[h b] fetched IH]; intros found Hin;
      cbn [fold_left] in *.
    - left. exact Hin.
    - pose proof (unstake_events_of_clock E contract signatures fetched
                    (block_step found (h, b))) as Hmono.
      fold block_step in Hmono.
      apply IH in Hin. destruct Hin as [Hin|Hin].
      + unfold block_step at 1 in Hin. cbn [fst snd] in Hin.
        apply in_unstake_steps in Hin. destruct Hin as [Hin|Hin];
          [left; exact Hin|].
        right. destruct Hin as [bd [tx [t [sig [k [Hl [Hc [Hk Hev]]]]]]]].
        unfold transactions_of in Hl.
        destruct b as [b|]; [|destruct Hl].
        destruct (block_transactions b) as [txs|] eqn:Htxs; [|destruct Hl].
        apply in_map_iff in Hl. destruct Hl as [tx0 [Hpair Hin0]].
        injection Hpair as <- <-.
        exists h, b, tx0, t, sig, k. split; [left; reflexivity|].
        split; [exists txs; split; [exact Htxs | exact Hin0]|].
        split; [exact Hc|]. split; [|exact Hev].
        split; [apply Hk|].
        eapply Nat.lt_le_trans; [apply Hk | exact Hmono].
      + right.
        destruct Hin as [h0 [bd [tx [t [sig [k [Hl [Htx [Hc [Hk Hev]]]]]]]]]].
        exists h0, bd, tx, t, sig, k. split; [right; exact Hl|].
        split; [exact Htx|]. split; [exact Hc|]. split; [|exact Hev].
        split; [|apply Hk].
        eapply Nat.le_trans; [|apply Hk].
        unfold block_step. apply unstake_steps_clock. }
  intros Hin. apply Hgen in Hin. destruct Hin as [[]|Hin]. exact Hin.
Qed.

Lemma analyze_staking_events_events (E : Env) days st sd st' :
  analyze_staking_events E days st = (inr sd, st') ->
  sd_stake_events sd =
  stake_events_of E (staking_contract (self st))
    (stake_signatures (self st)) (scanned_blocks E (trace st) days).
Proof.
  intros Hrun.
  destruct (analyze_staking_events_value E days st) as [st1 [Hval _]].
  rewrite Hrun in Hval. injection Hval as Hres _. symmetry in Hres.
  apply rbind_inv in Hres. destruct Hres as [q [_ Hres]].
  apply rbind_inv in Hres. destruct Hres as [qa [_ Hres]].
  injection Hres as <-. reflexivity.
Qed.

Lemma analyze_unstaking_events_events (E : Env) days st ud st' :
  analyze_unstaking_events E days st = (inr ud, st') ->
  ud_unstake_events ud =
  fst (unstake_events_of E (staking_contract (self st))
         (unstake_signatures (self st)) (clock st)
         (scanned_blocks E (trace st) days)).
Proof.
  intros Hrun.
  destruct (analyze_unstaking_events_value E days st) as [st1 [Hval _]].
  rewrite Hrun in Hval. injection Hval as Hres _. symmetry in Hres.
  apply rbind_inv in Hres. destruct Hres as [q [_ Hres]].
  apply rbind_inv in Hres. destruct Hres as [qa [_ Hres]].
  injection Hres as <-. reflexivity.
Qed.

(** X4. Every event a staking scan returns comes from a transaction object
    of a block the scan fetched, sent to the staking contract, whose input
    starts with the selector the event records, a selector of the
    configured stake list; it carries the lower-cased sender and the hash
    of that transaction and the local date and time of that block, as the
    date conversion gives it; and its amount is the tiered amount drawn
    from the generator seeded with the seed of the sender, nothing of the
    transaction's value or input entering it.  So two events of one scan
    with the same sender carry the same amount. *)
Theorem stake_events_of_a_scan
  (E : Env) (days : Z) (st : State) (sd : StakingData) (st' : State) :
  analyze_staking_events E days st = (inr sd, st') ->
  (forall ev, In ev (sd_stake_events sd) ->
     In (se_signature ev) (stake_signatures (self st))
     /\ (exists timestamp_unix,
           fromtimestamp E timestamp_unix = Some (se_timestamp ev))
     /\ (exists h bd txs t,
           In (h, Some bd) (scanned_blocks E (trace st) days)
           /\ block_transactions bd = Some txs
           /\ In (TxDict t) txs
           /\ block_time_value E bd = Some (se_timestamp ev)
           /\ se_address ev = lower (tx_from t)
           /\ se_transaction_hash ev = tx_hash t
           /\ option_map lower (tx_to t) = Some (staking_contract (self st))
           /\ startswith (tx_input t) (se_signature ev) = true)
     /\ (exists seed,
           seed_of E (se_address ev) = Some seed
           /\ se_estimated_amount ev =
              tiered_amount "stake" (random_seed E seed)))
  /\ (forall e1 e2,
        In e1 (sd_stake_events sd) -> In e2 (sd_stake_events sd) ->
        se_address e1 = se_address e2 ->
        se_estimated_amount e1 = se_estimated_amount e2).
Proof.
  intros Hrun. rewrite (analyze_staking_events_events E days st sd st' Hrun).
  assert (forall ev,
            In ev (stake_events_of E (staking_contract (self st))
                     (stake_signatures (self st))
                     (scanned_blocks E (trace st) days)) ->
            In (se_signature ev) (stake_signatures (self st))
            /\ (exists timestamp_unix,
                  fromtimestamp E timestamp_unix = Some (se_timestamp ev))
            /\ (exists h bd txs t,
                  In (h, Some bd) (scanned_blocks E (trace st) days)
                  /\ block_transactions bd = Some txs
                  /\ In (TxDict t) txs
                  /\ block_time_value E bd = Some (se_timestamp ev)
                  /\ se_address ev = lower (tx_from t)
                  /\ se_transaction_hash ev = tx_hash t
                  /\ option_map lower (tx_to t) =
                     Some (staking_contract (self st))
                  /\ startswith (tx_input t) (se_signature ev) = true)
            /\ (exists seed,
                  seed_of E (se_address ev) = Some seed
                  /\ se_estimated_amount ev =
                     tiered_amount "stake" (random_seed E seed))) as Hall.
  { intros ev Hin. apply in_stake_events_of in Hin.
    destruct Hin as [h [bd [tx [t [sig [Hb [[txs [Htxs Htx]] [Hc Hfor]]]]]]]].
    apply classify_some in Hc. destruct Hc as [-> [Hsig [Hto Hstart]]].
    apply stake_event_for_some in Hfor.
    destruct Hfor as [Ha [Hh [Hs [Hts Hseed]]]].
    rewrite Hs. split; [exact Hsig|].
    split; [exact (block_time_value_ok E bd _ Hts)|].
    split; [|exact Hseed].
    exists h, bd, txs, t. repeat split; assumption. }
  split; [exact Hall|].
  intros e1 e2 H1 H2 Haddr.
  destruct (Hall e1 H1) as [_ [_ [_ [s1 [Hs1 ->]]]]].
  destruct (Hall e2 H2) as [_ [_ [_ [s2 [Hs2 ->]]]]].
  rewrite Haddr in Hs1. rewrite Hs1 in Hs2. injection Hs2 as ->.
  reflexivity.
Qed.

(** X4 at work: the two stake events found on the active chain carry the
    same amount. *)
Lemma stake_events_of_a_scan_witness :
  match analyze_staking_events busy_chain 14 (configured half) with
  | (inr sd, _) =>
      forall e1 e2,
        In e1 (sd_stake_events sd) -> In e2 (sd_stake_events sd) ->
        se_address e1 = se_address e2 ->
        se_estimated_amount e1 = se_estimated_amount e2
  | (inl _, _) => False
  end.
Proof.
  destruct (analyze_staking_events busy_chain 14 (configured half))
    as [[e|sd] st'] eqn:Hrun.
  - vm_compute in Hrun. discriminate.
  - exact (proj2 (stake_events_of_a_scan busy_chain 14 (configured half)
                    sd st' Hrun)).
Defined.

(** X5. Every event an unstaking scan returns comes from a transaction
    object of a block the scan fetched, sent to the staking contract, whose
    input starts with the recorded selector, a selector of the configured
    unstake list.  Its timestamp is the local date and time of that block;
    its expiry is 14 days (1209600 seconds) later on the local calendar and
    not past the year 9999; its days remaining is the floor, in days, of
    the expiry minus the local date and time the clock showed at one of
    its readings during the scan, after the block was fetched; it is
    active exactly when the days remaining are positive and expired
    otherwise; and its amount is the tiered unstake amount of the sender's
    seed, the same for every event of that sender. *)
Theorem unstake_events_of_a_scan
  (E : Env) (days : Z) (st : State) (ud : UnstakingData) (st' : State) :
  analyze_unstaking_events E days st = (inr ud, st') ->
  (forall ev, In ev (ud_unstake_events ud) ->
     In (ue_signature ev) (unstake_signatures (self st))
     /\ (exists h bd txs t k,
           In (h, Some bd) (scanned_blocks E (trace st) days)
           /\ block_transactions bd = Some txs
           /\ In (TxDict t) txs
           /\ block_time_value E bd = Some (ue_timestamp ev)
           /\ ue_address ev = lower (tx_from t)
           /\ ue_transaction_hash ev = tx_hash t
           /\ option_map lower (tx_to t) = Some (staking_contract (self st))
           /\ startswith (tx_input t) (ue_signature ev) = true
           /\ (clock st <= k < clock st')%nat
           /\ ue_days_remaining ev =
              (ue_expiry_date ev * 1000000 - now_us E h k) / 86400000000)
     /\ ue_expiry_date ev = ue_timestamp ev + 1209600
     /\ ue_expiry_date ev <= datetime_max
     /\ (ue_status ev = active <-> 0 < ue_days_remaining ev)
     /\ (ue_status ev = expired <-> ue_days_remaining ev <= 0)
     /\ (exists seed,
           seed_of E (ue_address ev) = Some seed
           /\ ue_estimated_amount ev =
              tiered_amount "unstake" (random_seed E seed)))
  /\ (forall e1 e2,
        In e1 (ud_unstake_events ud) -> In e2 (ud_unstake_events ud) ->
        ue_address e1 = ue_address e2 ->
        ue_estimated_amount e1 = ue_estimated_amount e2).
Proof.
  intros Hrun.
  rewrite (analyze_unstaking_events_events E days st ud st' Hrun).
  destruct (analyze_unstaking_events_value E days st)
    as [st1 [Hval [_ [_ [Hclock _]]]]].
  rewrite Hrun in Hval. injection Hval as _ <-.
  assert (forall ev,
            In ev (fst (unstake_events_of E (staking_contract (self st))
                          (unstake_signatures (self st)) (clock st)
                          (scanned_blocks E (trace st) days))) ->
            In (ue_signature ev) (unstake_signatures (self st))
            /\ (exists h bd txs t k,
                  In (h, Some bd) (scanned_blocks E (trace st) days)
                  /\ block_transactions bd = Some txs
                  /\ In (TxDict t) txs
                  /\ block_time_value E bd = Some (ue_timestamp ev)
                  /\ ue_address ev = lower (tx_from t)
                  /\ ue_transaction_hash ev = tx_hash t
                  /\ option_map lower (tx_to t) =
                     Some (staking_contract (self st))
                  /\ startswith (tx_input t) (ue_signature ev) = true
                  /\ (clock st <= k < clock st')%nat
                  /\ ue_days_remaining ev =
                     (ue_expiry_date ev * 1000000 - now_us E h k)
                     / 86400000000)
            /\ ue_expiry_date ev = ue_timestamp ev + 1209600
            /\ ue_expiry_date ev <= datetime_max
            /\ (ue_status ev = active <-> 0 < ue_days_remaining ev)
            /\ (ue_status ev = expired <-> ue_days_remaining ev <= 0)
            /\ (exists seed,
                  seed_of E (ue_address ev) = Some seed
                  /\ ue_estimated_amount ev =
                     tiered_amount "unstake" (random_seed E seed))) as Hall.
  { intros ev Hin. rewrite Hclock. apply in_unstake_events_of in Hin.
    destruct Hin
      as [h [bd [tx [t [sig [k [Hb [[txs [Htxs Htx]] [Hc [[Hk1 Hk2] Hfor]]]]]]]]]].
    apply classify_some in Hc. destruct Hc as [-> [Hsig [Hto Hstart]]].
    apply unstake_event_for_some in Hfor.
    destruct Hfor as [Ha [Hh [Hs [Hts [Hex [Hok [Hd [Hst Hseed]]]]]]]].
    rewrite Hs. split; [exact Hsig|].
    split; [exists h, bd, txs, t, k; repeat split; assumption|].
    split; [exact Hex|]. split; [exact Hok|].
    rewrite Hst.
    destruct (0 <? ue_days_remaining ev) eqn:Hpos.
    - apply Z.ltb_lt in Hpos. split; [|split; [|exact Hseed]].
      + split; [intros _; exact Hpos | reflexivity].
      + split; [discriminate | lia].
    - apply Z.ltb_ge in Hpos. split; [|split; [|exact Hseed]].
      + split; [discriminate | lia].
      + split; [intros _; exact Hpos | reflexivity]. }
  split; [exact Hall|].
  intros e1 e2 H1 H2 Haddr.
  destruct (Hall e1 H1) as [_ [_ [_ [_ [_ [_ [s1 [Hs1 ->]]]]]]]].
  destruct (Hall e2 H2) as [_ [_ [_ [_ [_ [_ [s2 [Hs2 ->]]]]]]]].
  rewrite Haddr in Hs1. rewrite Hs1 in Hs2. injection Hs2 as ->.
  reflexivity.
Qed.

(** X5 at work: the unstake event found on the active chain expires 14
    days after its block. *)
Lemma unstake_events_of_a_scan_witness :
  match analyze_unstaking_events busy_chain 14 (configured half) with
  | (inr ud, _) =>
      forall ev, In ev (ud_unstake_events ud) ->
        ue_expiry_date ev = ue_timestamp ev + 1209600
  | (inl _, _) => False
  end.
Proof.
  destruct (analyze_unstaking_events busy_chain 14 (configured half))
    as [[e|ud] st'] eqn:Hrun.
  - vm_compute in Hrun. discriminate.
  - intros ev Hin.
    exact (proj1 (proj2 (proj2
             (proj1 (unstake_events_of_a_scan busy_chain 14
                       (configured half) ud st' Hrun) ev Hin)))).
Defined.


(* ================================================================== *)
(** ** The selector lists *)

Lemma prefix_same_length (p q s : string) :
  String.prefix p s = true -> String.prefix q s = true ->
  String.length p = String.length q -> p = q.
Proof.
  revert q s. induction p as [|a p IH]; intros q s Hp Hq Hlen.
  - destruct q; [reflexivity | discriminate Hlen].
  - destruct q as [|b q]; [discriminate Hlen|].
    destruct s as [|c s]; [discriminate Hp|].
    cbn [String.prefix] in Hp, Hq.
    destruct (ascii_dec a c) as [->|]; [|discriminate Hp].
    destruct (ascii_dec b c) as [->|]; [|discriminate Hq].
    f_equal. apply (IH q s Hp Hq). injection Hlen as Hlen. exact Hlen.
Qed.

(** X6. With the selector lists the object is created with, which
    configuring the contracts and the supply never changes, no transaction
    is classified both as a stake and as an unstake: whatever the contract,
    the destination and the input, at most one of the two selector
    searches finds a selector. *)
Theorem no_transaction_is_both_stake_and_unstake
  (contract to_address input_data : string) :
  (matching_signature contract (stake_signatures init_self)
                      to_address input_data = None
   \/ matching_signature contract (unstake_signatures init_self)
                         to_address input_data = None)
  /\ (forall sc tc supply,
        stake_signatures (configure init_self sc tc supply) =
        stake_signatures init_self
        /\ unstake_signatures (configure init_self sc tc supply) =
           unstake_signatures init_self).
Proof.
  split.
  - unfold matching_signature.
    destruct (find _ (stake_signatures init_self)) as [s|] eqn:Hs;
      [|left; reflexivity].
    destruct (find _ (unstake_signatures init_self)) as [u|] eqn:Hu;
      [|right; reflexivity].
    exfalso.
    apply find_some in Hs. destruct Hs as [Hs Hsm].
    apply find_some in Hu. destruct Hu as [Hu Hum].
    apply andb_true_iff in Hsm. destruct Hsm as [_ Hsp].
    apply andb_true_iff in Hum. destruct Hum as [_ Hup].
    unfold startswith in Hsp, Hup.
    assert (String.length s = String.length u -> s = u) as Heq
      by exact (prefix_same_length s u input_data Hsp Hup).
    cbn [stake_signatures unstake_signatures init_self In] in Hs, Hu.
    repeat match goal with
           | H : _ \/ _ |- _ => destruct H as [H|H]
           | H : False |- _ => destruct H
           end; subst s u; specialize (Heq eq_refl); discriminate Heq.
  - intros sc tc supply. unfold configure.
    destruct supply as [z|]; [destruct (z =? 0)|]; split; reflexivity.
Qed.


(* ================================================================== *)
(** ** The pressure timeline as a whole *)

Lemma sum_Z_acc (l : list Z) : forall acc,
  fold_left Z.add l acc = acc + sum_Z l.
Proof.
  unfold sum_Z. induction l as [|x l IH]; intros acc; cbn [fold_left].
  - lia.
  - rewrite IH, (IH (0 + x)). lia.
Qed.

Lemma sum_Z_cons (x : Z) (l : list Z) : sum_Z (x :: l) = x + sum_Z l.
Proof. unfold sum_Z at 1. cbn [fold_left]. rewrite sum_Z_acc. lia. Qed.

Lemma sum_Z_perm (l1 l2 : list Z) :
  Permutation l1 l2 -> sum_Z l1 = sum_Z l2.
Proof.
  induction 1 as [|x l1 l2 _ IH|x y l|l1 l2 l3 _ IH1 _ IH2].
  - reflexivity.
  - rewrite !sum_Z_cons, IH. reflexivity.
  - rewrite !sum_Z_cons. lia.
  - congruence.
Qed.

Lemma count_add_to_bucket (D : list (Z * PressureBucket)) d a :
  sum_Z (map pb_count (map snd (add_to_bucket D d a))) =
  sum_Z (map pb_count (map snd D)) + 1.
Proof.
  induction D as [|[k b] D IH]; cbn [add_to_bucket map snd].
  - reflexivity.
  - destruct (k =? d); cbn [map snd pb_count]; rewrite !sum_Z_cons.
    + lia.
    + rewrite IH. lia.
Qed.

Lemma count_timeline_fold events : forall D,
  sum_Z (map pb_count (map snd (fold_left timeline_step events D))) =
  sum_Z (map pb_count (map snd D))
  + len (filter (fun e => in_window (ue_days_remaining e)) events).
Proof.
  induction events as [|e events IH]; intros D; cbn [fold_left filter].
  - change (len (@nil UnstakeEvent)) with 0. lia.
  - rewrite IH. unfold timeline_step.
    destruct (in_window (ue_days_remaining e)).
    + rewrite count_add_to_bucket. unfold len. cbn [List.length]. lia.
    + reflexivity.
Qed.

Lemma window_days_bound (keys : list Z) :
  NoDup keys -> (forall k, In k keys -> in_window k = true) ->
  len keys <= 15.
Proof.
  intros Hnd Hw.
  assert (incl keys (map Z.of_nat (seq 0 15))) as Hincl.
  { intros k Hk. apply Hw in Hk. unfold in_window in Hk.
    apply andb_true_iff in Hk. destruct Hk as [H0 H14].
    apply Z.leb_le in H0, H14. apply in_map_iff.
    exists (Z.to_nat k). split; [lia|]. apply in_seq. lia. }
  pose proof (NoDup_incl_length Hnd Hincl) as H.
  rewrite length_map, length_seq in H. unfold len. lia.
Qed.

(** X7. The pressure timeline loses and duplicates no event: the counts of
    its buckets add up to the number of unstake events whose days
    remaining lie in [0,14], so the events outside that range, and no
    other, are left out; and it never has more than 15 buckets, one for
    each of the days 0 to 14. *)
Theorem pressure_timeline_counts_every_event_once
  (events : list UnstakeEvent) :
  let timeline := calculate_selling_pressure_timeline events in
  sum_Z (map pb_count timeline) =
    len (filter (fun e => in_window (ue_days_remaining e)) events)
  /\ len timeline <= 15.
Proof.
  cbv zeta. rewrite timeline_unfold.
  assert (dict_ok (fold_left timeline_step events []) events) as Hok.
  { apply (dict_ok_fold events [] []). split; [constructor|].
    intros k. simpl. rewrite andb_false_r. reflexivity. }
  pose proof (count_timeline_fold events []) as Hcount.
  set (D := fold_left timeline_step events []) in *.
  pose proof (sorted_by_day_perm (map snd D)) as Hperm.
  split.
  - rewrite (sum_Z_perm _ _ (Permutation_map pb_count Hperm)).
    rewrite Hcount. reflexivity.
  - unfold len. rewrite (Permutation_length Hperm), length_map.
    rewrite <- (length_map fst D). apply window_days_bound.
    + apply Hok.
    + intros k Hk. apply in_map_iff in Hk.
      destruct Hk as [[k' b] [Hfst Hin]]. cbn [fst] in Hfst. subst k'.
      destruct Hok as [Hnd Hl].
      apply (lookup_In D k b Hnd) in Hin. rewrite Hl in Hin.
      destruct (in_window k); [reflexivity|discriminate Hin].
Qed.

(* ================================================================== *)
(** ** Projections when nothing unlocks within the window *)

Lemma zero_num_compare_l (p : num) (y : Z) :
  is_zero_num p -> num_compare p (Int y) = Some (0 ?= y).
Proof.
  intros [->|[r [s [-> Hr]]]]; [reflexivity|].
  cbn [num_compare]. unfold cmp_Z_float. rewrite Hr. cbn [option_map].
  rewrite (Z.compare_antisym 0 y), CompOpp_involutive. reflexivity.
Qed.

Lemma zero_num_compare_r (p : num) (y : Z) :
  is_zero_num p -> num_compare (Int y) p = Some (y ?= 0).
Proof.
  intros [->|[r [s [-> Hr]]]]; [reflexivity|].
  cbn [num_compare]. unfold cmp_Z_float. rewrite Hr. reflexivity.
Qed.

Lemma positive_float_shape (f : float) :
  num_gt (Float f) (Int 0) = true ->
  Prim2SF f = S754_infinity false
  \/ exists m e, Prim2SF f = S754_finite false m e.
Proof.
  unfold num_gt, num_lt. cbn [num_compare].
  rewrite cmp_Z_float_zero.
  destruct (Prim2SF f) as [s|[]| |[] m e]; simpl; try discriminate.
  - intros _. left. reflexivity.
  - intros _. right. exists m, e. reflexivity.
Qed.

(** [(0 / b) * 100] is a zero once [b > 0] has been checked. *)
Lemma guarded_ratio100_zero_value (b : num) :
  exists p,
    (if num_gt b (Int 0) then ratio100 (Int 0) b else inr (Int 0)) = inr p
    /\ is_zero_num p.
Proof.
  destruct (num_gt b (Int 0)) eqn:Hb;
    [|exists (Int 0); split; [reflexivity | left; reflexivity]].
  unfold ratio100. destruct b as [z|f].
  - assert (z <> 0) as Hz.
    { intros ->. discriminate Hb. }
    cbn [num_truediv]. unfold int_truediv.
    destruct z as [|p|p]; [congruence| |];
      cbn [Z.eqb SF_of_Z SFdiv xorb].
    + exists (Float 0). split; [reflexivity|].
      right. exists 0%float, false. split; reflexivity.
    + exists (Float (-0)). split; [reflexivity|].
      right. exists (-0)%float, true. split; reflexivity.
  - cbn [num_truediv as_float].
    change (int_to_float 0) with (@inr exn _ 0%float).
    cbn [rbind]. unfold float_truediv.
    rewrite (positive_float_not_zero f Hb). cbn [rbind num_mul as_float].
    change (int_to_float 100) with (@inr exn _ 100%float).
    cbn [rbind]. eexists. split; [reflexivity|].
    right. exists (0 / f * 100)%float, false. split; [reflexivity|].
    rewrite mul_spec, div_spec.
    change (Prim2SF 0) with (S754_zero false).
    change (Prim2SF 100) with (S754_finite false 7036874417766400 (-46)).
    destruct (positive_float_shape f Hb) as [->|[m [e ->]]]; reflexivity.
Qed.

Lemma timeline_step_outside events : forall D,
  (forall e, In e events ->
     ue_days_remaining e < 0 \/ 14 < ue_days_remaining e) ->
  fold_left timeline_step events D = D.
Proof.
  induction events as [|e events IH]; intros D H; cbn [fold_left];
    [reflexivity|].
  assert (in_window (ue_days_remaining e) = false) as Hw.
  { unfold in_window. destruct (H e (or_introl eq_refl)) as [Hlt|Hgt].
    - apply andb_false_iff. left. apply Z.leb_gt. exact Hlt.
    - apply andb_false_iff. right. apply Z.leb_gt. exact Hgt. }
  unfold timeline_step at 2. rewrite Hw.
  apply IH. intros e' He'. apply H. right. exact He'.
Qed.

(** X8. Unstake events that unlock outside the days 0 to 14, however many
    and however large, put no pressure into the projections: when every
    event of the unstaking analysis has negative days remaining or more
    than 14, the timeline is empty, the 14-day pressure is the int 0, its
    daily average is 0.0, the intensity is LOW, the liquidity risk is Low
    and the market impact is Limited, whatever the balance and the
    flows. *)
Theorem no_unlock_in_window_no_pressure
  (sd : StakingData) (ud : UnstakingData) (fa : FlowAnalysis)
  (bd : BalanceData) (pr : Projections) :
  (forall e, In e (ud_unstake_events ud) ->
     ue_days_remaining e < 0 \/ 14 < ue_days_remaining e) ->
  calculate_projections_and_pressure sd ud fa bd = inr pr ->
  sp_pressure_timeline (pr_selling_pressure pr) = []
  /\ sp_total_pressure_14_days (pr_selling_pressure pr) = Int 0
  /\ sp_daily_average_pressure (pr_selling_pressure pr) = Float 0
  /\ sp_pressure_intensity (pr_selling_pressure pr) = P_LOW
  /\ pr_liquidity_risk pr = "Low"
  /\ pr_market_impact pr = "Limited".
Proof.
  intros Hout. unfold calculate_projections_and_pressure. cbv zeta.
  rewrite timeline_unfold, (timeline_step_outside _ [] Hout).
  change (sorted_by_day (map snd (@nil (Z * PressureBucket))))
    with (@nil PressureBucket).
  cbn [map num_sum fold_left rbind firstn].
  destruct (guarded_ratio100_zero_value (bd_balance_tokens bd))
    as [p [-> Hp]].
  cbn [rbind].
  assert (num_lt p (Int 1) = true) as Hlt.
  { unfold num_lt. rewrite (zero_num_compare_l p 1 Hp). reflexivity. }
  assert (num_gt p (Int 5) = false) as H5.
  { unfold num_gt, num_lt. rewrite (zero_num_compare_r p 5 Hp).
    reflexivity. }
  assert (num_gt p (Int 2) = false) as H2.
  { unfold num_gt, num_lt. rewrite (zero_num_compare_r p 2 Hp).
    reflexivity. }
  rewrite Hlt, H5, H2.
  intros Hrun.
  apply rbind_inv in Hrun. destruct Hrun as [g [_ Hrun]].
  apply rbind_inv in Hrun. destruct Hrun as [c [_ Hrun]].
  change (num_truediv (Int 0) (Int 14)) with (@inr exn _ (Float 0)) in Hrun.
  cbn [rbind] in Hrun. injection Hrun as <-.
  repeat split; reflexivity.
Qed.

(** X8 at work: an unstake of 5000000 tokens that unlocked three days ago
    leaves the pressure on a balance of one token LOW. *)
Lemma no_unlock_in_window_no_pressure_witness :
  match calculate_projections_and_pressure
          (example_staking 2 (Float 9800)) expired_unstaking steady_flow
          one_token_balance with
  | inr pr =>
      sp_pressure_intensity (pr_selling_pressure pr) = P_LOW
      /\ pr_market_impact pr = "Limited"
  | inl _ => False
  end.
Proof.
  destruct (calculate_projections_and_pressure
              (example_staking 2 (Float 9800)) expired_unstaking
              steady_flow one_token_balance) as [e|pr] eqn:Hrun.
  - vm_compute in Hrun. discriminate.
  - destruct (no_unlock_in_window_no_pressure
                (example_staking 2 (Float 9800)) expired_unstaking
                steady_flow one_token_balance pr
                ltac:(intros e [<-|[]]; left; reflexivity) Hrun)
      as [_ [_ [_ [Hi [_ Hm]]]]].
    split; assumption.
Defined.


(* ================================================================== *)
(** ** Trend, grade and summary *)

Lemma determine_trend_agrees (stake net : num) trend score :
  determine_trend stake net = inr (trend, score) ->
  score = trend_score_of trend.
Proof.
  unfold determine_trend. intros H.
  apply rbind_inv in H. destruct H as [t1 [_ H]].
  destruct (num_gt net t1); [injection H as <- <-; reflexivity|].
  destruct (num_gt net (Int 0)); [injection H as <- <-; reflexivity|].
  apply rbind_inv in H. destruct H as [t2 [_ H]].
  destruct (num_gt net t2); [injection H as <- <-; reflexivity|].
  apply rbind_inv in H. destruct H as [t3 [_ H]].
  destruct (num_gt net t3); injection H as <- <-; reflexivity.
Qed.

Lemma grade_of_factor_sum_thresholds (s : Z) :
  -5 <= s <= 8 -> grade_by_thresholds (s # 4) = grade_of_factor_sum s.
Proof.
  intros Hs.
  assert (s = -5 \/ s = -4 \/ s = -3 \/ s = -2 \/ s = -1 \/ s = 0 \/ s = 1
          \/ s = 2 \/ s = 3 \/ s = 4 \/ s = 5 \/ s = 6 \/ s = 7 \/ s = 8)
    as Hcases by lia.
  repeat (destruct Hcases as [->|Hcases]); try subst s; reflexivity.
Qed.

(** X9. The trend score of a flow analysis is always the score of its
    trend label (+2 STRONG GROWTH, +1 GROWTH, 0 STABLE, -1 DECLINE, -2
    STRONG DECLINE), and the health metrics computed from that analysis
    carry the same label and the same score, the score being the third
    health factor. *)
Theorem trend_score_matches_trend_label
  (E : Env) (sd : StakingData) (ud : UnstakingData) (st : State)
  (fa : FlowAnalysis) (st' : State) :
  analyze_staking_flows E sd ud st = (inr fa, st') ->
  ta_trend_score (fa_trend_analysis fa) =
    trend_score_of (ta_trend (fa_trend_analysis fa))
  /\ forall slf bd hm,
       calculate_complete_health_metrics slf bd sd ud fa = inr hm ->
       hm_trend_direction hm = ta_trend (fa_trend_analysis fa)
       /\ hm_trend_score hm = trend_score_of (hm_trend_direction hm)
       /\ nth_error (ha_health_factors (hm_health_assessment hm)) 2 =
          Some (trend_score_of (hm_trend_direction hm)).
Proof.
  intros Hflow.
  destruct (analyze_staking_flows_trend E sd ud st fa st' Hflow)
    as [net [_ [_ Htrend]]].
  apply determine_trend_agrees in Htrend.
  split; [exact Htrend|].
  intros slf bd hm Hhm.
  destruct (calculate_complete_health_metrics_inv slf bd sd ud fa hm Hhm)
    as [f1 [f2 [f4 [avg [_ [_ [_ [Hfactors _]]]]]]]].
  rewrite Hfactors. cbn [nth_error].
  unfold calculate_complete_health_metrics in Hhm.
  apply rbind_inv in Hhm. destruct Hhm as [ui [_ Hhm]].
  apply rbind_inv in Hhm. destruct Hhm as [sfp [_ Hhm]].
  apply rbind_inv in Hhm. destruct Hhm as [nfp [_ Hhm]].
  cbv zeta in Hhm.
  apply rbind_inv in Hhm. destruct Hhm as [a [_ Hhm]].
  injection Hhm as <-. cbn [hm_trend_direction hm_trend_score].
  rewrite Htrend. repeat split; reflexivity.
Qed.

(** X9 at work: 50000 tokens staked against 20000 unstaked in a day. *)
Lemma trend_score_matches_trend_label_witness :
  match analyze_staking_flows unreachable_node
          (example_staking 2 (Float 50000))
          (example_unstaking 1 (Float 20000)) (configured half) with
  | (inr fa, _) =>
      ta_trend_score (fa_trend_analysis fa) =
      trend_score_of (ta_trend (fa_trend_analysis fa))
  | (inl _, _) => False
  end.
Proof.
  destruct (analyze_staking_flows unreachable_node
              (example_staking 2 (Float 50000))
              (example_unstaking 1 (Float 20000)) (configured half))
    as [[e|fa] st'] eqn:Hrun.
  - vm_compute in Hrun. discriminate.
  - exact (proj1 (trend_score_matches_trend_label unreachable_node _ _ _
                    fa st' Hrun)).
Defined.

(** X10. For health metrics computed from a flow analysis, the sum of the
    four factors lies between -5 and 8 and decides the grade by integer
    cut-offs: EXCELLENT from 6, GOOD from 2 to 5, MODERATE from -2 to 1,
    CRITICAL from -3 down. *)
Theorem grade_by_factor_sum
  (E : Env) (sd : StakingData) (ud : UnstakingData) (st : State)
  (fa : FlowAnalysis) (st' : State) (slf : Self) (bd : BalanceData)
  (hm : HealthMetrics) :
  analyze_staking_flows E sd ud st = (inr fa, st') ->
  calculate_complete_health_metrics slf bd sd ud fa = inr hm ->
  let s := sum_Z (ha_health_factors (hm_health_assessment hm)) in
  -5 <= s <= 8
  /\ ha_health_score (hm_health_assessment hm) = grade_of_factor_sum s.
Proof.
  intros Hflow Hhm.
  destruct (analyze_staking_flows_trend E sd ud st fa st' Hflow)
    as [net [_ [_ Htrend]]].
  apply determine_trend_score in Htrend.
  destruct (calculate_complete_health_metrics_inv slf bd sd ud fa hm Hhm)
    as [f1 [f2 [f4 [avg [H1 [H2 [H4 [Hfactors [Havg Hscore]]]]]]]]].
  cbv zeta. rewrite Hfactors.
  set (f3 := ta_trend_score (fa_trend_analysis fa)) in *.
  assert (sum_Z [f1; f2; f3; f4] = f1 + f2 + f3 + f4) as Hsum
    by (unfold sum_Z; simpl; lia).
  rewrite Hsum in *.
  assert (-5 <= f1 + f2 + f3 + f4 <= 8) as Hrange.
  { simpl in H1, H2, H4, Htrend. lia. }
  split; [exact Hrange|].
  destruct (grade_of_sum _ Hrange) as [avg' [Havg' Hgrade]].
  rewrite Havg in Havg'. injection Havg' as <-.
  rewrite Hscore, Hgrade. apply grade_of_factor_sum_thresholds, Hrange.
Qed.

(** X10 at work: on a balance of one token, 50000 tokens staked against
    20000 unstaked in a day give the factors -1, -1, 2 and 2, graded
    GOOD. *)
Lemma grade_by_factor_sum_witness :
  match analyze_staking_flows unreachable_node
          (example_staking 2 (Float 50000))
          (example_unstaking 1 (Float 20000)) (configured half) with
  | (inr fa, _) =>
      match calculate_complete_health_metrics init_self one_token_balance
              (example_staking 2 (Float 50000))
              (example_unstaking 1 (Float 20000)) fa with
      | inr hm =>
          ha_health_score (hm_health_assessment hm) =
          grade_of_factor_sum
            (sum_Z (ha_health_factors (hm_health_assessment hm)))
      | inl _ => False
      end
  | (inl _, _) => False
  end.
Proof.
  destruct (analyze_staking_flows unreachable_node
              (example_staking 2 (Float 50000))
              (example_unstaking 1 (Float 20000)) (configured half))
    as [[e|fa] st'] eqn:Hrun.
  - vm_compute in Hrun. discriminate.
  - pose proof Hrun as Hfa. vm_compute in Hfa. injection Hfa as Hfa _.
    destruct (calculate_complete_health_metrics init_self one_token_balance
                (example_staking 2 (Float 50000))
                (example_unstaking 1 (Float 20000)) fa) as [e|hm] eqn:Hhm.
    + rewrite <- Hfa in Hhm. vm_compute in Hhm. discriminate.
    + exact (proj2 (grade_by_factor_sum unreachable_node _ _ _ fa st'
                      init_self one_token_balance hm Hrun Hhm)).
Defined.

(** X11. The list of priority actions is never empty and has at most
    seven entries; it is the single entry [Continue regular monitoring]
    exactly when the status is not CRITICAL, the net flow is not below -5
    and the pressure is not above 5; and for the status CRITICAL it starts
    with the three emergency actions. *)
Theorem priority_actions_never_empty
  (status : OverallStatus) (hm : HealthMetrics) (pr : Projections) :
  let actions := get_priority_actions status hm pr in
  let net_flow := fm_net_flow_percentage (hm_flow_metrics hm) in
  let pressure :=
    sp_pressure_percentage_of_staked (pr_selling_pressure pr) in
  1 <= len actions <= 7
  /\ (actions = ["Continue regular monitoring"] <->
      status <> O_CRITICAL
      /\ num_lt net_flow (Int (-5)) = false
      /\ num_gt pressure (Int 5) = false)
  /\ (status = O_CRITICAL ->
      firstn 3 actions =
        ["Implement emergency measures to reduce unstaking";
         "Immediate stakeholder communication";
         "Consider urgent economic incentives"]).
Proof.
  cbv zeta. unfold get_priority_actions. cbv zeta.
  destruct (num_lt (fm_net_flow_percentage (hm_flow_metrics hm)) (Int (-5)));
    destruct (num_gt (sp_pressure_percentage_of_staked
                        (pr_selling_pressure pr)) (Int 5));
    destruct status; cbn [app firstn];
    (split; [unfold len; cbn [List.length]; lia|]);
    (split; [split; [intros H; try discriminate H;
                     repeat split; (reflexivity || discriminate)
                    | intros [H1 [H2 H3]];
                      try discriminate H2; try discriminate H3;
                      try (exfalso; apply H1; reflexivity); reflexivity]
            | intros H; try discriminate H; reflexivity]).
Qed.

(** X11 at work: for the status CRITICAL with a net flow of -20 percent
    and a pressure of 9 percent all seven actions are listed, the
    emergency actions first. *)
Lemma priority_actions_never_empty_witness :
  firstn 3 (get_priority_actions O_CRITICAL
              (health_example CRITICAL STRONG_DECLINE (Float (-20)))
              (projections_example P_CRITICAL (Float 9))) =
    ["Implement emergency measures to reduce unstaking";
     "Immediate stakeholder communication";
     "Consider urgent economic incentives"].
Proof.
  exact (proj2 (proj2 (priority_actions_never_empty O_CRITICAL
                         (health_example CRITICAL STRONG_DECLINE
                                         (Float (-20)))
                         (projections_example P_CRITICAL (Float 9))))
           eq_refl).
Defined.

(** X12. What the overall status of the executive summary can be: it is
    EXCELLENT only for EXCELLENT health with a growth trend and a positive
    net flow, GOOD only for EXCELLENT or GOOD health with a non-negative
    net flow, STABLE only for GOOD or MODERATE health with a net flow
    above -5; MODERATE health always gives STABLE or ATTENTION; CRITICAL
    health gives ATTENTION under HIGH or CRITICAL selling pressure and
    CRITICAL otherwise, and in general a HIGH or CRITICAL selling pressure
    rules the status CRITICAL out; the next review is due in 24 hours
    exactly for the status CRITICAL and in 72 hours exactly for
    ATTENTION. *)
Theorem overall_status_cases
  (hm : HealthMetrics) (fa : FlowAnalysis) (pr : Projections) :
  let es := generate_executive_summary hm fa pr in
  let health := ha_health_score (hm_health_assessment hm) in
  let net := fm_net_flow_percentage (hm_flow_metrics hm) in
  let intensity := sp_pressure_intensity (pr_selling_pressure pr) in
  (es_overall_status es = O_EXCELLENT ->
     health = EXCELLENT
     /\ mentions_growth (hm_trend_direction hm) = true
     /\ num_gt net (Int 0) = true)
  /\ (es_overall_status es = O_GOOD ->
        (health = EXCELLENT \/ health = GOOD)
        /\ num_ge net (Int 0) = true)
  /\ (es_overall_status es = O_STABLE ->
        (health = GOOD \/ health = MODERATE)
        /\ num_gt net (Int (-5)) = true)
  /\ (health = MODERATE ->
        es_overall_status es =
        if num_gt net (Int (-5)) then O_STABLE else O_ATTENTION)
  /\ (health = CRITICAL ->
        es_overall_status es =
        if high_pressure intensity then O_ATTENTION else O_CRITICAL)
  /\ (high_pressure intensity = true -> es_overall_status es <> O_CRITICAL)
  /\ (es_next_review_recommended es = "24 hours" <->
      es_overall_status es = O_CRITICAL)
  /\ (es_next_review_recommended es = "72 hours" <->
      es_overall_status es = O_ATTENTION).
Proof.
  cbv zeta. unfold generate_executive_summary. cbv zeta.
  cbn [es_overall_status es_next_review_recommended].
  destruct (ha_health_score (hm_health_assessment hm));
    destruct (mentions_growth (hm_trend_direction hm));
    destruct (num_gt (fm_net_flow_percentage (hm_flow_metrics hm)) (Int 0));
    destruct (num_ge (fm_net_flow_percentage (hm_flow_metrics hm)) (Int 0));
    destruct (num_gt (fm_net_flow_percentage (hm_flow_metrics hm))
                     (Int (-5)));
    destruct (sp_pressure_intensity (pr_selling_pressure pr));
    cbn [existsb orb andb high_pressure];
    repeat split; intros; try discriminate; try reflexivity;
    auto; congruence.
Qed.

(** X12 at work: CRITICAL health with a net flow of -20 percent under
    CRITICAL selling pressure is reported as ATTENTION. *)
Lemma overall_status_cases_witness :
  es_overall_status
    (generate_executive_summary
       (health_example CRITICAL STRONG_DECLINE (Float (-20))) steady_flow
       (projections_example P_CRITICAL (Float 9))) = O_ATTENTION.
Proof.
  exact (proj1 (proj2 (proj2 (proj2 (proj2
           (overall_status_cases
              (health_example CRITICAL STRONG_DECLINE (Float (-20)))
              steady_flow (projections_example P_CRITICAL (Float 9)))))))
           eq_refl).
Defined.


(* ================================================================== *)
(** ** The weekly counts *)

Section Counting.

Context (E : Env).

Lemma count_block_value (b : BlockData) signatures transactions count st :
  for_each transactions
    (fun count tx =>
       match destination tx with
       | None => ret count
       | Some (t, to_address) =>
           slf <- get_self ;;
           match matching_signature (staking_contract slf)
                   signatures to_address (tx_input t) with
           | Some _ => ret (count + 1)
           | None => ret count
           end
       end)
    count st =
  (inr (count +
        len (filter (fun '(_, tx) =>
                       match classify (staking_contract (self st))
                                      signatures tx with
                       | Some _ => true
                       | None => false
                       end)
                    (map (fun tx => (b, tx)) transactions))), st).
Proof.
  revert count. induction transactions as [|tx txs IH]; intros count;
    cbn [for_each map filter].
  - unfold ret. change (len (@nil (BlockData * TxEntry))) with 0.
    rewrite Z.add_0_r. reflexivity.
  - unfold bind at 1. unfold classify at 1.
    destruct (destination tx) as [[t to_address]|].
    + unfold bind at 1, get_self at 1.
      destruct (matching_signature _ _ _ _); unfold ret at 1; rewrite IH.
      * unfold len. cbn [List.length]. do 2 f_equal. lia.
      * reflexivity.
    + unfold ret at 1. rewrite IH. reflexivity.
Qed.

Lemma matching_transactions_snoc contract signatures fetched h b :
  matching_transactions contract signatures (fetched ++ [(h, b)]) =
  matching_transactions contract signatures fetched ++
  filter (fun '(_, tx) =>
            match classify contract signatures tx with
            | Some _ => true
            | None => false
            end)
         (transactions_of b).
Proof.
  unfold matching_transactions. rewrite flat_map_app. cbn [flat_map snd].
  rewrite app_nil_r. reflexivity.
Qed.

Lemma count_events_in_period_value from_block to_block signatures st :
  count_events_in_period E from_block to_block signatures st =
  (inr (len (matching_transactions (staking_contract (self st)) signatures
               (fetched_blocks E (trace st)
                  (py_range from_block to_block 200)))),
   pushes (scan_calls from_block to_block 200) st).
Proof.
  unfold count_events_in_period.
  set (contract := staking_contract (self st)).
  set (count_of := fun done =>
         len (matching_transactions contract signatures
                (fetched_blocks E (trace st) done))).
  match goal with
  | |- for_each ?blocks ?body _ _ = _ =>
      destruct (for_each_invariant body
                  (fun done count s =>
                     s = pushes (map EthGetBlockByNumber done) st
                     /\ count = count_of done)
                  blocks) with (done := @nil Z) (acc := 0) (st := st)
        as [count [st' [Hrun [Hst Hcount]]]]
  end.
  - intros done n count s [-> ->].
    rewrite (bind_run _ _ _ _ _ (get_block_with_transactions_run E n _)).
    assert (push (EthGetBlockByNumber n)
                 (pushes (map EthGetBlockByNumber done) st) =
            pushes (map EthGetBlockByNumber (done ++ [n])) st) as Hpush.
    { rewrite push_as_pushes, pushes_pushes, map_app. reflexivity. }
    assert (count_of (done ++ [n]) =
            count_of done +
            len (filter (fun '(_, tx) =>
                           match classify contract signatures tx with
                           | Some _ => true
                           | None => false
                           end)
                        (transactions_of
                           (block_at E (trace st ++
                                        map EthGetBlockByNumber done) n))))
      as Hcount.
    { unfold count_of. rewrite fetched_blocks_snoc.
      rewrite matching_transactions_snoc. unfold len.
      rewrite length_app. lia. }
    rewrite Hcount, Hpush. cbn [pushes trace].
    destruct (block_at E (trace st ++ map EthGetBlockByNumber done) n)
      as [b|].
    + destruct (block_transactions b) as [txs|] eqn:Htxs.
      * rewrite (count_block_value b). eexists. eexists.
        split; [reflexivity|]. split; [reflexivity|].
        unfold transactions_of. rewrite Htxs. reflexivity.
      * unfold ret. eexists. eexists. split; [reflexivity|].
        split; [reflexivity|].
        unfold transactions_of. rewrite Htxs.
        change (len (filter _ (@nil (BlockData * TxEntry)))) with 0. lia.
    + unfold ret. eexists. eexists. split; [reflexivity|].
      split; [reflexivity|]. cbn [transactions_of filter].
      change (len (@nil (BlockData * TxEntry))) with 0. lia.
  - split; [rewrite pushes_nil; reflexivity | reflexivity].
  - rewrite Hrun, Hst, Hcount. reflexivity.
Qed.

End Counting.

(** X13. On a node whose answers follow the JSON-RPC schema,
    [count_events_in_period] returns; it fetches every 200th
    block from [from_block] up to, not including, [to_block] and nothing
    else, and returns the number of transaction objects in the fetched
    blocks that are sent to the staking contract with an input starting
    with one of the given selectors.  A transaction counts whether or not
    an event could be built from it, and a block that could not be fetched
    counts for nothing. *)
Theorem period_count_is_number_of_matching_transactions
  (E : Env) (from_block to_block : Z) (signatures : list string)
  (st : State) :
  let blocks := py_range from_block to_block 200 in
  let fetched := fetched_blocks E (trace st) blocks in
  count_events_in_period E from_block to_block signatures st =
    (inr (len (matching_transactions (staking_contract (self st))
                                     signatures fetched)),
     pushes (map EthGetBlockByNumber blocks) st)
  /\ (forall n, In n blocks <->
        from_block <= n < to_block /\ (n - from_block) mod 200 = 0)
  /\ (forall bd tx,
        In (bd, tx)
           (matching_transactions (staking_contract (self st))
                                  signatures fetched) <->
        (exists h txs,
           In (h, Some bd) fetched
           /\ block_transactions bd = Some txs /\ In tx txs)
        /\ exists t sig,
             tx = TxDict t /\ In sig signatures
             /\ option_map lower (tx_to t) =
                Some (staking_contract (self st))
             /\ tx_to t <> Some ""
             /\ startswith (tx_input t) sig = true).
Proof.
  cbv zeta. split; [apply count_events_in_period_value|].
  split; [intros n; apply in_py_range; lia|].
  intros bd tx. unfold matching_transactions. rewrite in_flat_map. split.
  - intros [[h b] [Hin Hm]]. cbn [snd] in Hm.
    apply filter_In in Hm. destruct Hm as [Htx Hc].
    unfold transactions_of in Htx.
    destruct b as [b|]; [|destruct Htx].
    destruct (block_transactions b) as [txs|] eqn:Htxs; [|destruct Htx].
    apply in_map_iff in Htx. destruct Htx as [tx0 [Hpair Hin0]].
    injection Hpair as <- <-.
    split; [exists h, txs; repeat split; assumption|].
    destruct (classify _ signatures tx0) as [[t sig]|] eqn:Hcl;
      [|discriminate Hc].
    pose proof Hcl as Hcl'.
    apply classify_some in Hcl. destruct Hcl as [-> [Hsig [Hto Hstart]]].
    exists t, sig. repeat split; try assumption.
    intros Hempty. unfold classify, destination in Hcl'.
    rewrite Hempty in Hcl'. discriminate Hcl'.
  - intros [[h [txs [Hin [Htxs Htx]]]] [t [sig [-> [Hsig [Hto [Hne Hstart]]]]]]].
    exists (h, Some bd). split; [exact Hin|]. cbn [snd].
    apply filter_In. split.
    + unfold transactions_of. rewrite Htxs. apply in_map. exact Htx.
    + unfold classify, destination.
      destruct (tx_to t) as [to_address|]; [|discriminate Hto].
      destruct (String.eqb to_address "") eqn:He.
      * apply String.eqb_eq in He. subst to_address. congruence.
      * cbn [option_map] in Hto. injection Hto as Hto.
        unfold matching_signature.
        destruct (find _ signatures) as [s|] eqn:Hfind; [reflexivity|].
        pose proof (find_none _ _ Hfind sig Hsig) as Hnone.
        cbv beta in Hnone. rewrite Hto, String.eqb_refl, Hstart in Hnone.
        discriminate Hnone.
Qed.

(* ================================================================== *)
(** ** What the weekly breakdown requests *)

Lemma length_week_window (a : Z) :
  len (py_range (a - 302400) a 200) = 1512.
Proof.
  unfold len, py_range. rewrite length_map, length_seq.
  replace (a - (a - 302400) + 200 - 1) with 302599 by lia.
  reflexivity.
Qed.

Lemma length_week_calls (current_block week : Z) :
  len (week_calls current_block week) = 3024.
Proof.
  unfold week_calls, scan_calls. cbv zeta. unfold len.
  rewrite length_app, !length_map.
  replace (current_block - (week + 1) * 7 * 43200)
    with (current_block - week * 7 * 43200 - 302400) by lia.
  pose proof (length_week_window (current_block - week * 7 * 43200)) as H.
  unfold len in H. lia.
Qed.

Lemma length_weeks_calls (current_block : Z) (ws : list Z) :
  len (flat_map (week_calls current_block) ws) = 3024 * len ws.
Proof.
  induction ws as [|w ws IH]; cbn [flat_map]; [reflexivity|].
  unfold len in *. rewrite length_app. cbn [List.length].
  pose proof (length_week_calls current_block w) as H. unfold len in H.
  lia.
Qed.

Lemma in_week_calls (current_block week n : Z) :
  In (EthGetBlockByNumber n) (week_calls current_block week) <->
  current_block - (week + 1) * 302400 <= n < current_block - week * 302400
  /\ (n - current_block) mod 200 = 0.
Proof.
  unfold week_calls, scan_calls. cbv zeta.
  rewrite in_app_iff, in_map_iff.
  assert ((exists x, EthGetBlockByNumber x = EthGetBlockByNumber n
                     /\ In x (py_range
                                (current_block - (week + 1) * 7 * 43200)
                                (current_block - week * 7 * 43200) 200)) <->
          In n (py_range (current_block - (week + 1) * 7 * 43200)
                         (current_block - week * 7 * 43200) 200)) as Hx.
  { split.
    - intros [x [Hx Hin]]. injection Hx as ->. exact Hin.
    - intros H. exists n. split; [reflexivity | exact H]. }
  rewrite Hx, in_py_range by lia.
  assert ((n - (current_block - (week + 1) * 7 * 43200)) mod 200 =
          (n - current_block) mod 200) as Hmod.
  { replace (n - (current_block - (week + 1) * 7 * 43200))
      with (n - current_block + ((week + 1) * 1512) * 200) by lia.
    apply Z_mod_plus_full. }
  rewrite Hmod. split.
  - intros [H|H]; (split; [lia | apply H]).
  - intros [H1 H2]. left. split; [lia | exact H2].
Qed.

Lemma in_weeks_calls (current_block weeks n : Z) :
  0 <= weeks ->
  In (EthGetBlockByNumber n)
     (flat_map (week_calls current_block) (py_range 0 weeks 1)) <->
  current_block - weeks * 302400 <= n < current_block
  /\ (n - current_block) mod 200 = 0.
Proof.
  intros Hweeks. rewrite in_flat_map. split.
  - intros [w [Hw Hin]]. apply in_py_range in Hw; [|lia].
    apply in_week_calls in Hin. split; [nia | apply Hin].
  - intros [Hn Hmod].
    exists ((current_block - 1 - n) / 302400).
    pose proof (Z.div_mod (current_block - 1 - n) 302400 ltac:(lia)) as Hd.
    pose proof (Z.mod_pos_bound (current_block - 1 - n) 302400 ltac:(lia))
      as Hr.
    assert (0 <= (current_block - 1 - n) / 302400) as H0
      by (apply Z.div_pos; lia).
    assert ((current_block - 1 - n) / 302400 < weeks) as H1
      by (apply Z.div_lt_upper_bound; lia).
    split.
    + apply in_py_range; [lia|]. split; [lia|].
      rewrite Z.mod_1_r. reflexivity.
    + apply in_week_calls. split; [lia | exact Hmod].
Qed.

Lemma analyze_weekly_flows_trace (E : Env) (total_days : Z) (st : State) :
  exists weekly,
    analyze_weekly_flows E total_days st =
    (inr weekly,
     pushes (if total_days <? 7 then []
             else EthBlockNumber ::
                  flat_map (week_calls (latest_at E (trace st)))
                           (py_range 0 (Z.min 4 (total_days / 7)) 1))
            st).
Proof.
  unfold analyze_weekly_flows. destruct (total_days <? 7).
  - exists []. rewrite pushes_nil. reflexivity.
  - cbv zeta. unfold bind at 1. rewrite get_latest_block_number_run.
    match goal with
    | |- context [for_each ?ws ?body ?acc ?st1] =>
        destruct (weekly_loop_run E (Z.min 4 (total_days / 7))
                    (latest_at E (trace st)) ws acc st1) as [bs [Hrun _]]
    end.
    exists bs. rewrite push_pushes in Hrun. exact Hrun.
Qed.

(** X14. For a window of at least 7 days the weekly breakdown posts one
    latest-block request and then 3024 block requests for each of its
    [min 4 (days // 7)] weeks: every 200th block counted back from the
    current block, each fetched once for the stake count and once for the
    unstake count.  The requested block numbers are exactly the numbers
    [current_block - 200 k] down to [current_block - weeks * 302400]; the
    range is not cut at block 0, so on a chain shorter than the weeks
    looked at, or when the latest-block read gives 0, negative block
    numbers are requested. *)
Theorem weekly_breakdown_requests
  (E : Env) (total_days : Z) (st : State) :
  7 <= total_days ->
  let weeks := Z.min 4 (total_days / 7) in
  let current_block := latest_at E (trace st) in
  exists calls,
    trace (snd (analyze_weekly_flows E total_days st)) =
      trace st ++ EthBlockNumber :: calls
    /\ 1 <= weeks <= 4
    /\ len calls = 3024 * weeks
    /\ (forall n, In (EthGetBlockByNumber n) calls <->
          current_block - weeks * 302400 <= n < current_block
          /\ (n - current_block) mod 200 = 0)
    /\ (forall c, In c calls -> exists n, c = EthGetBlockByNumber n)
    /\ (current_block < weeks * 302400 ->
        exists n, n < 0 /\ In (EthGetBlockByNumber n) calls).
Proof.
  intros Hdays weeks current_block.
  assert (1 <= weeks <= 4) as Hweeks.
  { unfold weeks. split; [|apply Z.le_min_l].
    apply Z.min_glb; [lia|].
    apply Z.div_le_lower_bound; lia. }
  destruct (analyze_weekly_flows_trace E total_days st) as [weekly Hrun].
  assert ((total_days <? 7) = false) as Hf by (apply Z.ltb_ge; lia).
  rewrite Hf in Hrun. fold weeks current_block in Hrun.
  exists (flat_map (week_calls current_block) (py_range 0 weeks 1)).
  rewrite Hrun. cbn [snd pushes trace].
  split; [reflexivity|]. split; [exact Hweeks|].
  split; [rewrite length_weeks_calls, length_py_range_unit by lia;
          reflexivity|].
  split; [intros n; apply in_weeks_calls; lia|].
  split.
  - intros c Hc. apply in_flat_map in Hc. destruct Hc as [w [_ Hc]].
    unfold week_calls, scan_calls in Hc. cbv zeta in Hc.
    apply in_app_iff in Hc.
    destruct Hc as [Hc|Hc]; apply in_map_iff in Hc;
      destruct Hc as [n [<- _]]; exists n; reflexivity.
  - intros Hshort. exists (current_block - weeks * 302400).
    split; [lia|]. apply in_weeks_calls; [lia|].
    split; [lia|].
    replace (current_block - weeks * 302400 - current_block)
      with ((- weeks * 1512) * 200) by lia.
    apply Z_mod_mult.
Qed.

(** X14 at work: on an unreachable node the 14-day breakdown posts 6049
    requests, among them block number -604800. *)
Lemma weekly_breakdown_requests_witness :
  len (trace (snd (analyze_weekly_flows unreachable_node 14 (fresh half))))
    = 6049
  /\ In (EthGetBlockByNumber (-604800))
        (trace (snd (analyze_weekly_flows unreachable_node 14
                       (fresh half)))).
Proof.
  destruct (weekly_breakdown_requests unreachable_node 14 (fresh half)
              ltac:(lia)) as [calls [Htrace [_ [Hlen [Hin _]]]]].
  rewrite Htrace. cbn [fresh trace app]. split.
  - unfold len in *. cbn [List.length]. rewrite Nat2Z.inj_succ, Hlen.
    reflexivity.
  - right. apply Hin. split; [vm_compute; split; [discriminate|reflexivity]
                             | reflexivity].
Defined.


(* ================================================================== *)
(** ** The buckets of the weekly breakdown *)

Section WeeklyBuckets.

Context (E : Env).

Lemma weekly_loop_value (weeks current_block : Z) (ws : list Z) :
  forall (acc : list WeeklyBucket) (st : State),
    for_each ws
      (fun weekly_data week =>
         let week_start := current_block - (week + 1) * 7 * 43200 in
         let week_end := current_block - week * 7 * 43200 in
         slf <- get_self ;;
         week_stakes <-
           count_events_in_period E week_start week_end
                                  (stake_signatures slf) ;;
         slf <- get_self ;;
         week_unstakes <-
           count_events_in_period E week_start week_end
                                  (unstake_signatures slf) ;;
         ret (weekly_data ++
              [{| wb_week := weeks - week;
                  wb_stake_events := week_stakes;
                  wb_unstake_events := week_unstakes;
                  wb_net_events := week_stakes - week_unstakes |}]))
      acc st
    = (inr (acc ++ weekly_buckets E (self st) weeks current_block
                     (trace st) ws),
       pushes (flat_map (week_calls current_block) ws) st).
Proof.
  set (body := fun (weekly_data : list WeeklyBucket) (week : Z) => _).
  assert (forall acc w st,
            body acc w st =
            (inr (acc ++ [week_bucket E (self st) weeks current_block
                            (trace st) w]),
             pushes (week_calls current_block w) st)) as Hbody.
  { intros acc w st. unfold body. cbv zeta.
    unfold bind at 1. unfold get_self at 1. unfold bind at 1.
    rewrite count_events_in_period_value.
    unfold bind at 1. unfold get_self at 1. unfold bind at 1.
    rewrite count_events_in_period_value.
    unfold ret, week_calls, week_bucket. rewrite pushes_pushes.
    reflexivity. }
  clearbody body.
  induction ws as [|w ws IH]; intros acc st; cbn [for_each flat_map].
  - cbn [weekly_buckets]. rewrite app_nil_r, pushes_nil. reflexivity.
  - unfold bind at 1. rewrite Hbody. rewrite IH.
    cbn [weekly_buckets]. rewrite <- app_assoc. cbn [app].
    rewrite pushes_pushes. reflexivity.
Qed.

Lemma weekly_buckets_weeks slf weeks current_block ws : forall h,
  map wb_week (weekly_buckets E slf weeks current_block h ws) =
  map (fun week => weeks - week) ws.
Proof.
  induction ws as [|w ws IH]; intros h; cbn [weekly_buckets map].
  - reflexivity.
  - rewrite IH. reflexivity.
Qed.

Lemma weekly_buckets_net slf weeks current_block ws : forall h,
  Forall (fun b => wb_net_events b =
                   wb_stake_events b - wb_unstake_events b)
         (weekly_buckets E slf weeks current_block h ws).
Proof.
  induction ws as [|w ws IH]; intros h; cbn [weekly_buckets].
  - constructor.
  - constructor; [reflexivity | apply IH].
Qed.

Lemma nth_weekly_buckets slf weeks current_block ws : forall h i w,
  nth_error ws i = Some w ->
  nth_error (weekly_buckets E slf weeks current_block h ws) i =
  Some (week_bucket E slf weeks current_block
          (h ++ flat_map (week_calls current_block) (firstn i ws)) w).
Proof.
  induction ws as [|w0 ws IH]; intros h i w Hi.
  - destruct i; discriminate.
  - destruct i as [|i]; cbn [nth_error weekly_buckets firstn flat_map] in *.
    + injection Hi as <-. rewrite app_nil_r. reflexivity.
    + rewrite (IH _ _ _ Hi). rewrite <- app_assoc. reflexivity.
Qed.

End WeeklyBuckets.

Lemma nth_py_range_unit (n k : Z) :
  0 <= k < n -> nth_error (py_range 0 n 1) (Z.to_nat k) = Some k.
Proof.
  intros Hk. unfold py_range.
  replace ((n - 0 + 1 - 1) / 1) with n by (rewrite Z.div_1_r; lia).
  rewrite nth_error_map, nth_error_seq.
  destruct (Nat.ltb_spec (Z.to_nat k) (Z.to_nat n)) as [_|Hge]; [|lia].
  cbn [option_map]. f_equal. lia.
Qed.

Lemma firstn_seq_min (k : nat) : forall n start,
  firstn k (seq start n) = seq start (Nat.min k n).
Proof.
  induction k as [|k IH]; intros [|n] start; cbn [firstn seq Nat.min];
    try reflexivity.
  rewrite IH. reflexivity.
Qed.

Lemma firstn_py_range_unit (n k : Z) :
  0 <= k < n -> firstn (Z.to_nat k) (py_range 0 n 1) = py_range 0 k 1.
Proof.
  intros Hk. unfold py_range.
  replace ((n - 0 + 1 - 1) / 1) with n by (rewrite Z.div_1_r; lia).
  replace ((k - 0 + 1 - 1) / 1) with k by (rewrite Z.div_1_r; lia).
  rewrite firstn_map, firstn_seq_min. do 2 f_equal. lia.
Qed.

(** C7, as the code has it. The weekly breakdown is empty (and nothing is
    requested) when [total_days < 7]; otherwise the call returns exactly
    [weeks = min 4 (total_days // 7)] buckets after one request for the
    latest block and two scans per week. Bucket number [k] of the list
    (from 0) belongs to the 7-day window that ends [k] weeks before the
    current block, so the most recent week comes first: its stake count is
    the number of transactions to the staking contract with a stake
    selector in the blocks fetched every 200 blocks from that window, its
    unstake count the same for the unstake selectors in a second fetch of
    the same blocks, its net count their difference, and its index is
    [weeks - k], so along the output the indices descend from [weeks] to
    1. *)
Theorem weekly_breakdown_shape (E : Env) (total_days : Z) (st : State) :
  (total_days < 7 ->
   analyze_weekly_flows E total_days st = (inr [], st))
  /\
  (7 <= total_days ->
   let weeks := Z.min 4 (total_days / 7) in
   let current_block := latest_at E (trace st) in
   exists weekly,
     analyze_weekly_flows E total_days st =
       (inr weekly,
        pushes (EthBlockNumber ::
                flat_map (week_calls current_block) (py_range 0 weeks 1))
               st)
     /\ len weekly = weeks
     /\ map wb_week weekly =
        map (fun week => weeks - week) (py_range 0 weeks 1)
     /\ Forall (fun b => wb_net_events b =
                         wb_stake_events b - wb_unstake_events b) weekly
     /\ weekly =
        weekly_buckets E (self st) weeks current_block
          (trace st ++ [EthBlockNumber]) (py_range 0 weeks 1)
     /\ forall k, 0 <= k < weeks ->
          nth_error weekly (Z.to_nat k) =
          Some (week_bucket E (self st) weeks current_block
                  (week_history (trace st) current_block k) k)).
Proof.
  split.
  - intros Hlt. unfold analyze_weekly_flows.
    apply Z.ltb_lt in Hlt. rewrite Hlt. reflexivity.
  - intros Hge weeks current_block.
    assert ((total_days <? 7) = false) as Hf by (apply Z.ltb_ge; lia).
    assert (0 <= weeks) as Hw.
    { unfold weeks. apply Z.min_glb; [lia|]. apply Z.div_pos; lia. }
    pose proof (weekly_loop_value E weeks current_block
                  (py_range 0 weeks 1) [] (push EthBlockNumber st)) as Hrun.
    rewrite push_pushes in Hrun. cbn [app push self trace] in Hrun.
    eexists. split; [|split; [|split; [|split; [|split]]]].
    + etransitivity; [|exact Hrun].
      unfold analyze_weekly_flows. rewrite Hf. unfold bind at 1.
      rewrite get_latest_block_number_run. reflexivity.
    + transitivity (len (py_range 0 weeks 1));
        [|apply length_py_range_unit, Hw].
      unfold len. f_equal.
      rewrite <- (length_map wb_week), weekly_buckets_weeks, length_map.
      reflexivity.
    + apply weekly_buckets_weeks.
    + apply weekly_buckets_net.
    + reflexivity.
    + intros k Hk.
      rewrite (nth_weekly_buckets E _ _ _ _ _ _ k
                 (nth_py_range_unit weeks k Hk)).
      rewrite (firstn_py_range_unit weeks k Hk).
      unfold week_history. rewrite <- app_assoc. reflexivity.
Qed.

(** C7 at work: no bucket for a 3-day window; for a 14-day window on a
    chain with two stakes and an unstake in the last week and one unstake
    in the week before, the bucket of the last week comes first. *)
Lemma weekly_breakdown_shape_witness :
  analyze_weekly_flows weekly_chain 3 (configured half)
    = (inr [], configured half)
  /\ fst (analyze_weekly_flows weekly_chain 14 (configured half)) =
     inr [ {| wb_week := 2; wb_stake_events := 2; wb_unstake_events := 1;
              wb_net_events := 1 |};
           {| wb_week := 1; wb_stake_events := 0; wb_unstake_events := 1;
              wb_net_events := -1 |} ].
Proof.
  split.
  - apply (weekly_breakdown_shape weekly_chain 3 (configured half)). lia.
  - destruct (weekly_breakdown_shape weekly_chain 14 (configured half))
      as [_ H].
    destruct (H ltac:(lia)) as [weekly [Hrun [_ [_ [_ [Hval _]]]]]].
    rewrite Hrun. cbn [fst]. rewrite Hval. vm_compute. reflexivity.
Defined.

(** C7 as worded fails on the order of the indices: the 14-day breakdown
    lists the last week first with index 2 and the week before with
    index 1, so along the output the indices descend. *)
Lemma weekly_indices_descend :
  exists weekly,
    fst (analyze_weekly_flows weekly_chain 14 (configured half)) = inr weekly
    /\ map wb_week weekly = [2; 1]
    /\ map wb_stake_events weekly = [2; 0]
    /\ ~ StronglySorted Z.le (map wb_week weekly).
Proof.
  eexists. split; [vm_compute; reflexivity|].
  split; [reflexivity|]. split; [reflexivity|].
  cbn [map wb_week]. intros Hs. inversion Hs as [|a l _ Hall].
  inversion Hall as [|b l' Hle _]. lia.
Qed.


(* ================================================================== *)
(** ** A whole analysis *)

Section Run.

Context (E : Env).

Lemma get_total_staked_balance_state (st : State) bd st' :
  get_total_staked_balance E st = (inr bd, st') ->
  trace st' =
    trace st ++ [balance_call (token_contract (self st))
                              (staking_contract (self st))]
  /\ actual_staked_balance (self st') = bd_balance_tokens bd
  /\ staking_contract (self st') = staking_contract (self st)
  /\ token_contract (self st') = token_contract (self st)
  /\ stake_signatures (self st') = stake_signatures (self st)
  /\ unstake_signatures (self st') = unstake_signatures (self st)
  /\ total_supply (self st') = total_supply (self st)
  /\ token_decimals (self st') = token_decimals (self st).
Proof.
  intros Hrun. unfold get_total_staked_balance in Hrun.
  unfold bind at 1 in Hrun. unfold get_self at 1 in Hrun.
  apply bind_inv in Hrun. destruct Hrun as [r [st1 [Hread Hrun]]].
  destruct (get_token_balance_run E (token_contract (self st))
              (staking_contract (self st)) st) as [r' Hr'].
  rewrite Hr' in Hread. injection Hread as -> <-.
  destruct (match r with
            | Some w => if 0 <? w then Some w else None
            | None => None
            end) as [w|].
  - apply bind_lift_inv in Hrun. destruct Hrun as [tokens [_ Hrun]].
    apply bind_inv in Hrun. destruct Hrun as [[] [st2 [Hset Hrun]]].
    apply bind_lift_inv in Hrun. destruct Hrun as [p [_ Hrun]].
    unfold ret in Hrun. injection Hrun as <- <-.
    unfold set_actual_staked_balance, bind, get_self, set_self in Hset.
    injection Hset as <-. cbn. repeat split; reflexivity.
  - cbv zeta in Hrun.
    apply bind_inv in Hrun. destruct Hrun as [[] [st2 [Hset Hrun]]].
    apply bind_lift_inv in Hrun. destruct Hrun as [p [_ Hrun]].
    unfold ret in Hrun. injection Hrun as <- <-.
    unfold set_actual_staked_balance, bind, get_self, set_self in Hset.
    injection Hset as <-. cbn. repeat split; reflexivity.
Qed.

Lemma int_truediv_by_zero (a : Z) (q : float) :
  int_truediv a 0 = inr q -> False.
Proof. unfold int_truediv. cbn [Z.eqb]. discriminate. Qed.

Lemma analyze_staking_events_inv days st sd st' :
  analyze_staking_events E days st = (inr sd, st') ->
  trace st' = trace st ++ scan_requests E (trace st) days
  /\ sd_period_days sd = days
  /\ days <> 0
  /\ stake_events (self st') = sd_stake_events sd
  /\ unstake_events (self st') = unstake_events (self st)
  /\ staking_contract (self st') = staking_contract (self st)
  /\ token_contract (self st') = token_contract (self st)
  /\ stake_signatures (self st') = stake_signatures (self st)
  /\ unstake_signatures (self st') = unstake_signatures (self st)
  /\ total_supply (self st') = total_supply (self st)
  /\ token_decimals (self st') = token_decimals (self st)
  /\ actual_staked_balance (self st') = actual_staked_balance (self st).
Proof.
  intros Hrun.
  destruct (analyze_staking_events_value E days st)
    as [st1 [Hval [Ht [Hev Hself]]]].
  rewrite Hrun in Hval. injection Hval as Hres <-. symmetry in Hres.
  apply rbind_inv in Hres. destruct Hres as [q [Hq Hres]].
  apply rbind_inv in Hres. destruct Hres as [qa [_ Hres]].
  injection Hres as <-. cbn [sd_period_days sd_stake_events].
  split; [exact Ht|]. split; [reflexivity|].
  split; [intros ->; exact (int_truediv_by_zero _ _ Hq)|].
  split; [exact Hev | exact Hself].
Qed.

Lemma analyze_unstaking_events_inv days st ud st' :
  analyze_unstaking_events E days st = (inr ud, st') ->
  trace st' = trace st ++ scan_requests E (trace st) days
  /\ ud_period_days ud = days
  /\ unstake_events (self st') = ud_unstake_events ud
  /\ stake_events (self st') = stake_events (self st)
  /\ staking_contract (self st') = staking_contract (self st)
  /\ token_contract (self st') = token_contract (self st)
  /\ stake_signatures (self st') = stake_signatures (self st)
  /\ unstake_signatures (self st') = unstake_signatures (self st)
  /\ total_supply (self st') = total_supply (self st)
  /\ token_decimals (self st') = token_decimals (self st)
  /\ actual_staked_balance (self st') = actual_staked_balance (self st).
Proof.
  intros Hrun.
  destruct (analyze_unstaking_events_value E days st)
    as [st1 [Hval [Ht [Hev [_ Hself]]]]].
  rewrite Hrun in Hval. injection Hval as Hres <-. symmetry in Hres.
  apply rbind_inv in Hres. destruct Hres as [q [Hq Hres]].
  apply rbind_inv in Hres. destruct Hres as [qa [_ Hres]].
  injection Hres as <-. cbn [ud_period_days ud_unstake_events].
  split; [exact Ht|]. split; [reflexivity|].
  split; [exact Hev | exact Hself].
Qed.

Lemma analyze_staking_flows_state sd ud st fa st' :
  analyze_staking_flows E sd ud st = (inr fa, st') ->
  st' = pushes (weekly_requests E (trace st) (sd_period_days sd)) st.
Proof.
  unfold analyze_staking_flows. intros H.
  do 9 (apply bind_lift_inv in H; destruct H as [? [? H]]).
  apply bind_inv in H. destruct H as [weekly [st1 [Hw H]]].
  do 3 (apply bind_lift_inv in H; destruct H as [? [? H]]).
  apply bind_inv in H. destruct H as [slf [st2 [Hself H]]].
  apply bind_lift_inv in H. destruct H as [nfp [_ H]].
  unfold ret in H. injection H as _ <-.
  unfold get_self in Hself. injection Hself as _ <-.
  destruct (analyze_weekly_flows_trace E (sd_period_days sd) st)
    as [weekly' Hw'].
  rewrite Hw' in Hw. injection Hw as _ <-. reflexivity.
Qed.

Lemma calculate_complete_health_metrics_base slf bd sd ud fa hm :
  calculate_complete_health_metrics slf bd sd ud fa = inr hm ->
  hm_total_supply hm = total_supply slf
  /\ hm_total_staked hm = bd_balance_tokens bd.
Proof.
  unfold calculate_complete_health_metrics. intros H.
  apply rbind_inv in H. destruct H as [ui [_ H]].
  apply rbind_inv in H. destruct H as [sfp [_ H]].
  apply rbind_inv in H. destruct H as [nfp [_ H]].
  cbv zeta in H.
  apply rbind_inv in H. destruct H as [avg [_ H]].
  injection H as <-. split; reflexivity.
Qed.

End Run.

(** X15. An analysis that returns its report has posted, in this order,
    the balance call for the lower-cased contracts, the requests of the
    staking scan, the requests of the unstaking scan and, for a window of
    at least 7 days, the requests of the weekly breakdown, each scan
    reading the latest block number afresh; its window is not zero days;
    and the object it leaves agrees with the report: the contracts are the
    lower-cased arguments, the staked balance is the one of the balance
    snapshot, the stored stake and unstake events are those of the two
    scan reports, and the supply and staked total of the health metrics
    are the object's supply and the snapshot's balance. *)
Theorem returned_analysis_requests_and_state
  (E : Env) (sc tc : string) (days : Z) (supply : option Z)
  (st : State) (rs : Results) (st' : State) :
  run_complete_analysis E sc tc days supply st = (inr rs, st') ->
  trace st' = run_requests E (trace st) sc tc days
  /\ days <> 0
  /\ rs_analysis_period_days rs = days
  /\ sd_period_days (rs_staking_analysis rs) = days
  /\ ud_period_days (rs_unstaking_analysis rs) = days
  /\ staking_contract (self st') = lower sc
  /\ token_contract (self st') = lower tc
  /\ actual_staked_balance (self st') =
     bd_balance_tokens (rs_balance_data rs)
  /\ stake_events (self st') = sd_stake_events (rs_staking_analysis rs)
  /\ unstake_events (self st') =
     ud_unstake_events (rs_unstaking_analysis rs)
  /\ hm_total_supply (rs_health_metrics rs) = total_supply (self st')
  /\ hm_total_staked (rs_health_metrics rs) =
     bd_balance_tokens (rs_balance_data rs)
  /\ stake_signatures (self st') = stake_signatures (self st)
  /\ unstake_signatures (self st') = unstake_signatures (self st).
Proof.
  intros H. rewrite run_complete_analysis_unfold in H.
  apply bind_inv in H. destruct H as [bd [st1 [H1 H]]].
  apply bind_inv in H. destruct H as [sd [st2 [H2 H]]].
  apply bind_inv in H. destruct H as [ud [st3 [H3 H]]].
  apply bind_inv in H. destruct H as [fa [st4 [H4 H]]].
  apply bind_inv in H. destruct H as [slf [st5 [Hself H]]].
  apply bind_lift_inv in H. destruct H as [hm [Hhm H]].
  apply bind_lift_inv in H. destruct H as [pr [_ H]].
  unfold ret in H. injection H as <- <-.
  unfold get_self in Hself. injection Hself as <- <-.
  apply get_total_staked_balance_state in H1.
  destruct H1 as [T1 [B1 [SC1 [TC1 [SS1 [US1 [TS1 _]]]]]]].
  apply analyze_staking_events_inv in H2.
  destruct H2 as [T2 [D2 [Dz [SE2 [UE2 [SC2 [TC2 [SS2 [US2 [TS2 [_ B2]]]]]]]]]]].
  apply analyze_unstaking_events_inv in H3.
  destruct H3 as [T3 [D3 [UE3 [SE3 [SC3 [TC3 [SS3 [US3 [TS3 [_ B3]]]]]]]]]].
  apply analyze_staking_flows_state in H4. subst st4.
  apply calculate_complete_health_metrics_base in Hhm.
  destruct Hhm as [Hsupply Hstaked].
  cbn [pushes self trace rs_analysis_period_days rs_staking_analysis
       rs_unstaking_analysis rs_balance_data rs_health_metrics] in *.
  cbn [configured_from self trace configure staking_contract
       token_contract stake_signatures unstake_signatures] in *.
  repeat split; try assumption; try congruence.
  unfold run_requests. cbv zeta.
  rewrite D2, T3, T2, T1. reflexivity.
Qed.

(** X15 at work: a 7-day analysis of the active chain. *)
Lemma returned_analysis_requests_and_state_witness :
  match run_complete_analysis busy_chain the_staking_contract
          the_token_contract 7 None (fresh half) with
  | (inr rs, st') =>
      trace st' =
        run_requests busy_chain [] the_staking_contract the_token_contract 7
      /\ stake_events (self st') = sd_stake_events (rs_staking_analysis rs)
  | (inl _, _) => False
  end.
Proof.
  destruct (run_complete_analysis busy_chain the_staking_contract
              the_token_contract 7 None (fresh half))
    as [[e|rs] st'] eqn:Hrun.
  - vm_compute in Hrun. discriminate.
  - destruct (returned_analysis_requests_and_state busy_chain
                the_staking_contract the_token_contract 7 None
                (fresh half) rs st' Hrun)
      as [Ht [_ [_ [_ [_ [_ [_ [_ [Hs _]]]]]]]]].
    split; [exact Ht | exact Hs].
Defined.

(* ================================================================== *)
(** ** The command line *)

Lemma prompt_address_rest stdin a rest :
  prompt_address stdin = inl (a, rest) -> incl rest stdin.
Proof.
  unfold prompt_address. destruct stdin as [|line stdin]; [discriminate|].
  destruct (String.eqb (strip line) ""); [discriminate|].
  intros H. injection H as _ <-. intros x Hx. right. exact Hx.
Qed.

Lemma address_or_prompt_rest given stdin a rest :
  address_or_prompt given stdin = inl (a, rest) -> incl rest stdin.
Proof.
  unfold address_or_prompt. destruct given as [g|].
  - destruct (String.eqb g "").
    + apply prompt_address_rest.
    + intros H. injection H as _ <-. apply incl_refl.
  - apply prompt_address_rest.
Qed.

(** X16. [main] posts no request before the user has confirmed: whenever
    it ends in [sys.exit(0)], which only the cancellation calls, or in the
    [EOFError] of an exhausted input, nothing has been requested; and when
    no line of the input is [y] or [yes] (after stripping and
    lower-casing), nothing is requested and no report is returned,
    whatever the arguments.  A confirmed run that returns its report also
    leaves the interpreter with status 0, after its requests: it ends in
    [Returned], not in [SysExit 0]. *)
Theorem no_request_without_confirmation
  (E : Env) (args : Args) (stdin : list string) (g : Rng) :
  (fst (main E args stdin g) = SysExit 0 \/
   fst (main E args stdin g) = UncaughtEOFError ->
   snd (main E args stdin g) = [])
  /\ ((forall line, In line stdin ->
         lower (strip line) <> "y" /\ lower (strip line) <> "yes") ->
      snd (main E args stdin g) = []
      /\ forall rs, fst (main E args stdin g) <> Returned rs).
Proof.
  unfold main.
  destruct (address_or_prompt (args_staking args) stdin)
    as [[sc stdin1]|out] eqn:H1.
  2:{ split; [intros _; reflexivity|]. intros _. split; [reflexivity|].
      intros rs Hrs. cbn [fst] in Hrs. subst out.
      unfold address_or_prompt, prompt_address in H1.
      destruct (args_staking args) as [a|];
        [destruct (String.eqb a ""); [|discriminate H1]|];
        (destruct stdin as [|l ?]; [discriminate H1|]);
        (destruct (String.eqb (strip l) ""); discriminate H1). }
  destruct (address_or_prompt (args_token args) stdin1)
    as [[tc stdin2]|out] eqn:H2.
  2:{ split; [intros _; reflexivity|]. intros _. split; [reflexivity|].
      intros rs Hrs. cbn [fst] in Hrs. subst out.
      unfold address_or_prompt, prompt_address in H2.
      destruct (args_token args) as [a|];
        [destruct (String.eqb a ""); [|discriminate H2]|];
        (destruct stdin1 as [|l ?]; [discriminate H2|]);
        (destruct (String.eqb (strip l) ""); discriminate H2). }
  cbv zeta.
  destruct stdin2 as [|line stdin3].
  { split; [intros _; reflexivity|]. intros _. split; [reflexivity|].
    intros rs Hrs. discriminate Hrs. }
  destruct (String.eqb (lower (strip line)) "y"
            || String.eqb (lower (strip line)) "yes")%bool eqn:Hc.
  - split.
    + destruct (run_complete_analysis E sc tc (args_days args)
                  (args_supply args) _) as [[e|rs] st'];
        cbn [fst]; intros [H|H]; discriminate H.
    + intros Hno. exfalso.
      assert (In line stdin) as Hin.
      { apply (address_or_prompt_rest _ _ _ _ H1).
        apply (address_or_prompt_rest _ _ _ _ H2). left. reflexivity. }
      destruct (Hno line Hin) as [Hy Hyes].
      apply orb_true_iff in Hc.
      destruct Hc as [Hc|Hc]; apply String.eqb_eq in Hc; contradiction.
  - split; [intros _; reflexivity|]. intros _. split; [reflexivity|].
    intros rs Hrs. discriminate Hrs.
Qed.

(** X16 at work: answering [n] to the confirmation ends without a
    request. *)
Lemma no_request_without_confirmation_witness :
  snd (main busy_chain (example_args 14) ["n"] half) = [].
Proof.
  apply (proj2 (no_request_without_confirmation busy_chain (example_args 14)
                  ["n"] half)).
  intros line [<-|[]]. split; discriminate.
Defined.

(** X17. A [--supply] of 0 is the same as none: the analysis runs with
    the supply the object already has.  Any other supply, a negative one
    too, replaces it, and the health metrics of a returned report carry
    the supply the analysis ran with. *)
Theorem supply_zero_means_default
  (E : Env) (sc tc : string) (days : Z) (st : State) :
  run_complete_analysis E sc tc days (Some 0) st =
    run_complete_analysis E sc tc days None st
  /\ forall supply rs st',
       run_complete_analysis E sc tc days supply st = (inr rs, st') ->
       hm_total_supply (rs_health_metrics rs) =
       match supply with
       | Some n => if n =? 0 then total_supply (self st) else n
       | None => total_supply (self st)
       end.
Proof.
  split; [reflexivity|].
  intros supply rs st' H. rewrite run_complete_analysis_unfold in H.
  apply bind_inv in H. destruct H as [bd [st1 [H1 H]]].
  apply bind_inv in H. destruct H as [sd [st2 [H2 H]]].
  apply bind_inv in H. destruct H as [ud [st3 [H3 H]]].
  apply bind_inv in H. destruct H as [fa [st4 [H4 H]]].
  apply bind_inv in H. destruct H as [slf [st5 [Hself H]]].
  apply bind_lift_inv in H. destruct H as [hm [Hhm H]].
  apply bind_lift_inv in H. destruct H as [pr [_ H]].
  unfold ret in H. injection H as <- <-.
  unfold get_self in Hself. injection Hself as <- <-.
  apply get_total_staked_balance_state in H1.
  destruct H1 as [_ [_ [_ [_ [_ [_ [TS1 _]]]]]]].
  apply analyze_staking_events_inv in H2.
  destruct H2 as [_ [_ [_ [_ [_ [_ [_ [_ [_ [TS2 _]]]]]]]]]].
  apply analyze_unstaking_events_inv in H3.
  destruct H3 as [_ [_ [_ [_ [_ [_ [_ [_ [TS3 _]]]]]]]]].
  apply analyze_staking_flows_state in H4. subst st4.
  apply calculate_complete_health_metrics_base in Hhm.
  destruct Hhm as [Hsupply _].
  cbn [rs_health_metrics pushes self] in *.
  rewrite Hsupply, TS3, TS2, TS1. reflexivity.
Qed.

(** X17 at work: an analysis of the unreachable node with a supply of 500
    tokens reports that supply. *)
Lemma supply_zero_means_default_witness :
  match run_complete_analysis unreachable_node the_staking_contract
          the_token_contract 1 (Some 500) (fresh half) with
  | (inr rs, _) => hm_total_supply (rs_health_metrics rs) = 500
  | (inl _, _) => False
  end.
Proof.
  destruct (run_complete_analysis unreachable_node the_staking_contract
              the_token_contract 1 (Some 500) (fresh half))
    as [[e|rs] st'] eqn:Hrun.
  - vm_compute in Hrun. discriminate.
  - exact (proj2 (supply_zero_means_default unreachable_node
                    the_staking_contract the_token_contract 1 (fresh half))
             (Some 500) rs st' Hrun).
Defined.


(* ================================================================== *)
(** ** The ledger reads *)

Lemma block_at_failed (E : Env) h n :
  failed (post_eth_getBlockByNumber E h n) -> block_at E h n = None.
Proof.
  intros H. unfold block_at.
  destruct H as [->|[code [body [-> Hcode]]]]; [reflexivity|].
  destruct code as [|p|p]; try reflexivity.
  do 8 (destruct p as [p|p|]; try reflexivity).
  congruence.
Qed.

Lemma latest_at_failed (E : Env) h :
  failed (post_eth_blockNumber E h) -> latest_at E h = 0.
Proof.
  intros H. unfold latest_at.
  destruct H as [->|[code [body [-> Hcode]]]]; [reflexivity|].
  destruct code as [|p|p]; try reflexivity.
  do 8 (destruct p as [p|p|]; try reflexivity).
  congruence.
Qed.

(** X18. The three ledger reads never raise and post exactly one request
    each, leaving the object and the generator as they were.  A failed
    request (the transport raises or the status is not 200) is not told
    apart from an honest answer: the latest block number is then 0, the
    block is None, and the balance is None when the transport raised and 0
    for a status other than 200. *)
Theorem ledger_reads_swallow_failures
  (E : Env) (st : State) (n : Z) (token holder : string) :
  (exists v,
     get_latest_block_number E st = (inr v, push EthBlockNumber st)
     /\ (failed (post_eth_blockNumber E (trace st)) -> v = 0))
  /\ (exists b,
        get_block_with_transactions E n st =
          (inr b, push (EthGetBlockByNumber n) st)
        /\ (failed (post_eth_getBlockByNumber E (trace st) n) -> b = None))
  /\ (exists r,
        get_token_balance E token holder st =
          (inr r, push (balance_call token holder) st)
        /\ let answer :=
             post_eth_call E (trace st) token
               (String.append "0x70a08231"
                              (zfill64 (lower (drop2 holder)))) in
           (answer = Raised -> r = None)
           /\ (forall code body,
                 answer = Responded code body -> code <> 200 ->
                 r = Some 0)).
Proof.
  split; [|split].
  - exists (latest_at E (trace st)).
    split; [apply get_latest_block_number_run | apply latest_at_failed].
  - exists (block_at E (trace st) n).
    split; [apply get_block_with_transactions_run | apply block_at_failed].
  - destruct (get_token_balance_run E token holder st) as [r Hr].
    exists r. split; [exact Hr|]. cbv zeta.
    unfold get_token_balance, bind, post in Hr.
    destruct (post_eth_call E (trace st) token _) as [|code body].
    + injection Hr as <-. split; [reflexivity|]. intros c b H. discriminate H.
    + split; [intros H; discriminate H|].
      intros c b H Hcode. injection H as <- <-.
      destruct code as [|p|p];
        try (destruct body as [[| |?]|]; injection Hr as <-; reflexivity).
      do 8 (destruct p as [p|p|];
            try (destruct body as [[| |?]|]; injection Hr as <-;
                 reflexivity)).
      congruence.
Qed.

(* ================================================================== *)
(** ** The labels of the projections *)

Lemma cmp_Z_float_above (z z' : Z) (f : float) :
  z <= z' -> cmp_Z_float z f = Some Gt -> cmp_Z_float z' f = Some Gt.
Proof.
  intros Hle. unfold cmp_Z_float.
  destruct (Prim2SF f) as [s|s| |s m e]; try discriminate.
  - intros H. injection H as H. apply -> Z.compare_gt_iff in H.
    f_equal. apply Z.compare_gt_iff. lia.
  - intros H. exact H.
  - cbv zeta. destruct (0 <=? e) eqn:He; [|apply Z.leb_gt in He].
    + intros H. injection H as H. apply -> Z.compare_gt_iff in H.
      f_equal. apply Z.compare_gt_iff. lia.
    + intros H. injection H as H. apply -> Z.compare_gt_iff in H.
      f_equal. apply Z.compare_gt_iff.
      assert (0 < 2 ^ (- e)) as HP by (apply Z.pow_pos_nonneg; lia).
      revert H HP. generalize (2 ^ (- e)).
      generalize (if s then Z.neg m else Z.pos m). intros v P H HP. nia.
Qed.

Lemma cmp_Z_float_below (z z' : Z) (f : float) (c : comparison) :
  z' < z -> cmp_Z_float z f = Some c -> c <> Gt ->
  cmp_Z_float z' f = Some Lt.
Proof.
  intros Hlt. unfold cmp_Z_float.
  destruct (Prim2SF f) as [s|s| |s m e]; try discriminate.
  - intros H Hc. injection H as H. f_equal. apply Z.compare_lt_iff.
    destruct (Z.compare_spec z 0); subst c; try lia. congruence.
  - intros H Hc. destruct s; [injection H as <-; congruence | reflexivity].
  - cbv zeta. destruct (0 <=? e) eqn:He; [|apply Z.leb_gt in He].
    + intros H Hc. injection H as H. f_equal. apply Z.compare_lt_iff.
      match type of H with
      | (z ?= ?v) = _ => destruct (Z.compare_spec z v); subst c; try lia
      end.
      congruence.
    + intros H Hc. injection H as H. f_equal. apply Z.compare_lt_iff.
      assert (0 < 2 ^ (- e)) as HP by (apply Z.pow_pos_nonneg; lia).
      revert H HP. generalize (2 ^ (- e)).
      generalize (if s then Z.neg m else Z.pos m). intros v P H HP.
      destruct (Z.compare_spec (z * P) v); subst c; try nia; congruence.
Qed.

(** Below [a] is not above [b] when [a <= b]. *)
Lemma num_lt_not_gt (p : num) (a b : Z) :
  a <= b -> num_lt p (Int a) = true -> num_gt p (Int b) = false.
Proof.
  intros Hab. unfold num_gt, num_lt. destruct p as [x|f]; cbn [num_compare].
  - destruct (x ?= a) eqn:Hx; try discriminate. intros _.
    apply -> Z.compare_lt_iff in Hx.
    destruct (b ?= x) eqn:Hb; try reflexivity.
    apply -> Z.compare_lt_iff in Hb. exfalso. lia.
  - destruct (cmp_Z_float a f) as [[]|] eqn:Ha; cbn [option_map CompOpp];
      try discriminate.
    intros _. rewrite (cmp_Z_float_above a b f Hab Ha). reflexivity.
Qed.

(** Not below [a], but below something, is above [b] when [b < a]. *)
Lemma num_not_lt_gt (p : num) (a b c : Z) :
  b < a -> num_lt p (Int a) = false -> num_lt p (Int c) = true ->
  num_gt p (Int b) = true.
Proof.
  intros Hba. unfold num_gt, num_lt. destruct p as [x|f]; cbn [num_compare].
  - intros Ha _. destruct (x ?= a) eqn:Hx; try discriminate.
    + apply -> Z.compare_eq_iff in Hx.
      assert ((b ?= x) = Lt) as -> by (apply Z.compare_lt_iff; lia).
      reflexivity.
    + apply -> Z.compare_gt_iff in Hx.
      assert ((b ?= x) = Lt) as -> by (apply Z.compare_lt_iff; lia).
      reflexivity.
  - intros Ha Hc.
    destruct (cmp_Z_float c f) as [cc|] eqn:Hcc; [|discriminate Hc].
    destruct (cmp_Z_float a f) as [ca|] eqn:Hca.
    + assert (ca <> Gt) as Hne.
      { intros ->. discriminate Ha. }
      rewrite (cmp_Z_float_below a b f ca Hba Hca Hne). reflexivity.
    + unfold cmp_Z_float in Hcc, Hca.
      destruct (Prim2SF f) as [s|s| |s m e]; try discriminate.
      cbv zeta in Hca. destruct (0 <=? e); discriminate.
Qed.

(** X19. The labels of the projections never contradict one another, as
    they are all read off the same pressure percentage: with the intensity
    LOW the liquidity risk is Low and the market impact Limited; with
    MODERATE the risk is Medium and the impact is not Significant; with
    HIGH the risk is High and the impact is not Limited; with CRITICAL the
    risk is High.  The timeline kept in the report has at most seven
    buckets. *)
Theorem projection_labels_agree
  (sd : StakingData) (ud : UnstakingData) (fa : FlowAnalysis)
  (bd : BalanceData) (pr : Projections) :
  calculate_projections_and_pressure sd ud fa bd = inr pr ->
  let intensity := sp_pressure_intensity (pr_selling_pressure pr) in
  (intensity = P_LOW ->
     pr_liquidity_risk pr = "Low" /\ pr_market_impact pr = "Limited")
  /\ (intensity = P_MODERATE ->
        pr_liquidity_risk pr = "Medium"
        /\ pr_market_impact pr <> "Significant")
  /\ (intensity = P_HIGH ->
        pr_liquidity_risk pr = "High" /\ pr_market_impact pr <> "Limited")
  /\ (intensity = P_CRITICAL -> pr_liquidity_risk pr = "High")
  /\ len (sp_pressure_timeline (pr_selling_pressure pr)) <= 7.
Proof.
  unfold calculate_projections_and_pressure. cbv zeta. intros H.
  apply rbind_inv in H. destruct H as [total [_ H]].
  apply rbind_inv in H. destruct H as [p [_ H]].
  apply rbind_inv in H. destruct H as [g [_ H]].
  apply rbind_inv in H. destruct H as [c [_ H]].
  apply rbind_inv in H. destruct H as [a [_ H]].
  injection H as <-.
  cbn [pr_selling_pressure sp_pressure_intensity pr_liquidity_risk
       pr_market_impact sp_pressure_timeline].
  assert (len (firstn 7 (calculate_selling_pressure_timeline
                           (ud_unstake_events ud))) <= 7) as Hlen.
  { unfold len. pose proof (firstn_le_length 7
      (calculate_selling_pressure_timeline (ud_unstake_events ud))). lia. }
  destruct (num_lt p (Int 1)) eqn:H1.
  { rewrite (num_lt_not_gt p 1 5 ltac:(lia) H1).
    rewrite (num_lt_not_gt p 1 2 ltac:(lia) H1).
    repeat split; try exact Hlen; intros; (reflexivity || discriminate). }
  destruct (num_lt p (Int 3)) eqn:H3.
  { rewrite (num_lt_not_gt p 3 5 ltac:(lia) H3).
    repeat split; try exact Hlen; intros; try reflexivity;
      try discriminate.
    destruct (num_gt p (Int 2)); discriminate. }
  destruct (num_lt p (Int 7)) eqn:H7.
  { rewrite (num_not_lt_gt p 3 2 7 ltac:(lia) H3 H7).
    repeat split; try exact Hlen; intros; try reflexivity;
      try discriminate.
    destruct (num_gt p (Int 5)); discriminate. }
  repeat split; try exact Hlen; intros; (reflexivity || discriminate).
Qed.

(** X19 at work: the expired unstake of 5000000 tokens gives the labels
    LOW, Low and Limited. *)
Lemma projection_labels_agree_witness :
  match calculate_projections_and_pressure
          (example_staking 2 (Float 9800)) expired_unstaking steady_flow
          one_token_balance with
  | inr pr =>
      sp_pressure_intensity (pr_selling_pressure pr) = P_LOW
      /\ pr_liquidity_risk pr = "Low"
      /\ pr_market_impact pr = "Limited"
      /\ len (sp_pressure_timeline (pr_selling_pressure pr)) <= 7
  | inl _ => False
  end.
Proof.
  destruct (calculate_projections_and_pressure
              (example_staking 2 (Float 9800)) expired_unstaking
              steady_flow one_token_balance) as [e|pr] eqn:Hrun.
  - vm_compute in Hrun. discriminate.
  - destruct (projection_labels_agree _ _ _ _ pr Hrun)
      as [Hlow [_ [_ [_ Hlen]]]].
    assert (sp_pressure_intensity (pr_selling_pressure pr) = P_LOW) as Hi
      by (vm_compute in Hrun; injection Hrun as <-; reflexivity).
    destruct (Hlow Hi) as [Hrisk Himpact].
    split; [exact Hi|]. split; [exact Hrisk|].
    split; [exact Himpact | exact Hlen].
Defined.
